(** * WeGameJS: the ECS core and the physics engine

    A shallow embedding of [engine/core] (Entity, Component, System, World)
    and of [engine/components/Physics.js], [engine/components/Transform.js]
    and [engine/systems/PhysicsSystem.js], followed by the properties of
    the specification that concern them.

    JavaScript numbers are IEEE-754 binary64 values: they are modelled by
    Rocq's primitive floats, whose operations round exactly as the
    JavaScript operators do.  Objects that the code mutates in place are
    modelled by explicit state passing; an exception thrown by the code is
    an [outcome] carrying the state reached when it was thrown. *)

From Stdlib Require Import Floats ZArith List String Bool Lia Sorted Permutation.
From stdpp Require Import base list strings.
Import ListNotations.

Set Warnings "-inexact-float,-register-all".

(** ** JavaScript values and control *)

Module JS.
Local Open Scope float_scope.

(** [ToBoolean] on a number: [0], [-0] and [NaN] are falsy. *)
Definition truthy (v : float) : bool := negb (v =? 0) && negb (is_nan v).

(** [data.field || dflt] where the field holds a number or is undefined. *)
Definition or_number (o : option float) (dflt : float) : float :=
  match o with
  | Some v => if truthy v then v else dflt
  | None => dflt
  end.

(** [data.field || dflt] for a string: the empty string is falsy. *)
Definition or_string (o : option string) (dflt : string) : string :=
  match o with
  | Some v => if String.eqb v "" then dflt else v
  | None => dflt
  end.

(** [data.field || dflt] for an array: every array is truthy. *)
Definition or_array {A : Type} (o : option (list A)) (dflt : list A) : list A :=
  match o with Some v => v | None => dflt end.

(** [data.field !== undefined ? data.field : dflt]. *)
Definition defined_or {A : Type} (o : option A) (dflt : A) : A :=
  match o with Some v => v | None => dflt end.

Definition is_negative_zero (v : float) : bool := (v =? 0) && (1 / v <? 0).

(** [Math.min] and [Math.max]: NaN is contagious and [-0] is below [+0]. *)
Definition Math_min (a b : float) : float :=
  if is_nan a || is_nan b then nan
  else if a <? b then a
  else if b <? a then b
  else if is_negative_zero a then a else b.

Definition Math_max (a b : float) : float :=
  if is_nan a || is_nan b then nan
  else if a <? b then b
  else if b <? a then a
  else if is_negative_zero a then b else a.

Inductive Error : Type :=
| ReferenceError (identifier : string)
| TypeError (message : string)
| PlainError (message : string).

(** The result of running a statement list on a state: it completes, or an
    exception leaves it with the mutations made so far. *)
Inductive outcome (S : Type) : Type :=
| Normal (s : S)
| Throw (e : Error) (s : S).
Arguments Normal {S} s.
Arguments Throw {S} e s.

Definition state_of {S : Type} (o : outcome S) : S :=
  match o with Normal s => s | Throw _ s => s end.

Definition completes {S : Type} (o : outcome S) : bool :=
  match o with Normal _ => true | Throw _ _ => false end.

(** [array.forEach(f)] for a callback that mutates the state [S]. *)
Fixpoint forEach {A S : Type} (f : A -> S -> outcome S) (l : list A) (s : S)
    : outcome S :=
  match l with
  | [] => Normal s
  | a :: l' =>
      match f a s with
      | Normal s' => forEach f l' s'
      | Throw e s' => Throw e s'
      end
  end.

(** The identifiers a module can refer to: its imports and its own
    declarations.  An identifier outside them (and outside the built-in
    globals) raises a ReferenceError when it is evaluated. *)
Definition resolveBinding (scope : list string) (identifier : string)
    : option string :=
  if existsb (String.eqb identifier) scope then Some identifier else None.
End JS.

Import JS (outcome, Normal, Throw).

(** ** JavaScript [Map] with string keys

    A [Map] iterates in insertion order and [set] on a present key keeps
    its place, so it is an association list without repeated keys. *)

Module JSMap.
Section Operations.
Context {V : Type}.

Fixpoint get (k : string) (m : list (string * V)) : option V :=
  match m with
  | [] => None
  | (k', v) :: m' => if String.eqb k k' then Some v else get k m'
  end.

Definition has (k : string) (m : list (string * V)) : bool :=
  match get k m with Some _ => true | None => false end.

Fixpoint set (k : string) (v : V) (m : list (string * V)) : list (string * V) :=
  match m with
  | [] => [(k, v)]
  | (k', v') :: m' =>
      if String.eqb k k' then (k, v) :: m' else (k', v') :: set k v m'
  end.

Definition delete (k : string) (m : list (string * V)) : list (string * V) :=
  List.filter (fun entry => negb (String.eqb k (fst entry))) m.

Definition values (m : list (string * V)) : list V := map snd m.
Definition keys (m : list (string * V)) : list string := map fst m.

End Operations.
End JSMap.

(** ** engine/core/Component.js *)

Module Component.

(** The base fields of a component.  [className] is
    [this.constructor.name]; [entity] is the back-reference to the owner,
    shown by its id. *)
Record t : Type := {
  className : string;
  entity : option string;
  enabled : bool
}.

Definition constructor (className0 : string) : t :=
  {| className := className0; entity := None; enabled := true |}.

Definition set_entity (owner : option string) (this : t) : t :=
  {| className := className this; entity := owner; enabled := enabled this |}.

End Component.

(** ** engine/core/Entity.js *)

Module Entity.

Record t : Type := {
  id : string;
  components : list (string * Component.t);
  tags : list string;
  enabled : bool
}.

(** [new Entity(id)] with an id given. *)
Definition constructor (id0 : string) : t :=
  {| id := id0; components := []; tags := []; enabled := true |}.

Definition set_components (v : list (string * Component.t)) (this : t) : t :=
  {| id := id this; components := v; tags := tags this; enabled := enabled this |}.

(** [addComponent(component)]: stored under [component.constructor.name]. *)
Definition addComponent (component : Component.t) (this : t) : t :=
  let componentName := Component.className component in
  set_components
    (JSMap.set componentName (Component.set_entity (Some (id this)) component)
       (components this))
    this.

(** [getComponent(componentClass)].  The argument is a class or a class
    name; both come down to a name.  [None] stands for [null] or
    [undefined], and the empty name is falsy as well. *)
Definition getComponent (componentClass : option string) (this : t)
    : option Component.t :=
  match componentClass with
  | None => None
  | Some componentName =>
      if String.eqb componentName "" then None
      else JSMap.get componentName (components this)
  end.

Definition hasComponent (componentClass : string) (this : t) : bool :=
  JSMap.has componentClass (components this).

(** [removeComponent(componentClass)]: whether something was removed, and
    the entity afterwards.  Nothing but the entity and the removed
    component is touched. *)
Definition removeComponent (componentClass : string) (this : t) : bool * t :=
  match JSMap.get componentClass (components this) with
  | Some _ =>
      (true, set_components (JSMap.delete componentClass (components this)) this)
  | None => (false, this)
  end.

Definition enable (this : t) : t :=
  {| id := id this; components := components this; tags := tags this;
     enabled := true |}.

Definition disable (this : t) : t :=
  {| id := id this; components := components this; tags := tags this;
     enabled := false |}.

Definition isEnabled (this : t) : bool := enabled this.

Definition destroy (this : t) : t :=
  {| id := id this; components := []; tags := []; enabled := enabled this |}.

End Entity.

(** ** engine/core/System.js *)

Module System.

(** [name] is [this.constructor.name].  Priorities are the integers the
    engine uses ([0] by default, [100] for PhysicsSystem), for which the
    comparator [a.getPriority() - b.getPriority()] is exact.
    [implementsUpdate] tells whether the subclass overrides [update]; the
    base method throws. *)
Record t : Type := {
  name : string;
  world : option string;
  enabled : bool;
  priority : Z;
  requiredComponents : list string;
  implementsUpdate : bool
}.

Definition constructor (name0 : string) (implementsUpdate0 : bool) : t :=
  {| name := name0; world := None; enabled := true; priority := 0%Z;
     requiredComponents := []; implementsUpdate := implementsUpdate0 |}.

Definition getName (this : t) : string := name this.
Definition isEnabled (this : t) : bool := enabled this.
Definition getPriority (this : t) : Z := priority this.

Definition setPriority (v : Z) (this : t) : t :=
  {| name := name this; world := world this; enabled := enabled this;
     priority := v; requiredComponents := requiredComponents this;
     implementsUpdate := implementsUpdate this |}.

Definition setRequiredComponents (v : list string) (this : t) : t :=
  {| name := name this; world := world this; enabled := enabled this;
     priority := priority this; requiredComponents := v;
     implementsUpdate := implementsUpdate this |}.

Definition set_world (v : option string) (this : t) : t :=
  {| name := name this; world := v; enabled := enabled this;
     priority := priority this; requiredComponents := requiredComponents this;
     implementsUpdate := implementsUpdate this |}.

Definition disable (this : t) : t :=
  {| name := name this; world := world this; enabled := false;
     priority := priority this; requiredComponents := requiredComponents this;
     implementsUpdate := implementsUpdate this |}.

(** [matches(entity)]: the loop returns [false] at the first required
    class the entity lacks. *)
Definition matches (this : t) (entity : Entity.t) : bool :=
  if negb (Entity.isEnabled entity) then false
  else forallb (fun ComponentClass => Entity.hasComponent ComponentClass entity)
         (requiredComponents this).

End System.

(** ** engine/core/World.js *)

Module World.
Local Open Scope float_scope.

(** The [data] argument of an event. *)
Inductive Payload : Type :=
| EntityData (entity : string)
| SystemData (system : string)
| WorldData (world : string)
| UpdateData (deltaTime currentTime : float).

(** What a method of World does besides changing the World: console
    output, calls of the hooks that System subclasses override, and the
    delivery of events.  The bodies of the hooks and of the listeners belong
    to the games, not to the core; each call is recorded in order. *)
Inductive Effect : Type :=
| ConsoleWarn (message : string)
| CallInit (system : string)
| CallDestroy (system : string)
| CallOnEntityAdded (system entity : string)
| CallOnEntityRemoved (system entity : string)
| CallUpdate (system : string) (deltaTime : float)
| Emit (event : string) (data : Payload)
| CallListener (event : string) (listener : nat) (data : Payload).

Record t : Type := {
  name : string;
  entities : list (string * Entity.t);
  systems : list (string * System.t);
  entityCounter : nat;
  isRunning : bool;
  lastUpdateTime : float;
  eventListeners : list (string * list nat)
}.

Definition constructor (name0 : string) : t :=
  {| name := name0; entities := []; systems := []; entityCounter := 0%nat;
     isRunning := false; lastUpdateTime := 0; eventListeners := [] |}.

Definition set_entities (v : list (string * Entity.t)) (this : t) : t :=
  {| name := name this; entities := v; systems := systems this;
     entityCounter := entityCounter this; isRunning := isRunning this;
     lastUpdateTime := lastUpdateTime this;
     eventListeners := eventListeners this |}.

Definition set_systems (v : list (string * System.t)) (this : t) : t :=
  {| name := name this; entities := entities this; systems := v;
     entityCounter := entityCounter this; isRunning := isRunning this;
     lastUpdateTime := lastUpdateTime this;
     eventListeners := eventListeners this |}.

Definition set_entityCounter (v : nat) (this : t) : t :=
  {| name := name this; entities := entities this; systems := systems this;
     entityCounter := v; isRunning := isRunning this;
     lastUpdateTime := lastUpdateTime this;
     eventListeners := eventListeners this |}.

Definition set_isRunning (v : bool) (this : t) : t :=
  {| name := name this; entities := entities this; systems := systems this;
     entityCounter := entityCounter this; isRunning := v;
     lastUpdateTime := lastUpdateTime this;
     eventListeners := eventListeners this |}.

Definition set_lastUpdateTime (v : float) (this : t) : t :=
  {| name := name this; entities := entities this; systems := systems this;
     entityCounter := entityCounter this; isRunning := isRunning this;
     lastUpdateTime := v;
     eventListeners := eventListeners this |}.

(** [on(eventName, listener)]. *)
Definition on (eventName : string) (listener : nat) (this : t) : t :=
  let listeners :=
    match JSMap.get eventName (eventListeners this) with
    | Some ls => ls
    | None => []
    end in
  {| name := name this; entities := entities this; systems := systems this;
     entityCounter := entityCounter this; isRunning := isRunning this;
     lastUpdateTime := lastUpdateTime this;
     eventListeners :=
       JSMap.set eventName (listeners ++ [listener]) (eventListeners this) |}.

(** [emit(eventName, data)]: every listener of the event is called; what a
    listener throws is caught. *)
Definition emit (eventName : string) (data : Payload) (this : t) : list Effect :=
  Emit eventName data ::
  match JSMap.get eventName (eventListeners this) with
  | Some listeners => map (fun l => CallListener eventName l data) listeners
  | None => []
  end.

(** The hook calls of [this.systems.forEach(system => { if
    (system.matches(entity)) system.onEntityAdded(entity) })]. *)
Definition notifyAdded (systems0 : list System.t) (entity : Entity.t)
    : list Effect :=
  flat_map
    (fun system =>
       if System.matches system entity
       then [CallOnEntityAdded (System.name system) (Entity.id entity)]
       else [])
    systems0.

Definition notifyRemoved (systems0 : list System.t) (entity : Entity.t)
    : list Effect :=
  flat_map
    (fun system =>
       if System.matches system entity
       then [CallOnEntityRemoved (System.name system) (Entity.id entity)]
       else [])
    systems0.

(** [addEntity(entity)]: the returned boolean, the World afterwards and
    what the call did. *)
Definition addEntity (entity : Entity.t) (this : t) : bool * t * list Effect :=
  if JSMap.has (Entity.id entity) (entities this) then
    (false, this,
     [ConsoleWarn ("Entity with id " ++ Entity.id entity
                   ++ " already exists in world " ++ name this)])
  else
    let this := set_entities (JSMap.set (Entity.id entity) entity (entities this)) this in
    let this := set_entityCounter (S (entityCounter this)) this in
    (true, this,
     notifyAdded (JSMap.values (systems this)) entity
     ++ emit "entityAdded" (EntityData (Entity.id entity)) this).

(** [removeEntity(entityOrId)]. *)
Definition removeEntity (entityId : string) (this : t) : bool * t * list Effect :=
  match JSMap.get entityId (entities this) with
  | None => (false, this, [])
  | Some entity =>
      let notified := notifyRemoved (JSMap.values (systems this)) entity in
      let this := set_entities (JSMap.delete entityId (entities this)) this in
      (true, this, notified ++ emit "entityRemoved" (EntityData entityId) this)
  end.

Definition getEntity (entityId : string) (this : t) : option Entity.t :=
  JSMap.get entityId (entities this).

Definition getEntities (this : t) : list Entity.t := JSMap.values (entities this).

Definition getSystem (systemName : string) (this : t) : option System.t :=
  JSMap.get systemName (systems this).

Definition getSystems (this : t) : list System.t := JSMap.values (systems this).

(** [System.getMatchingEntities()], which asks the World. *)
Definition getMatchingEntities (system : System.t) (this : t) : list Entity.t :=
  List.filter (fun entity => System.matches system entity) (getEntities this).

(** [addSystem(system)]. *)
Definition addSystem (system : System.t) (this : t) : bool * t * list Effect :=
  let systemName := System.getName system in
  if JSMap.has systemName (systems this) then
    (false, this,
     [ConsoleWarn ("System " ++ systemName ++ " already exists in world "
                   ++ name this)])
  else
    let system := System.set_world (Some (name this)) system in
    let this := set_systems (JSMap.set systemName system (systems this)) this in
    (true, this,
     [CallInit systemName]
     ++ flat_map
          (fun entity =>
             if System.matches system entity
             then [CallOnEntityAdded systemName (Entity.id entity)]
             else [])
          (JSMap.values (entities this))
     ++ emit "systemAdded" (SystemData systemName) this).

(** [removeSystem(systemOrName)]. *)
Definition removeSystem (systemName : string) (this : t) : bool * t * list Effect :=
  match JSMap.get systemName (systems this) with
  | None => (false, this, [])
  | Some system =>
      let this := set_systems (JSMap.delete systemName (systems this)) this in
      (true, this,
       [CallDestroy systemName] ++ emit "systemRemoved" (SystemData systemName) this)
  end.

(** [start()]; [now] is the value of [Date.now()]. *)
Definition start (now : float) (this : t) : t * list Effect :=
  if isRunning this then
    (this, [ConsoleWarn ("World " ++ name this ++ " is already running")])
  else
    let this := set_lastUpdateTime now (set_isRunning true this) in
    (this, emit "worldStarted" (WorldData (name this)) this).

(** [Array.prototype.sort(compare)]: a stable sort; [b] goes before [a]
    only when [compare(a, b) > 0]. *)
Fixpoint sortInsert {A : Type} (compare : A -> A -> Z) (a : A) (l : list A)
    : list A :=
  match l with
  | [] => [a]
  | b :: l' =>
      if (0 <? compare a b)%Z then b :: sortInsert compare a l'
      else a :: b :: l'
  end.

Fixpoint sort {A : Type} (compare : A -> A -> Z) (l : list A) : list A :=
  match l with
  | [] => []
  | a :: l' => sortInsert compare a (sort compare l')
  end.

(** The comparator of line 233. *)
Definition byPriority (a b : System.t) : Z :=
  (System.getPriority a - System.getPriority b)%Z.

(** Line 233. *)
Definition sortedSystems (this : t) : list System.t :=
  sort byPriority (getSystems this).

(** Lines 236-240: [forEach] over the sorted systems.  The base
    [System.update] throws, which ends the loop and [update]. *)
Fixpoint updateSystems (deltaTime : float) (l : list System.t)
    : outcome (list Effect) :=
  match l with
  | [] => Normal []
  | system :: l' =>
      if System.isEnabled system then
        if System.implementsUpdate system then
          match updateSystems deltaTime l' with
          | Normal effects =>
              Normal (CallUpdate (System.name system) deltaTime :: effects)
          | Throw e effects =>
              Throw e (CallUpdate (System.name system) deltaTime :: effects)
          end
        else
          Throw (JS.PlainError "System.update() must be implemented by subclass")
                [CallUpdate (System.name system) deltaTime]
      else updateSystems deltaTime l'
  end.

(** [update(currentTime)]: the World afterwards and what the call did,
    whether it returned or threw. *)
Definition update (currentTime : float) (this : t) : outcome (t * list Effect) :=
  if negb (isRunning this) then Normal (this, [])
  else
    let deltaTime := (currentTime - lastUpdateTime this) / 1000 in
    let this := set_lastUpdateTime currentTime this in
    match updateSystems deltaTime (sortedSystems this) with
    | Throw e effects => Throw e (this, effects)
    | Normal effects =>
        Normal (this,
                effects ++ emit "worldUpdated" (UpdateData deltaTime currentTime) this)
    end.

(** The systems whose [update] was called, in the order of the calls. *)
Definition updateCalls (effects : list Effect) : list string :=
  flat_map
    (fun e => match e with CallUpdate system _ => [system] | _ => [] end)
    effects.

(** The number of calls of [onEntityRemoved] on [system] for [entity]. *)
Definition countOnEntityRemoved (system entity : string) (effects : list Effect)
    : nat :=
  length
    (List.filter
       (fun e =>
          match e with
          | CallOnEntityRemoved s i => String.eqb s system && String.eqb i entity
          | _ => false
          end)
       effects).

(** A caller that holds an entity registered in the World and calls one of
    the entity's methods: the World's map holds the same object, so it sees
    the change.  The call reaches nothing else. *)
Definition onEntity {A : Type} (entityId : string) (method : Entity.t -> A * Entity.t)
    (this : t) : option A * t * list Effect :=
  match JSMap.get entityId (entities this) with
  | Some entity =>
      let '(result, entity) := method entity in
      (Some result, set_entities (JSMap.set entityId entity (entities this)) this, [])
  | None => (None, this, [])
  end.

(** [stop()]. *)
Definition stop (this : t) : t * list Effect :=
  if negb (isRunning this) then
    (this, [ConsoleWarn ("World " ++ name this ++ " is not running")])
  else
    let this := set_isRunning false this in
    (this, emit "worldStopped" (WorldData (name this)) this).

(** [listeners.indexOf(listener)] followed by [splice(index, 1)]: the
    first occurrence goes. *)
Fixpoint removeFirst (listener : nat) (listeners : list nat) : list nat :=
  match listeners with
  | [] => []
  | l :: listeners' =>
      if Nat.eqb l listener then listeners' else l :: removeFirst listener listeners'
  end.

(** [off(eventName, listener)]. *)
Definition off (eventName : string) (listener : nat) (this : t) : t :=
  match JSMap.get eventName (eventListeners this) with
  | Some listeners =>
      {| name := name this; entities := entities this; systems := systems this;
         entityCounter := entityCounter this; isRunning := isRunning this;
         lastUpdateTime := lastUpdateTime this;
         eventListeners :=
           JSMap.set eventName (removeFirst listener listeners)
             (eventListeners this) |}
  | None => this
  end.

(** [getEntitiesWithComponents(componentClasses)]. *)
Definition getEntitiesWithComponents (componentClasses : list string) (this : t)
    : list Entity.t :=
  List.filter
    (fun entity =>
       forallb (fun ComponentClass => Entity.hasComponent ComponentClass entity)
         componentClasses)
    (getEntities this).

(** [clear()]: every system is destroyed, both registries are emptied, the
    counter goes back to zero. *)
Definition clear (this : t) : t * list Effect :=
  let destroyed := map (fun system => CallDestroy (System.name system))
                       (JSMap.values (systems this)) in
  let this := set_systems [] this in
  let this := set_entities [] this in
  let this := set_entityCounter 0 this in
  (this, destroyed ++ emit "worldCleared" (WorldData (name this)) this).

(** [destroy()]: [stop], [clear], then the listeners are dropped, then
    [worldDestroyed] is emitted. *)
Definition destroy (this : t) : t * list Effect :=
  let '(this, stopped) := stop this in
  let '(this, cleared) := clear this in
  let this :=
    {| name := name this; entities := entities this; systems := systems this;
       entityCounter := entityCounter this; isRunning := isRunning this;
       lastUpdateTime := lastUpdateTime this; eventListeners := [] |} in
  (this, stopped ++ cleared ++ emit "worldDestroyed" (WorldData (name this)) this).

(** The bindings of the module World.js: it imports nothing and declares
    the class World. *)
Definition moduleScope : list string := ["World"]%string.

(** [createEntity(id)] in a module whose bindings are [scope]; [entityId]
    is the id given, or the one [generateId] would produce.  Line 28
    evaluates [new Entity(id)]. *)
Definition createEntityIn (scope : list string) (entityId : string) (this : t)
    : outcome (option Entity.t * t * list Effect) :=
  match JS.resolveBinding scope "Entity" with
  | None => Throw (JS.ReferenceError "Entity") (None, this, [])
  | Some _ =>
      let entity := Entity.constructor entityId in
      let '(_, this, effects) := addEntity entity this in
      Normal (Some entity, this, effects)
  end.

(** The method as World.js defines it. *)
Definition createEntity (entityId : string) (this : t)
    : outcome (option Entity.t * t * list Effect) :=
  createEntityIn moduleScope entityId this.

(** What a game can do with a World and with the entities registered in
    it. *)
Inductive Call : Type :=
| AddEntity (entity : Entity.t)
| RemoveEntity (entityId : string)
| AddSystem (system : System.t)
| RemoveSystem (systemName : string)
| Start (now : float)
| Stop
| Update (currentTime : float)
| Clear
| Destroy
| On (eventName : string) (listener : nat)
| Off (eventName : string) (listener : nat)
| AddComponent (entityId : string) (component : Component.t)
| RemoveComponent (entityId : string) (componentClass : string)
| Enable (entityId : string)
| Disable (entityId : string).

(** The World after one call. *)
Definition perform (call : Call) (this : t) : t :=
  match call with
  | AddEntity entity => snd (fst (addEntity entity this))
  | RemoveEntity entityId => snd (fst (removeEntity entityId this))
  | AddSystem system => snd (fst (addSystem system this))
  | RemoveSystem systemName => snd (fst (removeSystem systemName this))
  | Start now => fst (start now this)
  | Stop => fst (stop this)
  | Update currentTime => fst (JS.state_of (update currentTime this))
  | Clear => fst (clear this)
  | Destroy => fst (destroy this)
  | On eventName listener => on eventName listener this
  | Off eventName listener => off eventName listener this
  | AddComponent entityId component =>
      snd (fst (onEntity entityId
                  (fun entity => (tt, Entity.addComponent component entity)) this))
  | RemoveComponent entityId componentClass =>
      snd (fst (onEntity entityId (Entity.removeComponent componentClass) this))
  | Enable entityId =>
      snd (fst (onEntity entityId (fun entity => (tt, Entity.enable entity)) this))
  | Disable entityId =>
      snd (fst (onEntity entityId (fun entity => (tt, Entity.disable entity)) this))
  end.

(** The World after a sequence of calls. *)
Definition performAll (calls : list Call) (this : t) : t :=
  fold_left (fun w call => perform call w) calls this.

(** The listeners that were called for [event], in the order of the
    calls. *)
Definition listenerCalls (event : string) (effects : list Effect) : list nat :=
  flat_map
    (fun e =>
       match e with
       | CallListener event0 listener _ =>
           if String.eqb event0 event then [listener] else []
       | _ => []
       end)
    effects.

(** The systems on which [onEntityAdded], respectively [onEntityRemoved],
    was called for [entity], in the order of the calls. *)
Definition addedCalls (entity : string) (effects : list Effect) : list string :=
  flat_map
    (fun e =>
       match e with
       | CallOnEntityAdded system entity0 =>
           if String.eqb entity0 entity then [system] else []
       | _ => []
       end)
    effects.

Definition removedCalls (entity : string) (effects : list Effect) : list string :=
  flat_map
    (fun e =>
       match e with
       | CallOnEntityRemoved system entity0 =>
           if String.eqb entity0 entity then [system] else []
       | _ => []
       end)
    effects.

(** The listeners subscribed to [event], in subscription order. *)
Definition listenersOf (event : string) (this : t) : list nat :=
  match JSMap.get event (eventListeners this) with
  | Some listeners => listeners
  | None => []
  end.

(** The systems on which [destroy] was called, in the order of the calls. *)
Definition destroyCalls (effects : list Effect) : list string :=
  flat_map (fun e => match e with CallDestroy s => [s] | _ => [] end) effects.

End World.

(** ** engine/components/Transform.js *)

Module Transform.
Local Open Scope float_scope.

(** [children] is left out: no function of the physics engine reads it. *)
Inductive t : Type := mk {
  x : float; y : float; z : float;
  rotation : float;
  scaleX : float; scaleY : float;
  anchorX : float; anchorY : float;
  parent : option t
}.

Fixpoint getWorldPosition (this : t) : float * float :=
  match this with
  | mk x0 y0 _ _ _ _ _ _ (Some p) =>
      let parentWorldPos := getWorldPosition p in
      (fst parentWorldPos + x0, snd parentWorldPos + y0)
  | mk x0 y0 _ _ _ _ _ _ None => (x0, y0)
  end.

(** [new Transform({x, y})]. *)
Definition constructor (dx dy : option float) : t :=
  mk (JS.or_number dx 0) (JS.or_number dy 0) 0 0 1 1 0.5 0.5 None.

Definition set_x (v : float) (this : t) : t :=
  mk v (y this) (z this) (rotation this) (scaleX this) (scaleY this)
     (anchorX this) (anchorY this) (parent this).

Definition set_y (v : float) (this : t) : t :=
  mk (x this) v (z this) (rotation this) (scaleX this) (scaleY this)
     (anchorX this) (anchorY this) (parent this).

Definition set_rotation (v : float) (this : t) : t :=
  mk (x this) (y this) (z this) v (scaleX this) (scaleY this)
     (anchorX this) (anchorY this) (parent this).
End Transform.

(** ** engine/components/Physics.js *)

Module Physics.
Local Open Scope float_scope.

Record Point : Type := { px : float; py : float }.

(** An entry of [forces]: [{x, y, duration, elapsed}]. *)
Record Force : Type := {
  fx : float; fy : float; duration : float; elapsed : float
}.

(** An entry of [impulses]: [{x, y}]. *)
Record Impulse : Type := { ix : float; iy : float }.

(** What [performShapeCollision] returns and [handleCollision] receives.
    The object that PhysicsSystem builds for the second body has no
    [point]. *)
Record CollisionInfo : Type := {
  normalX : float; normalY : float; depth : float;
  point : option Point
}.

(** An entry of [collisions].  [other] is a reference to the other Physics
    component; it is represented by the id of the entity owning it. *)
Record CollisionRecord : Type := {
  other : string;
  recNormalX : float; recNormalY : float; recDepth : float
}.

(** [{x, y, width, height}] as returned by [getBounds]. *)
Record Bounds : Type := {
  bx : float; by_ : float; width : float; height : float
}.

Record t : Type := mk {
  entity : option string;
  enabled : bool;
  velocityX : float;
  velocityY : float;
  velocityZ : float;
  accelerationX : float;
  accelerationY : float;
  accelerationZ : float;
  angularVelocity : float;
  angularAcceleration : float;
  mass : float;
  friction : float;
  airResistance : float;
  gravityX : float;
  gravityY : float;
  gravityScale : float;
  collisionEnabled : bool;
  collisionGroup : string;
  collisionMask : list string;
  collisionShape : string;
  collisionWidth : float;
  collisionHeight : float;
  collisionRadius : float;
  collisionPolygon : list Point;
  maxSpeed : float;
  minSpeed : float;
  bounceFactor : float;
  isKinematic : bool;
  isStatic : bool;
  isSleeping : bool;
  collisions : list CollisionRecord;
  isColliding : bool;
  forces : list Force;
  impulses : list Impulse
}.

Definition set_velocityX (v : float) (p : t) : t :=
  {| entity := entity p; enabled := enabled p; velocityX := v;
     velocityY := velocityY p; velocityZ := velocityZ p;
     accelerationX := accelerationX p; accelerationY := accelerationY p;
     accelerationZ := accelerationZ p; angularVelocity := angularVelocity p;
     angularAcceleration := angularAcceleration p; mass := mass p;
     friction := friction p; airResistance := airResistance p;
     gravityX := gravityX p; gravityY := gravityY p;
     gravityScale := gravityScale p; collisionEnabled := collisionEnabled p;
     collisionGroup := collisionGroup p; collisionMask := collisionMask p;
     collisionShape := collisionShape p; collisionWidth := collisionWidth p;
     collisionHeight := collisionHeight p;
     collisionRadius := collisionRadius p;
     collisionPolygon := collisionPolygon p; maxSpeed := maxSpeed p;
     minSpeed := minSpeed p; bounceFactor := bounceFactor p;
     isKinematic := isKinematic p; isStatic := isStatic p;
     isSleeping := isSleeping p; collisions := collisions p;
     isColliding := isColliding p; forces := forces p;
     impulses := impulses p |}.

Definition set_velocityY (v : float) (p : t) : t :=
  {| entity := entity p; enabled := enabled p; velocityX := velocityX p;
     velocityY := v; velocityZ := velocityZ p;
     accelerationX := accelerationX p; accelerationY := accelerationY p;
     accelerationZ := accelerationZ p; angularVelocity := angularVelocity p;
     angularAcceleration := angularAcceleration p; mass := mass p;
     friction := friction p; airResistance := airResistance p;
     gravityX := gravityX p; gravityY := gravityY p;
     gravityScale := gravityScale p; collisionEnabled := collisionEnabled p;
     collisionGroup := collisionGroup p; collisionMask := collisionMask p;
     collisionShape := collisionShape p; collisionWidth := collisionWidth p;
     collisionHeight := collisionHeight p;
     collisionRadius := collisionRadius p;
     collisionPolygon := collisionPolygon p; maxSpeed := maxSpeed p;
     minSpeed := minSpeed p; bounceFactor := bounceFactor p;
     isKinematic := isKinematic p; isStatic := isStatic p;
     isSleeping := isSleeping p; collisions := collisions p;
     isColliding := isColliding p; forces := forces p;
     impulses := impulses p |}.

Definition set_accelerationX (v : float) (p : t) : t :=
  {| entity := entity p; enabled := enabled p; velocityX := velocityX p;
     velocityY := velocityY p; velocityZ := velocityZ p; accelerationX := v;
     accelerationY := accelerationY p; accelerationZ := accelerationZ p;
     angularVelocity := angularVelocity p;
     angularAcceleration := angularAcceleration p; mass := mass p;
     friction := friction p; airResistance := airResistance p;
     gravityX := gravityX p; gravityY := gravityY p;
     gravityScale := gravityScale p; collisionEnabled := collisionEnabled p;
     collisionGroup := collisionGroup p; collisionMask := collisionMask p;
     collisionShape := collisionShape p; collisionWidth := collisionWidth p;
     collisionHeight := collisionHeight p;
     collisionRadius := collisionRadius p;
     collisionPolygon := collisionPolygon p; maxSpeed := maxSpeed p;
     minSpeed := minSpeed p; bounceFactor := bounceFactor p;
     isKinematic := isKinematic p; isStatic := isStatic p;
     isSleeping := isSleeping p; collisions := collisions p;
     isColliding := isColliding p; forces := forces p;
     impulses := impulses p |}.

Definition set_accelerationY (v : float) (p : t) : t :=
  {| entity := entity p; enabled := enabled p; velocityX := velocityX p;
     velocityY := velocityY p; velocityZ := velocityZ p;
     accelerationX := accelerationX p; accelerationY := v;
     accelerationZ := accelerationZ p; angularVelocity := angularVelocity p;
     angularAcceleration := angularAcceleration p; mass := mass p;
     friction := friction p; airResistance := airResistance p;
     gravityX := gravityX p; gravityY := gravityY p;
     gravityScale := gravityScale p; collisionEnabled := collisionEnabled p;
     collisionGroup := collisionGroup p; collisionMask := collisionMask p;
     collisionShape := collisionShape p; collisionWidth := collisionWidth p;
     collisionHeight := collisionHeight p;
     collisionRadius := collisionRadius p;
     collisionPolygon := collisionPolygon p; maxSpeed := maxSpeed p;
     minSpeed := minSpeed p; bounceFactor := bounceFactor p;
     isKinematic := isKinematic p; isStatic := isStatic p;
     isSleeping := isSleeping p; collisions := collisions p;
     isColliding := isColliding p; forces := forces p;
     impulses := impulses p |}.

Definition set_angularVelocity (v : float) (p : t) : t :=
  {| entity := entity p; enabled := enabled p; velocityX := velocityX p;
     velocityY := velocityY p; velocityZ := velocityZ p;
     accelerationX := accelerationX p; accelerationY := accelerationY p;
     accelerationZ := accelerationZ p; angularVelocity := v;
     angularAcceleration := angularAcceleration p; mass := mass p;
     friction := friction p; airResistance := airResistance p;
     gravityX := gravityX p; gravityY := gravityY p;
     gravityScale := gravityScale p; collisionEnabled := collisionEnabled p;
     collisionGroup := collisionGroup p; collisionMask := collisionMask p;
     collisionShape := collisionShape p; collisionWidth := collisionWidth p;
     collisionHeight := collisionHeight p;
     collisionRadius := collisionRadius p;
     collisionPolygon := collisionPolygon p; maxSpeed := maxSpeed p;
     minSpeed := minSpeed p; bounceFactor := bounceFactor p;
     isKinematic := isKinematic p; isStatic := isStatic p;
     isSleeping := isSleeping p; collisions := collisions p;
     isColliding := isColliding p; forces := forces p;
     impulses := impulses p |}.

Definition set_angularAcceleration (v : float) (p : t) : t :=
  {| entity := entity p; enabled := enabled p; velocityX := velocityX p;
     velocityY := velocityY p; velocityZ := velocityZ p;
     accelerationX := accelerationX p; accelerationY := accelerationY p;
     accelerationZ := accelerationZ p; angularVelocity := angularVelocity p;
     angularAcceleration := v; mass := mass p; friction := friction p;
     airResistance := airResistance p; gravityX := gravityX p;
     gravityY := gravityY p; gravityScale := gravityScale p;
     collisionEnabled := collisionEnabled p;
     collisionGroup := collisionGroup p; collisionMask := collisionMask p;
     collisionShape := collisionShape p; collisionWidth := collisionWidth p;
     collisionHeight := collisionHeight p;
     collisionRadius := collisionRadius p;
     collisionPolygon := collisionPolygon p; maxSpeed := maxSpeed p;
     minSpeed := minSpeed p; bounceFactor := bounceFactor p;
     isKinematic := isKinematic p; isStatic := isStatic p;
     isSleeping := isSleeping p; collisions := collisions p;
     isColliding := isColliding p; forces := forces p;
     impulses := impulses p |}.

Definition set_gravityX (v : float) (p : t) : t :=
  {| entity := entity p; enabled := enabled p; velocityX := velocityX p;
     velocityY := velocityY p; velocityZ := velocityZ p;
     accelerationX := accelerationX p; accelerationY := accelerationY p;
     accelerationZ := accelerationZ p; angularVelocity := angularVelocity p;
     angularAcceleration := angularAcceleration p; mass := mass p;
     friction := friction p; airResistance := airResistance p; gravityX := v;
     gravityY := gravityY p; gravityScale := gravityScale p;
     collisionEnabled := collisionEnabled p;
     collisionGroup := collisionGroup p; collisionMask := collisionMask p;
     collisionShape := collisionShape p; collisionWidth := collisionWidth p;
     collisionHeight := collisionHeight p;
     collisionRadius := collisionRadius p;
     collisionPolygon := collisionPolygon p; maxSpeed := maxSpeed p;
     minSpeed := minSpeed p; bounceFactor := bounceFactor p;
     isKinematic := isKinematic p; isStatic := isStatic p;
     isSleeping := isSleeping p; collisions := collisions p;
     isColliding := isColliding p; forces := forces p;
     impulses := impulses p |}.

Definition set_gravityY (v : float) (p : t) : t :=
  {| entity := entity p; enabled := enabled p; velocityX := velocityX p;
     velocityY := velocityY p; velocityZ := velocityZ p;
     accelerationX := accelerationX p; accelerationY := accelerationY p;
     accelerationZ := accelerationZ p; angularVelocity := angularVelocity p;
     angularAcceleration := angularAcceleration p; mass := mass p;
     friction := friction p; airResistance := airResistance p;
     gravityX := gravityX p; gravityY := v; gravityScale := gravityScale p;
     collisionEnabled := collisionEnabled p;
     collisionGroup := collisionGroup p; collisionMask := collisionMask p;
     collisionShape := collisionShape p; collisionWidth := collisionWidth p;
     collisionHeight := collisionHeight p;
     collisionRadius := collisionRadius p;
     collisionPolygon := collisionPolygon p; maxSpeed := maxSpeed p;
     minSpeed := minSpeed p; bounceFactor := bounceFactor p;
     isKinematic := isKinematic p; isStatic := isStatic p;
     isSleeping := isSleeping p; collisions := collisions p;
     isColliding := isColliding p; forces := forces p;
     impulses := impulses p |}.

Definition set_gravityScale (v : float) (p : t) : t :=
  {| entity := entity p; enabled := enabled p; velocityX := velocityX p;
     velocityY := velocityY p; velocityZ := velocityZ p;
     accelerationX := accelerationX p; accelerationY := accelerationY p;
     accelerationZ := accelerationZ p; angularVelocity := angularVelocity p;
     angularAcceleration := angularAcceleration p; mass := mass p;
     friction := friction p; airResistance := airResistance p;
     gravityX := gravityX p; gravityY := gravityY p; gravityScale := v;
     collisionEnabled := collisionEnabled p;
     collisionGroup := collisionGroup p; collisionMask := collisionMask p;
     collisionShape := collisionShape p; collisionWidth := collisionWidth p;
     collisionHeight := collisionHeight p;
     collisionRadius := collisionRadius p;
     collisionPolygon := collisionPolygon p; maxSpeed := maxSpeed p;
     minSpeed := minSpeed p; bounceFactor := bounceFactor p;
     isKinematic := isKinematic p; isStatic := isStatic p;
     isSleeping := isSleeping p; collisions := collisions p;
     isColliding := isColliding p; forces := forces p;
     impulses := impulses p |}.

Definition set_isSleeping (v : bool) (p : t) : t :=
  {| entity := entity p; enabled := enabled p; velocityX := velocityX p;
     velocityY := velocityY p; velocityZ := velocityZ p;
     accelerationX := accelerationX p; accelerationY := accelerationY p;
     accelerationZ := accelerationZ p; angularVelocity := angularVelocity p;
     angularAcceleration := angularAcceleration p; mass := mass p;
     friction := friction p; airResistance := airResistance p;
     gravityX := gravityX p; gravityY := gravityY p;
     gravityScale := gravityScale p; collisionEnabled := collisionEnabled p;
     collisionGroup := collisionGroup p; collisionMask := collisionMask p;
     collisionShape := collisionShape p; collisionWidth := collisionWidth p;
     collisionHeight := collisionHeight p;
     collisionRadius := collisionRadius p;
     collisionPolygon := collisionPolygon p; maxSpeed := maxSpeed p;
     minSpeed := minSpeed p; bounceFactor := bounceFactor p;
     isKinematic := isKinematic p; isStatic := isStatic p; isSleeping := v;
     collisions := collisions p; isColliding := isColliding p;
     forces := forces p; impulses := impulses p |}.

Definition set_collisions (v : list CollisionRecord) (p : t) : t :=
  {| entity := entity p; enabled := enabled p; velocityX := velocityX p;
     velocityY := velocityY p; velocityZ := velocityZ p;
     accelerationX := accelerationX p; accelerationY := accelerationY p;
     accelerationZ := accelerationZ p; angularVelocity := angularVelocity p;
     angularAcceleration := angularAcceleration p; mass := mass p;
     friction := friction p; airResistance := airResistance p;
     gravityX := gravityX p; gravityY := gravityY p;
     gravityScale := gravityScale p; collisionEnabled := collisionEnabled p;
     collisionGroup := collisionGroup p; collisionMask := collisionMask p;
     collisionShape := collisionShape p; collisionWidth := collisionWidth p;
     collisionHeight := collisionHeight p;
     collisionRadius := collisionRadius p;
     collisionPolygon := collisionPolygon p; maxSpeed := maxSpeed p;
     minSpeed := minSpeed p; bounceFactor := bounceFactor p;
     isKinematic := isKinematic p; isStatic := isStatic p;
     isSleeping := isSleeping p; collisions := v;
     isColliding := isColliding p; forces := forces p;
     impulses := impulses p |}.

Definition set_isColliding (v : bool) (p : t) : t :=
  {| entity := entity p; enabled := enabled p; velocityX := velocityX p;
     velocityY := velocityY p; velocityZ := velocityZ p;
     accelerationX := accelerationX p; accelerationY := accelerationY p;
     accelerationZ := accelerationZ p; angularVelocity := angularVelocity p;
     angularAcceleration := angularAcceleration p; mass := mass p;
     friction := friction p; airResistance := airResistance p;
     gravityX := gravityX p; gravityY := gravityY p;
     gravityScale := gravityScale p; collisionEnabled := collisionEnabled p;
     collisionGroup := collisionGroup p; collisionMask := collisionMask p;
     collisionShape := collisionShape p; collisionWidth := collisionWidth p;
     collisionHeight := collisionHeight p;
     collisionRadius := collisionRadius p;
     collisionPolygon := collisionPolygon p; maxSpeed := maxSpeed p;
     minSpeed := minSpeed p; bounceFactor := bounceFactor p;
     isKinematic := isKinematic p; isStatic := isStatic p;
     isSleeping := isSleeping p; collisions := collisions p;
     isColliding := v; forces := forces p; impulses := impulses p |}.

Definition set_forces (v : list Force) (p : t) : t :=
  {| entity := entity p; enabled := enabled p; velocityX := velocityX p;
     velocityY := velocityY p; velocityZ := velocityZ p;
     accelerationX := accelerationX p; accelerationY := accelerationY p;
     accelerationZ := accelerationZ p; angularVelocity := angularVelocity p;
     angularAcceleration := angularAcceleration p; mass := mass p;
     friction := friction p; airResistance := airResistance p;
     gravityX := gravityX p; gravityY := gravityY p;
     gravityScale := gravityScale p; collisionEnabled := collisionEnabled p;
     collisionGroup := collisionGroup p; collisionMask := collisionMask p;
     collisionShape := collisionShape p; collisionWidth := collisionWidth p;
     collisionHeight := collisionHeight p;
     collisionRadius := collisionRadius p;
     collisionPolygon := collisionPolygon p; maxSpeed := maxSpeed p;
     minSpeed := minSpeed p; bounceFactor := bounceFactor p;
     isKinematic := isKinematic p; isStatic := isStatic p;
     isSleeping := isSleeping p; collisions := collisions p;
     isColliding := isColliding p; forces := v; impulses := impulses p |}.

Definition set_impulses (v : list Impulse) (p : t) : t :=
  {| entity := entity p; enabled := enabled p; velocityX := velocityX p;
     velocityY := velocityY p; velocityZ := velocityZ p;
     accelerationX := accelerationX p; accelerationY := accelerationY p;
     accelerationZ := accelerationZ p; angularVelocity := angularVelocity p;
     angularAcceleration := angularAcceleration p; mass := mass p;
     friction := friction p; airResistance := airResistance p;
     gravityX := gravityX p; gravityY := gravityY p;
     gravityScale := gravityScale p; collisionEnabled := collisionEnabled p;
     collisionGroup := collisionGroup p; collisionMask := collisionMask p;
     collisionShape := collisionShape p; collisionWidth := collisionWidth p;
     collisionHeight := collisionHeight p;
     collisionRadius := collisionRadius p;
     collisionPolygon := collisionPolygon p; maxSpeed := maxSpeed p;
     minSpeed := minSpeed p; bounceFactor := bounceFactor p;
     isKinematic := isKinematic p; isStatic := isStatic p;
     isSleeping := isSleeping p; collisions := collisions p;
     isColliding := isColliding p; forces := forces p; impulses := v |}.

(** The [data] object given to the constructor; an absent field is
    [undefined]. *)
Record Data : Type := {
  d_velocityX : option float; d_velocityY : option float;
  d_velocityZ : option float;
  d_accelerationX : option float; d_accelerationY : option float;
  d_accelerationZ : option float;
  d_angularVelocity : option float; d_angularAcceleration : option float;
  d_mass : option float; d_friction : option float;
  d_airResistance : option float;
  d_gravityX : option float; d_gravityY : option float;
  d_gravityScale : option float;
  d_collisionEnabled : option bool; d_collisionGroup : option string;
  d_collisionMask : option (list string);
  d_collisionShape : option string;
  d_collisionWidth : option float; d_collisionHeight : option float;
  d_collisionRadius : option float;
  d_collisionPolygon : option (list Point);
  d_maxSpeed : option float; d_minSpeed : option float;
  d_bounceFactor : option float;
  d_isKinematic : option bool; d_isStatic : option bool;
  d_isSleeping : option bool
}.

(** [new Physics({})]: every field undefined. *)
Definition noData : Data :=
  {| d_velocityX := None; d_velocityY := None; d_velocityZ := None;
     d_accelerationX := None; d_accelerationY := None;
     d_accelerationZ := None;
     d_angularVelocity := None; d_angularAcceleration := None;
     d_mass := None; d_friction := None; d_airResistance := None;
     d_gravityX := None; d_gravityY := None; d_gravityScale := None;
     d_collisionEnabled := None; d_collisionGroup := None;
     d_collisionMask := None; d_collisionShape := None;
     d_collisionWidth := None; d_collisionHeight := None;
     d_collisionRadius := None; d_collisionPolygon := None;
     d_maxSpeed := None; d_minSpeed := None; d_bounceFactor := None;
     d_isKinematic := None; d_isStatic := None; d_isSleeping := None |}.

Definition constructor (data : Data) : t :=
  {| entity := None; enabled := true;
     velocityX := JS.or_number (d_velocityX data) 0;
     velocityY := JS.or_number (d_velocityY data) 0;
     velocityZ := JS.or_number (d_velocityZ data) 0;
     accelerationX := JS.or_number (d_accelerationX data) 0;
     accelerationY := JS.or_number (d_accelerationY data) 0;
     accelerationZ := JS.or_number (d_accelerationZ data) 0;
     angularVelocity := JS.or_number (d_angularVelocity data) 0;
     angularAcceleration := JS.or_number (d_angularAcceleration data) 0;
     mass := JS.or_number (d_mass data) 1;
     friction := JS.or_number (d_friction data) 0.1;
     airResistance := JS.or_number (d_airResistance data) 0.01;
     gravityX := JS.or_number (d_gravityX data) 0;
     gravityY := JS.or_number (d_gravityY data) 0;
     gravityScale := JS.or_number (d_gravityScale data) 1;
     collisionEnabled := JS.defined_or (d_collisionEnabled data) true;
     collisionGroup := JS.or_string (d_collisionGroup data) "default";
     collisionMask := JS.or_array (d_collisionMask data) ["default"%string];
     collisionShape := JS.or_string (d_collisionShape data) "rectangle";
     collisionWidth := JS.or_number (d_collisionWidth data) 0;
     collisionHeight := JS.or_number (d_collisionHeight data) 0;
     collisionRadius := JS.or_number (d_collisionRadius data) 0;
     collisionPolygon := JS.or_array (d_collisionPolygon data) [];
     maxSpeed := JS.or_number (d_maxSpeed data) infinity;
     minSpeed := JS.or_number (d_minSpeed data) 0;
     bounceFactor := JS.or_number (d_bounceFactor data) 0.5;
     isKinematic := JS.defined_or (d_isKinematic data) false;
     isStatic := JS.defined_or (d_isStatic data) false;
     isSleeping := JS.defined_or (d_isSleeping data) false;
     collisions := []; isColliding := false;
     forces := []; impulses := [] |}.

(** [setGravity(gx, gy, scale = this.gravityScale)]. *)
Definition setGravity (gx gy : float) (scale : option float) (this : t) : t :=
  let this := set_gravityX gx this in
  let this := set_gravityY gy this in
  set_gravityScale (JS.defined_or scale (gravityScale this)) this.

Definition setVelocity (vx vy : float) (this : t) : t :=
  set_velocityY vy (set_velocityX vx this).

Definition setAcceleration (ax ay : float) (this : t) : t :=
  set_accelerationY ay (set_accelerationX ax this).

(** [addForce(fx, fy, duration = 0)]. *)
Definition addForce (fx0 fy0 : float) (duration0 : option float) (this : t) : t :=
  set_forces
    (forces this ++
       [{| fx := fx0; fy := fy0; duration := JS.defined_or duration0 0;
           elapsed := 0 |}])
    this.

Definition addImpulse (ix0 iy0 : float) (this : t) : t :=
  set_impulses (impulses this ++ [{| ix := ix0; iy := iy0 |}]) this.

Definition clearForces (this : t) : t :=
  set_impulses [] (set_forces [] this).

(** *** The steps of [update], in the order of the source *)

(** Lines 196-199: gravity is accumulated unless the body is kinematic. *)
Definition applyGravity (this : t) : t :=
  if negb (isKinematic this) then
    let this :=
      set_accelerationX (accelerationX this + gravityX this * gravityScale this) this in
    set_accelerationY (accelerationY this + gravityY this * gravityScale this) this
  else this.

(** Lines 203-204: the callback of [impulses.forEach]. *)
Definition applyImpulse (this : t) (impulse : Impulse) : t :=
  let this := set_velocityX (velocityX this + ix impulse / mass this) this in
  set_velocityY (velocityY this + iy impulse / mass this) this.

(** Lines 202-206: the queued impulses are drained. *)
Definition applyImpulses (this : t) : t :=
  set_impulses [] (fold_left applyImpulse (impulses this) this).

(** Lines 211-217: the callback of [forces.forEach]; the force adds to the
    acceleration, ages by [deltaTime], and is kept when continuous or not
    yet expired. *)
Definition applyForce (deltaTime : float) (acc : t * list Force) (force : Force)
    : t * list Force :=
  let '(this, activeForces) := acc in
  let this := set_accelerationX (accelerationX this + fx force / mass this) this in
  let this := set_accelerationY (accelerationY this + fy force / mass this) this in
  let force :=
    {| fx := fx force; fy := fy force; duration := duration force;
       elapsed := elapsed force + deltaTime |} in
  if (duration force =? 0) || (elapsed force <? duration force)
  then (this, activeForces ++ [force])
  else (this, activeForces).

(** Lines 209-219. *)
Definition applyForces (deltaTime : float) (this : t) : t :=
  let result := fold_left (applyForce deltaTime) (forces this) (this, []) in
  set_forces (snd result) (fst result).

(** Lines 222-223. *)
Definition updateVelocity (deltaTime : float) (this : t) : t :=
  let this := set_velocityX (velocityX this + accelerationX this * deltaTime) this in
  set_velocityY (velocityY this + accelerationY this * deltaTime) this.

(** The state in which line 226 is reached, for a body that is neither
    asleep nor static. *)
Definition beforeDamping (deltaTime : float) (this : t) : t :=
  updateVelocity deltaTime
    (applyForces deltaTime (applyImpulses (applyGravity this))).

(** Line 227: [this.isColliding ? this.friction : this.airResistance]. *)
Definition dampingCoefficient (this : t) : float :=
  if isColliding this then friction this else airResistance this.

(** Lines 226-230. *)
Definition applyFriction (this : t) : t :=
  if negb (isKinematic this) then
    let friction0 := dampingCoefficient this in
    let this := set_velocityX (velocityX this * (1 - friction0)) this in
    set_velocityY (velocityY this * (1 - friction0)) this
  else this.

(** Line 233, also [getSpeed]. *)
Definition getSpeed (this : t) : float :=
  sqrt (velocityX this * velocityX this + velocityY this * velocityY this).

(** Lines 234-242; [speed] was computed before either branch. *)
Definition limitSpeed (speed : float) (this : t) : t :=
  let this :=
    if maxSpeed this <? speed then
      let ratio := maxSpeed this / speed in
      let this := set_velocityX (velocityX this * ratio) this in
      set_velocityY (velocityY this * ratio) this
    else this in
  if speed <? minSpeed this then
    set_velocityY 0 (set_velocityX 0 this)
  else this.

(** Lines 248-252. *)
Definition integratePosition (deltaTime : float) (this : t)
    (transform : Transform.t) : Transform.t :=
  if negb (isStatic this) then
    let transform :=
      Transform.set_x (Transform.x transform + velocityX this * deltaTime) transform in
    let transform :=
      Transform.set_y (Transform.y transform + velocityY this * deltaTime) transform in
    Transform.set_rotation
      (Transform.rotation transform + angularVelocity this * deltaTime) transform
  else transform.

(** Lines 255-259. *)
Definition resetAcceleration (this : t) : t :=
  match forces this with
  | [] =>
      set_angularAcceleration 0
        (set_accelerationY 0 (set_accelerationX 0 this))
  | _ :: _ => this
  end.

(** Lines 262-264. *)
Definition checkSleep (speed : float) (this : t) : t :=
  if (speed <? 0.1) && (abs (angularVelocity this) <? 0.1)
  then set_isSleeping true this
  else this.

(** [update(deltaTime, transform)]: the component and the transform after
    the call. *)
Definition update (deltaTime : float) (this : t) (transform : Transform.t)
    : t * Transform.t :=
  if isSleeping this || isStatic this then (this, transform)
  else
    let this := applyGravity this in
    let this := applyImpulses this in
    let this := applyForces deltaTime this in
    let this := updateVelocity deltaTime this in
    let this := applyFriction this in
    let speed := getSpeed this in
    let this := limitSpeed speed this in
    let this :=
      set_angularVelocity
        (angularVelocity this + angularAcceleration this * deltaTime) this in
    let transform := integratePosition deltaTime this transform in
    let this := resetAcceleration this in
    let this := checkSleep speed this in
    (this, transform).

(** *** Collision detection *)

(** [getBounds(transform)]: a [switch] on the shape string. *)
Definition getBounds (this : t) (transform : Transform.t) : Bounds :=
  let worldPos := Transform.getWorldPosition transform in
  if String.eqb (collisionShape this) "rectangle" then
    {| bx := fst worldPos - collisionWidth this / 2;
       by_ := snd worldPos - collisionHeight this / 2;
       width := collisionWidth this;
       height := collisionHeight this |}
  else if String.eqb (collisionShape this) "circle" then
    {| bx := fst worldPos - collisionRadius this;
       by_ := snd worldPos - collisionRadius this;
       width := collisionRadius this * 2;
       height := collisionRadius this * 2 |}
  else if String.eqb (collisionShape this) "polygon" then
    let '(minX, minY, maxX, maxY) :=
      fold_left
        (fun (acc : float * float * float * float) pt =>
           let '(minX, minY, maxX, maxY) := acc in
           let worldX := fst worldPos + px pt in
           let worldY := snd worldPos + py pt in
           (JS.Math_min minX worldX, JS.Math_min minY worldY,
            JS.Math_max maxX worldX, JS.Math_max maxY worldY))
        (collisionPolygon this)
        (infinity, infinity, neg_infinity, neg_infinity) in
    {| bx := minX; by_ := minY; width := maxX - minX; height := maxY - minY |}
  else
    {| bx := fst worldPos; by_ := snd worldPos; width := 0; height := 0 |}.

(** [performShapeCollision(other, transform, otherTransform)]; [None] is
    the [null] result. *)
Definition performShapeCollision (this other : t)
    (transform otherTransform : Transform.t) : option CollisionInfo :=
  let pos1 := Transform.getWorldPosition transform in
  let pos2 := Transform.getWorldPosition otherTransform in
  let dx := fst pos2 - fst pos1 in
  let dy := snd pos2 - snd pos1 in
  let distance := sqrt (dx * dx + dy * dy) in
  if String.eqb (collisionShape this) "circle"
     && String.eqb (collisionShape other) "circle" then
    let radiusSum := collisionRadius this + collisionRadius other in
    if distance <? radiusSum then
      Some {| normalX := dx / distance;
              normalY := dy / distance;
              depth := radiusSum - distance;
              point :=
                Some {| px := fst pos1 + (dx / distance) * collisionRadius this;
                        py := snd pos1 + (dy / distance) * collisionRadius this |} |}
    else None
  else None.

(** [this.collisionMask.includes(group)]. *)
Definition includes (mask : list string) (group : string) : bool :=
  existsb (String.eqb group) mask.

(** The bounding-box rejection test of lines 358-361. *)
Definition boundsApart (bounds1 bounds2 : Bounds) : bool :=
  (bx bounds1 + width bounds1 <? bx bounds2)
  || (bx bounds2 + width bounds2 <? bx bounds1)
  || (by_ bounds1 + height bounds1 <? by_ bounds2)
  || (by_ bounds2 + height bounds2 <? by_ bounds1).

(** [checkCollision(other, transform, otherTransform)]. *)
Definition checkCollision (this other : t)
    (transform otherTransform : Transform.t) : option CollisionInfo :=
  if negb (collisionEnabled this) || negb (collisionEnabled other) then None
  else if negb (includes (collisionMask this) (collisionGroup other)) then None
  else if negb (includes (collisionMask other) (collisionGroup this)) then None
  else
    let bounds1 := getBounds this transform in
    let bounds2 := getBounds other otherTransform in
    if boundsApart bounds1 bounds2 then None
    else performShapeCollision this other transform otherTransform.

(** *** Collision response *)

(** The entity that owns a Physics component, as the physics engine sees
    it: [this.entity], the Transform stored in it and the component itself.
    Every entity matched by PhysicsSystem has both components. *)
Record Body : Type := {
  id : string;
  transform : Transform.t;
  physics : t
}.

Definition set_physics (p : t) (b : Body) : Body :=
  {| id := id b; transform := transform b; physics := p |}.

Definition set_transform (tr : Transform.t) (b : Body) : Body :=
  {| id := id b; transform := tr; physics := physics b |}.

(** The bindings of the module Physics.js: its single import (line 5) and
    the class it declares (line 7). *)
Definition moduleScope : list string := ["Component"; "Physics"]%string.

(** [entity.getComponent(componentClass)] for the class bound to
    [className], on an entity that holds a Transform and a Physics. *)
Definition getComponentTransform (className : string) (b : Body)
    : option Transform.t :=
  if String.eqb className "Transform" then Some (transform b) else None.

(** [handleCollision(collision, other)], run on the owner of [this], in a
    module whose bindings are [scope].  Line 426 evaluates the identifier
    [Transform] before anything is moved. *)
Definition handleCollisionIn (scope : list string)
    (collision : option CollisionInfo) (other0 : string) (self : Body)
    : outcome Body :=
  match collision with
  | None => Normal self
  | Some collision =>
      let this := physics self in
      let this := set_isColliding true this in
      let this :=
        set_collisions
          (collisions this ++
             [{| other := other0;
                 recNormalX := normalX collision;
                 recNormalY := normalY collision;
                 recDepth := depth collision |}])
          this in
      let self := set_physics this self in
      if negb (isStatic this) && negb (isKinematic this) then
        match JS.resolveBinding scope "Transform" with
        | None => Throw (JS.ReferenceError "Transform") self
        | Some className =>
            let self :=
              match getComponentTransform className self with
              | Some tr =>
                  let tr :=
                    Transform.set_x
                      (Transform.x tr + normalX collision * depth collision * 0.5) tr in
                  let tr :=
                    Transform.set_y
                      (Transform.y tr + normalY collision * depth collision * 0.5) tr in
                  set_transform tr self
              | None => self
              end in
            let dotProduct :=
              velocityX this * normalX collision
              + velocityY this * normalY collision in
            let this :=
              set_velocityX
                (velocityX this
                 - normalX collision * dotProduct * (1 + bounceFactor this))
                this in
            let this :=
              set_velocityY
                (velocityY this
                 - normalY collision * dotProduct * (1 + bounceFactor this))
                this in
            Normal (set_physics this self)
        end
      else Normal self
  end.

(** The method as Physics.js defines it. *)
Definition handleCollision (collision : option CollisionInfo)
    (other0 : string) (self : Body) : outcome Body :=
  handleCollisionIn moduleScope collision other0 self.

(** [clearCollisions()]. *)
Definition clearCollisions (this : t) : t :=
  set_collisions [] (set_isColliding false this).

End Physics.

(** ** engine/systems/PhysicsSystem.js *)

Module PhysicsSystem.
Local Open Scope float_scope.
Import Physics (Body).

(** An entry of [collisionPairs]; the entities are held by reference and
    shown here by their ids. *)
Record CollisionPair : Type := {
  entityA : string;
  entityB : string;
  collision : Physics.CollisionInfo
}.

(** [super] holds the fields inherited from System. *)
Record t : Type := mk {
  super : System.t;
  gravityX : float;
  gravityY : float;
  worldBounds : option Physics.Bounds;
  collisionEnabled : bool;
  collisionPairs : list CollisionPair
}.

Definition set_collisionPairs (v : list CollisionPair) (this : t) : t :=
  {| super := super this;
     gravityX := gravityX this; gravityY := gravityY this;
     worldBounds := worldBounds this;
     collisionEnabled := collisionEnabled this;
     collisionPairs := v |}.

Definition constructor : t :=
  {| super :=
       System.setPriority 100
         (System.setRequiredComponents ["Transform"; "Physics"]%string
            (System.constructor "PhysicsSystem" true));
     gravityX := 0; gravityY := 980;
     worldBounds := None;
     collisionEnabled := true;
     collisionPairs := [] |}.

Definition setGravity (gx gy : float) (this : t) : t :=
  {| super := super this;
     gravityX := gx; gravityY := gy;
     worldBounds := worldBounds this;
     collisionEnabled := collisionEnabled this;
     collisionPairs := collisionPairs this |}.

Definition setWorldBounds (bounds : option Physics.Bounds) (this : t) : t :=
  {| super := super this;
     gravityX := gravityX this; gravityY := gravityY this;
     worldBounds := bounds;
     collisionEnabled := collisionEnabled this;
     collisionPairs := collisionPairs this |}.

Definition setCollisionEnabled (v : bool) (this : t) : t :=
  {| super := super this;
     gravityX := gravityX this; gravityY := gravityY this;
     worldBounds := worldBounds this;
     collisionEnabled := v;
     collisionPairs := collisionPairs this |}.

Definition disable (this : t) : t :=
  {| super := System.disable (super this);
     gravityX := gravityX this; gravityY := gravityY this;
     worldBounds := worldBounds this;
     collisionEnabled := collisionEnabled this;
     collisionPairs := collisionPairs this |}.

(** The state right before line 118 calls [physics.update]: the system's
    gravity has been written into a non-kinematic body. *)
Definition imposeGravity (this : t) (physics : Physics.t) : Physics.t :=
  if negb (Physics.isKinematic physics)
  then Physics.setGravity (gravityX this) (gravityY this) None physics
  else physics.

(** The two products that lines 197-198 of Physics.js add to the
    acceleration of a non-kinematic body when line 118 runs
    [physics.update]. *)
Definition gravityAccumulated (this : t) (physics : Physics.t) : float * float :=
  let physics := imposeGravity this physics in
  (Physics.gravityX physics * Physics.gravityScale physics,
   Physics.gravityY physics * Physics.gravityScale physics).

(** [updateEntityPhysics(entity, deltaTime)]. *)
Definition updateEntityPhysics (this : t) (deltaTime : float) (entity : Body)
    : Body :=
  let transform := Physics.transform entity in
  let physics := Physics.physics entity in
  if Physics.isStatic physics || Physics.isSleeping physics then entity
  else
    let physics := imposeGravity this physics in
    let '(physics, transform) := Physics.update deltaTime physics transform in
    {| Physics.id := Physics.id entity;
       Physics.transform := transform;
       Physics.physics := physics |}.

(** [checkCollision(entityA, entityB)]: the system and the two entities
    after the call. *)
Definition checkCollision (this : t) (entityA entityB : Body)
    : outcome (t * Body * Body) :=
  let physicsA := Physics.physics entityA in
  let physicsB := Physics.physics entityB in
  let transformA := Physics.transform entityA in
  let transformB := Physics.transform entityB in
  if negb (Physics.collisionEnabled physicsA)
     || negb (Physics.collisionEnabled physicsB)
  then Normal (this, entityA, entityB)
  else
    match Physics.checkCollision physicsA physicsB transformA transformB with
    | None => Normal (this, entityA, entityB)
    | Some collision0 =>
        match Physics.handleCollision (Some collision0) (Physics.id entityB) entityA with
        | Throw e entityA => Throw e (this, entityA, entityB)
        | Normal entityA =>
            let mirrored :=
              {| Physics.normalX := - Physics.normalX collision0;
                 Physics.normalY := - Physics.normalY collision0;
                 Physics.depth := Physics.depth collision0;
                 Physics.point := None |} in
            match Physics.handleCollision (Some mirrored) (Physics.id entityA) entityB with
            | Throw e entityB => Throw e (this, entityA, entityB)
            | Normal entityB =>
                let this :=
                  set_collisionPairs
                    (collisionPairs this ++
                       [{| entityA := Physics.id entityA;
                           entityB := Physics.id entityB;
                           collision := collision0 |}])
                    this in
                Normal (this, entityA, entityB)
            end
        end
    end.

(** The call [this.checkCollision(entities[i], entities[j])] on the array:
    both elements are objects, so what the call does to them is seen in the
    array. *)
Definition checkCollisionAt (i j : nat) (st : t * list Body)
    : outcome (t * list Body) :=
  let '(this, entities) := st in
  match entities !! i, entities !! j with
  | Some a, Some b =>
      match checkCollision this a b with
      | Normal (this, a, b) => Normal (this, <[j:=b]> (<[i:=a]> entities))
      | Throw e (this, a, b) => Throw e (this, <[j:=b]> (<[i:=a]> entities))
      end
  | _, _ => Normal st
  end.

(** [detectCollisions(entities)]: [i] from [0], [j] from [i + 1]. *)
Definition detectCollisions (this : t) (entities : list Body)
    : outcome (t * list Body) :=
  let this := set_collisionPairs [] this in
  let n := length entities in
  JS.forEach
    (fun i st => JS.forEach (checkCollisionAt i) (seq (S i) (n - S i)) st)
    (seq 0 n) (this, entities).

(** [checkWorldBounds(entity)], called when [worldBounds] is set.  [bounds]
    is computed once, before the four tests. *)
Definition checkWorldBounds (worldBounds0 : Physics.Bounds) (entity : Body)
    : Body :=
  let transform := Physics.transform entity in
  let physics := Physics.physics entity in
  if Physics.isStatic physics then entity
  else
    let bounds := Physics.getBounds physics transform in
    let '(transform, physics) :=
      if Physics.bx bounds <? Physics.bx worldBounds0 then
        (Transform.set_x (Physics.bx worldBounds0 + Physics.width bounds / 2) transform,
         Physics.set_velocityX
           (abs (Physics.velocityX physics) * Physics.bounceFactor physics) physics)
      else (transform, physics) in
    let '(transform, physics) :=
      if Physics.bx worldBounds0 + Physics.width worldBounds0
         <? Physics.bx bounds + Physics.width bounds then
        (Transform.set_x
           (Physics.bx worldBounds0 + Physics.width worldBounds0
            - Physics.width bounds / 2) transform,
         Physics.set_velocityX
           (- abs (Physics.velocityX physics) * Physics.bounceFactor physics) physics)
      else (transform, physics) in
    let '(transform, physics) :=
      if Physics.by_ bounds <? Physics.by_ worldBounds0 then
        (Transform.set_y (Physics.by_ worldBounds0 + Physics.height bounds / 2) transform,
         Physics.set_velocityY
           (abs (Physics.velocityY physics) * Physics.bounceFactor physics) physics)
      else (transform, physics) in
    let '(transform, physics) :=
      if Physics.by_ worldBounds0 + Physics.height worldBounds0
         <? Physics.by_ bounds + Physics.height bounds then
        (Transform.set_y
           (Physics.by_ worldBounds0 + Physics.height worldBounds0
            - Physics.height bounds / 2) transform,
         Physics.set_velocityY
           (- abs (Physics.velocityY physics) * Physics.bounceFactor physics) physics)
      else (transform, physics) in
    {| Physics.id := Physics.id entity;
       Physics.transform := transform;
       Physics.physics := physics |}.

(** The last loop of [update], lines 95-98. *)
Definition clearAll (entities : list Body) : list Body :=
  map (fun entity =>
         Physics.set_physics (Physics.clearCollisions (Physics.physics entity)) entity)
      entities.

(** The state of [update] after its first two blocks: integration of every
    entity, then collision detection and response. *)
Definition integrateAndDetect (this : t) (deltaTime : float)
    (entities : list Body) : outcome (t * list Body) :=
  let entities := map (updateEntityPhysics this deltaTime) entities in
  if collisionEnabled this then detectCollisions this entities
  else Normal (this, entities).

(** [update(deltaTime)] on [entities], the array that
    [getMatchingEntities()] returned. *)
Definition update (this : t) (deltaTime : float) (entities : list Body)
    : outcome (t * list Body) :=
  if negb (System.isEnabled (super this)) then Normal (this, entities)
  else
    match integrateAndDetect this deltaTime entities with
    | Throw e st => Throw e st
    | Normal (this, entities) =>
        let entities :=
          match worldBounds this with
          | Some wb => map (checkWorldBounds wb) entities
          | None => entities
          end in
        Normal (this, clearAll entities)
    end.

(** Successive frames: each element of [frames] is the [deltaTime] of one
    call of [update].  An exception leaves [update], and the host loop that
    called it, so no later frame runs. *)
Fixpoint run (frames : list float) (st : t * list Body)
    : outcome (t * list Body) :=
  match frames with
  | [] => Normal st
  | deltaTime :: frames' =>
      match update (fst st) deltaTime (snd st) with
      | Normal st' => run frames' st'
      | Throw e st' => Throw e st'
      end
  end.

End PhysicsSystem.

(** ** Inputs used by the statements below *)

Module Scenario.
Local Open Scope float_scope.

(** [new Physics({collisionShape: shape, collisionRadius: radius,
    collisionWidth: w, collisionHeight: h, isKinematic, isStatic})]. *)
Definition shapeData (shape : string) (radius w h : float)
    (kinematic static : bool) : Physics.Data :=
  {| Physics.d_velocityX := None; Physics.d_velocityY := None;
     Physics.d_velocityZ := None;
     Physics.d_accelerationX := None; Physics.d_accelerationY := None;
     Physics.d_accelerationZ := None;
     Physics.d_angularVelocity := None; Physics.d_angularAcceleration := None;
     Physics.d_mass := None; Physics.d_friction := None;
     Physics.d_airResistance := None;
     Physics.d_gravityX := None; Physics.d_gravityY := None;
     Physics.d_gravityScale := None;
     Physics.d_collisionEnabled := None; Physics.d_collisionGroup := None;
     Physics.d_collisionMask := None;
     Physics.d_collisionShape := Some shape;
     Physics.d_collisionWidth := Some w; Physics.d_collisionHeight := Some h;
     Physics.d_collisionRadius := Some radius;
     Physics.d_collisionPolygon := None;
     Physics.d_maxSpeed := None; Physics.d_minSpeed := None;
     Physics.d_bounceFactor := None;
     Physics.d_isKinematic := Some kinematic; Physics.d_isStatic := Some static;
     Physics.d_isSleeping := None |}.

(** An entity [id] at [(x, y)] holding a circle of the given radius. *)
Definition circle (id0 : string) (x y radius : float) (kinematic static : bool)
    : Physics.Body :=
  {| Physics.id := id0;
     Physics.transform := Transform.constructor (Some x) (Some y);
     Physics.physics :=
       Physics.constructor (shapeData "circle" radius 0 0 kinematic static) |}.


(** Two dynamic circles, radii 10 and 15, centres 20 apart; the first one
    moves towards the second at 100 units per second. *)
Definition dynamicA : Physics.Body :=
  Physics.set_physics
    (Physics.setVelocity 100 0 (Physics.physics (circle "a" 0 0 10 false false)))
    (circle "a" 0 0 10 false false).

Definition dynamicB : Physics.Body := circle "b" 20 0 15 false false.

(** The same two circles as kinematic bodies. *)
Definition kinematicA : Physics.Body := circle "a" 0 0 10 true false.
Definition kinematicB : Physics.Body := circle "b" 20 0 15 true false.

(** [new Physics({accelerationY: 980, mass: 1, friction: 0})]: the body of
    the integration property, built through the constructor. *)
Definition fallingData : Physics.Data :=
  {| Physics.d_velocityX := None; Physics.d_velocityY := None;
     Physics.d_velocityZ := None;
     Physics.d_accelerationX := None; Physics.d_accelerationY := Some 980;
     Physics.d_accelerationZ := None;
     Physics.d_angularVelocity := None; Physics.d_angularAcceleration := None;
     Physics.d_mass := Some 1; Physics.d_friction := Some 0;
     Physics.d_airResistance := None;
     Physics.d_gravityX := None; Physics.d_gravityY := None;
     Physics.d_gravityScale := None;
     Physics.d_collisionEnabled := None; Physics.d_collisionGroup := None;
     Physics.d_collisionMask := None; Physics.d_collisionShape := None;
     Physics.d_collisionWidth := None; Physics.d_collisionHeight := None;
     Physics.d_collisionRadius := None; Physics.d_collisionPolygon := None;
     Physics.d_maxSpeed := None; Physics.d_minSpeed := None;
     Physics.d_bounceFactor := None;
     Physics.d_isKinematic := None; Physics.d_isStatic := None;
     Physics.d_isSleeping := None |}.

Definition falling : Physics.t := Physics.constructor fallingData.

(** [n] calls of [physics.update(deltaTime, transform)]. *)
Fixpoint steps (n : nat) (deltaTime : float) (st : Physics.t * Transform.t)
    : Physics.t * Transform.t :=
  match n with
  | O => st
  | S n' =>
      let st' := steps n' deltaTime st in
      Physics.update deltaTime (fst st') (snd st')
  end.

(** A System subclass [name] with its own [update] and the given
    priority. *)
Definition system (name0 : string) (priority0 : Z) : System.t :=
  System.setPriority priority0 (System.constructor name0 true).

(** A running World in which systems of priorities 100, 10 and 50 were
    registered in that order. *)
Definition scheduledWorld : World.t :=
  let w := World.constructor "w" in
  let w := snd (fst (World.addSystem (system "Render" 100) w)) in
  let w := snd (fst (World.addSystem (system "Input" 10) w)) in
  let w := snd (fst (World.addSystem (system "Logic" 50) w)) in
  fst (World.start 0 w).

(** A System requiring [A] and [B], and an entity that has both. *)
Definition systemAB : System.t :=
  System.setRequiredComponents ["A"; "B"]%string (System.constructor "S" true).

Definition entityAB : Entity.t :=
  Entity.addComponent (Component.constructor "B")
    (Entity.addComponent (Component.constructor "A") (Entity.constructor "e")).

(** The World after [addSystem(systemAB)] and [addEntity(entityAB)]. *)
Definition worldAB : World.t :=
  snd (fst (World.addEntity entityAB
              (snd (fst (World.addSystem systemAB (World.constructor "w")))))).

(** A circle of radius 10 in collision group [group], colliding with the
    groups of [mask]: [new Physics({collisionShape: 'circle',
    collisionRadius: 10, collisionGroup: group, collisionMask: mask})]. *)
Definition groupedData (group : string) (mask : list string) : Physics.Data :=
  {| Physics.d_velocityX := None; Physics.d_velocityY := None;
     Physics.d_velocityZ := None;
     Physics.d_accelerationX := None; Physics.d_accelerationY := None;
     Physics.d_accelerationZ := None;
     Physics.d_angularVelocity := None; Physics.d_angularAcceleration := None;
     Physics.d_mass := None; Physics.d_friction := None;
     Physics.d_airResistance := None;
     Physics.d_gravityX := None; Physics.d_gravityY := None;
     Physics.d_gravityScale := None;
     Physics.d_collisionEnabled := None; Physics.d_collisionGroup := Some group;
     Physics.d_collisionMask := Some mask;
     Physics.d_collisionShape := Some "circle"%string;
     Physics.d_collisionWidth := None; Physics.d_collisionHeight := None;
     Physics.d_collisionRadius := Some 10;
     Physics.d_collisionPolygon := None;
     Physics.d_maxSpeed := None; Physics.d_minSpeed := None;
     Physics.d_bounceFactor := None;
     Physics.d_isKinematic := None; Physics.d_isStatic := None;
     Physics.d_isSleeping := None |}.

End Scenario.

(** ** The specification's own words, for the properties that compare them
    with the code *)

Module Spec.
Local Open Scope float_scope.

(** "gravity is either a System-wide default or a per-entity override,
    entity override wins": an override is set when the entity's gravity is
    not zero. *)
Definition overrideSet (p : Physics.t) : bool :=
  JS.truthy (Physics.gravityX p) || JS.truthy (Physics.gravityY p).

Definition claimedGravity (system : PhysicsSystem.t) (p : Physics.t)
    : float * float :=
  if overrideSet p then (Physics.gravityX p, Physics.gravityY p)
  else (PhysicsSystem.gravityX system, PhysicsSystem.gravityY system).

(** "velocity.y ≈ 980 * N / 60 (within floating-point tolerance)": the two
    numbers differ by at most one part in a million. *)
Definition withinTolerance (actual expected : float) : bool :=
  abs (actual - expected) <=? abs expected * 0.000001.

(** Semi-implicit Euler with damping: the velocity takes the acceleration
    [g] over [dt] and is damped by [1 - a]; the position then moves with
    the new velocity.  Returns the velocity and the position after [n]
    steps. *)
Fixpoint dampedEuler (n : nat) (dt g a : float) (start : float * float)
    : float * float :=
  match n with
  | O => start
  | S n' =>
      let '(v, y) := dampedEuler n' dt g a start in
      let v' := (v + (0 + g) * dt) * (1 - a) in
      (v', y + v' * dt)
  end.


End Spec.

(** ** Notions used by the proofs *)

Module Invariant.

(** The fields of a Physics component that [update] reads but never
    assigns. *)
Definition parameters (p : Physics.t) :=
  (Physics.entity p, Physics.enabled p, Physics.velocityZ p,
   Physics.accelerationZ p, Physics.mass p, Physics.friction p,
   Physics.airResistance p, Physics.gravityX p, Physics.gravityY p,
   Physics.gravityScale p, Physics.collisionEnabled p,
   Physics.collisionGroup p, Physics.collisionMask p,
   Physics.collisionShape p, Physics.collisionWidth p,
   Physics.collisionHeight p, Physics.collisionRadius p,
   Physics.collisionPolygon p, Physics.maxSpeed p, Physics.minSpeed p,
   Physics.bounceFactor p, Physics.isKinematic p, Physics.isStatic p,
   Physics.collisions p, Physics.isColliding p).

(** [b] does not run before [a] on account of its priority. *)
Definition ascending (a b : System.t) : Prop :=
  (System.priority a <= System.priority b)%Z.

(** [keeps e e']: [e'] is the entity [e] some calls later; it is static
    exactly when [e] was, and then it has the transform of [e]. *)
Definition keeps (e e' : Physics.Body) : Prop :=
  Physics.isStatic (Physics.physics e') = Physics.isStatic (Physics.physics e)
  /\ (Physics.isStatic (Physics.physics e) = true ->
      Physics.transform e' = Physics.transform e).

(** No collision is recorded on the body. *)
Definition quiet (e : Physics.Body) : Prop :=
  Physics.isColliding (Physics.physics e) = false
  /\ Physics.collisions (Physics.physics e) = [].

(** A body in free fall: dynamic, nothing queued, no acceleration left
    over, the default speed limits, no collision flagged. *)
Definition freeFall (p : Physics.t) : Prop :=
  Physics.isStatic p = false /\ Physics.isKinematic p = false
  /\ Physics.forces p = [] /\ Physics.impulses p = []
  /\ Physics.accelerationY p = 0%float
  /\ Physics.maxSpeed p = infinity /\ Physics.minSpeed p = 0%float
  /\ Physics.isColliding p = false.

(** The vertical motion and the queues of a body: what the integration of
    a falling body is about. *)
Definition vertical (p : Physics.t) :=
  (Physics.velocityY p, Physics.accelerationY p, Physics.forces p,
   Physics.impulses p).

(** The body was not asleep at the start of any of the first [n] steps. *)
Definition awake (n : nat) (deltaTime : float) (st : Physics.t * Transform.t)
    : bool :=
  forallb (fun k => negb (Physics.isSleeping (fst (Scenario.steps k deltaTime st))))
          (seq 0 n).

(** A registry is a Map whose keys are all different and are the ids (or
    names) of the objects stored under them. *)
Definition registry {V : Type} (key : V -> string) (m : list (string * V)) : Prop :=
  NoDup (JSMap.keys m) /\ Forall (fun entry => fst entry = key (snd entry)) m.

(** Both registries of a World are registries, and the counter is at least
    the number of entities. *)
Definition wellFormed (w : World.t) : Prop :=
  registry Entity.id (World.entities w)
  /\ registry System.name (World.systems w)
  /\ (length (World.entities w) <= World.entityCounter w)%nat.

(** Every body of the array is static or kinematic. *)
Definition fixed (e : Physics.Body) : Prop :=
  Physics.isStatic (Physics.physics e) = true
  \/ Physics.isKinematic (Physics.physics e) = true.

(** [e'] is [e] some calls later: same id, same static and kinematic flags,
    and still asleep if [e] was. *)
Definition sameBody (e e' : Physics.Body) : Prop :=
  Physics.id e' = Physics.id e
  /\ Physics.isStatic (Physics.physics e') = Physics.isStatic (Physics.physics e)
  /\ Physics.isKinematic (Physics.physics e')
     = Physics.isKinematic (Physics.physics e)
  /\ (Physics.isSleeping (Physics.physics e) = true ->
      Physics.isSleeping (Physics.physics e') = true).

(** A force as [applyForce] leaves it after [deltaTime]. *)
Definition aged (deltaTime : float) (force : Physics.Force) : Physics.Force :=
  {| Physics.fx := Physics.fx force; Physics.fy := Physics.fy force;
     Physics.duration := Physics.duration force;
     Physics.elapsed := (Physics.elapsed force + deltaTime)%float |}.

(** The test of line 215 on an aged force. *)
Definition active (force : Physics.Force) : bool :=
  (Physics.duration force =? 0)%float
  || (Physics.elapsed force <? Physics.duration force)%float.

(** The forces and impulses queued on a body. *)
Definition queues (p : Physics.t) : list Physics.Force * list Physics.Impulse :=
  (Physics.forces p, Physics.impulses p).

Definition accelerations (p : Physics.t) : float * float :=
  (Physics.accelerationX p, Physics.accelerationY p).

(** The state of a kinematic body pushed by one continuous force. *)
Definition pushed (force : Physics.Force) (mass0 : float) (p : Physics.t) : Prop :=
  Physics.isStatic p = false /\ Physics.isKinematic p = true
  /\ Physics.mass p = mass0
  /\ exists elapsed0,
       Physics.forces p
       = [{| Physics.fx := Physics.fx force; Physics.fy := Physics.fy force;
             Physics.duration := 0%float; Physics.elapsed := elapsed0 |}].



End Invariant.

(** * Properties *)

Import Invariant.
Import World (byPriority).
Local Open Scope float_scope.

(** ** Facts about binary64 numbers *)

Lemma ltb_infinity_l (v : float) : (infinity <? v) = false.
Proof.
  rewrite ltb_spec. change (Prim2SF infinity) with (S754_infinity false).
  destruct (Prim2SF v) as [ | [] | | [] ]; reflexivity.
Qed.

Lemma SFsqrt_not_negative (f : spec_float) :
  SFltb (SF64sqrt f) (S754_zero false) = false.
Proof.
  destruct f as [ s | [] | | [] m e ]; try reflexivity.
  unfold SF64sqrt, SFsqrt.
  destruct (SFsqrt_core_binary prec emax (Z.pos m) e) as [[mz ez] lz].
  unfold binary_round_aux.
  destruct (shr_fexp prec emax mz ez lz) as [mrs' e'].
  destruct (shr_fexp prec emax _ e' loc_Exact) as [mrs'' e''].
  destruct (shr_m mrs'') as [ | p | p ]; try reflexivity.
  destruct (e'' <=? emax - prec)%Z; reflexivity.
Qed.

Lemma sqrt_ltb_zero (v : float) : (sqrt v <? 0) = false.
Proof. rewrite ltb_spec, sqrt_spec. apply SFsqrt_not_negative. Qed.

(** Two numbers that a comparison tells apart are different. *)
Lemma ltb_neq (a b : float) : (a <? b) = true -> a <> b.
Proof.
  intros H E. subst b. rewrite ltb_spec in H.
  unfold SFltb in H. destruct (Prim2SF a) as [ [] | [] | | [] m e ]; simpl in H; try discriminate.
  - rewrite Z.compare_refl, Pos.compare_cont_refl in H. discriminate.
  - rewrite Z.compare_refl, Pos.compare_cont_refl in H. discriminate.
Qed.















(** ** Maps *)

Section MapFacts.
Context {V : Type}.
Implicit Types (m : list (string * V)) (k : string) (v : V).

Lemma get_set_eq m k v : JSMap.get k (JSMap.set k v m) = Some v.
Proof.
  induction m as [|[k' v'] m IH]; cbn.
  - rewrite String.eqb_refl. reflexivity.
  - destruct (String.eqb k k') eqn:E; cbn; rewrite ?String.eqb_refl, ?E; auto.
Qed.

Lemma get_set_ne m k k' v : k' <> k -> JSMap.get k' (JSMap.set k v m) = JSMap.get k' m.
Proof.
  intros Hne. apply String.eqb_neq in Hne.
  induction m as [|[k0 v0] m IH]; cbn.
  - rewrite Hne. reflexivity.
  - destruct (String.eqb k k0) eqn:E; cbn.
    + apply String.eqb_eq in E. subst k0. rewrite Hne. reflexivity.
    + rewrite IH. reflexivity.
Qed.

Lemma get_delete_eq m k : JSMap.get k (JSMap.delete k m) = None.
Proof.
  unfold JSMap.delete. induction m as [|[k' v'] m IH]; cbn; [reflexivity|].
  destruct (String.eqb k k') eqn:E; cbn; rewrite ?E; exact IH.
Qed.

Lemma get_delete_ne m k k' : k' <> k -> JSMap.get k' (JSMap.delete k m) = JSMap.get k' m.
Proof.
  intros Hne. unfold JSMap.delete.
  induction m as [|[k0 v0] m IH]; cbn; [reflexivity|].
  destruct (String.eqb k k0) eqn:E; cbn.
  - apply String.eqb_eq in E. subst k0.
    apply String.eqb_neq in Hne. rewrite Hne. exact IH.
  - rewrite IH. reflexivity.
Qed.

Lemma has_set_eq m k v : JSMap.has k (JSMap.set k v m) = true.
Proof. unfold JSMap.has. rewrite get_set_eq. reflexivity. Qed.

End MapFacts.

(** ** Collision response (C1) *)

Section CollisionResponse.
Variables (collision : Physics.CollisionInfo) (other : string) (self : Physics.Body).

Let recorded : Physics.Body :=
  Physics.set_physics
    (Physics.set_collisions
       (Physics.collisions (Physics.physics self) ++
          [{| Physics.other := other;
              Physics.recNormalX := Physics.normalX collision;
              Physics.recNormalY := Physics.normalY collision;
              Physics.recDepth := Physics.depth collision |}])
       (Physics.set_isColliding true (Physics.physics self)))
    self.

(** A static or kinematic body only records the collision. *)
Lemma handleCollision_fixed :
  Physics.isStatic (Physics.physics self) = true
  \/ Physics.isKinematic (Physics.physics self) = true ->
  Physics.handleCollision (Some collision) other self = Normal recorded.
Proof.
  intros H. unfold Physics.handleCollision, Physics.handleCollisionIn. cbn.
  destruct H as [-> | ->]; cbn; [reflexivity|].
  destruct (Physics.isStatic _); reflexivity.
Qed.

(** On a dynamic body the method stops at the identifier [Transform]:
    the collision is recorded, nothing has moved. *)
Lemma handleCollision_dynamic :
  Physics.isStatic (Physics.physics self) = false ->
  Physics.isKinematic (Physics.physics self) = false ->
  Physics.handleCollision (Some collision) other self
  = Throw (JS.ReferenceError "Transform") recorded.
Proof.
  intros Hs Hk. unfold Physics.handleCollision, Physics.handleCollisionIn. cbn.
  rewrite Hs, Hk. reflexivity.
Qed.

(** Had Physics.js imported Transform, the response would be the one the
    specification describes. *)
Lemma handleCollisionIn_bound (scope : list string) :
  JS.resolveBinding scope "Transform" = Some "Transform"%string ->
  Physics.isStatic (Physics.physics self) = false ->
  Physics.isKinematic (Physics.physics self) = false ->
  exists result,
    Physics.handleCollisionIn scope (Some collision) other self = Normal result
    /\ Transform.x (Physics.transform result)
       = Transform.x (Physics.transform self)
         + Physics.normalX collision * Physics.depth collision * 0.5
    /\ Transform.y (Physics.transform result)
       = Transform.y (Physics.transform self)
         + Physics.normalY collision * Physics.depth collision * 0.5
    /\ Physics.velocityX (Physics.physics result)
       = Physics.velocityX (Physics.physics self)
         - Physics.normalX collision
           * (Physics.velocityX (Physics.physics self) * Physics.normalX collision
              + Physics.velocityY (Physics.physics self) * Physics.normalY collision)
           * (1 + Physics.bounceFactor (Physics.physics self))
    /\ Physics.velocityY (Physics.physics result)
       = Physics.velocityY (Physics.physics self)
         - Physics.normalY collision
           * (Physics.velocityX (Physics.physics self) * Physics.normalX collision
              + Physics.velocityY (Physics.physics self) * Physics.normalY collision)
           * (1 + Physics.bounceFactor (Physics.physics self)).
Proof.
  intros Hr Hs Hk. eexists. unfold Physics.handleCollisionIn. cbn.
  rewrite Hs, Hk, Hr. cbn. split; [reflexivity|]. cbn. repeat split.
Qed.

End CollisionResponse.

(** C1: for the colliding pair of two dynamic circles (radii 10 and 15,
    centres 20 apart, the first moving at 100 towards the second), the
    response of the physics system does not separate or reflect either
    side: [handleCollision] on the first body raises a ReferenceError for
    [Transform] after recording the collision, so its position stays (0, 0)
    and its velocity (100, 0), where the property gives position
    (2.5, 0) and velocity (-50, 0); the second body is not reached. *)
Theorem C1_response_stops_at_unbound_Transform :
  exists system a,
    PhysicsSystem.checkCollision PhysicsSystem.constructor
      Scenario.dynamicA Scenario.dynamicB
    = Throw (JS.ReferenceError "Transform") (system, a, Scenario.dynamicB)
    /\ Physics.checkCollision
         (Physics.physics Scenario.dynamicA) (Physics.physics Scenario.dynamicB)
         (Physics.transform Scenario.dynamicA) (Physics.transform Scenario.dynamicB)
       = Some {| Physics.normalX := 1; Physics.normalY := 0; Physics.depth := 5;
                 Physics.point := Some {| Physics.px := 10; Physics.py := 0 |} |}
    /\ Physics.isStatic (Physics.physics Scenario.dynamicA) = false
    /\ Physics.isKinematic (Physics.physics Scenario.dynamicA) = false
    /\ Physics.transform a = Physics.transform Scenario.dynamicA
    /\ Transform.x (Physics.transform a) = 0
    /\ Transform.x (Physics.transform Scenario.dynamicA) + 1 * 5 * 0.5 = 2.5
    /\ Physics.velocityX (Physics.physics a) = 100
    /\ 100 - 1 * (100 * 1 + 0 * 0) * (1 + 0.5) = -50
    /\ PhysicsSystem.collisionPairs system = [].
Proof.
  do 2 eexists. split; [vm_compute; reflexivity|].
  repeat split; vm_compute; reflexivity.
Qed.

(** ** Gravity (C2) *)

Lemma imposeGravity_dynamic (system : PhysicsSystem.t) (p : Physics.t) :
  Physics.isKinematic p = false ->
  Physics.gravityX (PhysicsSystem.imposeGravity system p) = PhysicsSystem.gravityX system
  /\ Physics.gravityY (PhysicsSystem.imposeGravity system p) = PhysicsSystem.gravityY system
  /\ Physics.gravityScale (PhysicsSystem.imposeGravity system p) = Physics.gravityScale p.
Proof.
  intros Hk. unfold PhysicsSystem.imposeGravity. rewrite Hk. cbn. auto.
Qed.

(** What the entity's own gravity was does not reach the integration. *)
Lemma imposeGravity_forgets (system : PhysicsSystem.t) (p : Physics.t) (gx gy : float) :
  Physics.isKinematic p = false ->
  PhysicsSystem.imposeGravity system (Physics.setGravity gx gy None p)
  = PhysicsSystem.imposeGravity system p.
Proof.
  intros Hk. unfold PhysicsSystem.imposeGravity. cbn. rewrite Hk. reflexivity.
Qed.

(** C2, as stated, fails: an entity whose gravity was set to (0, 100) with
    [setGravity], integrated by a system with the default gravity
    (0, 980), accumulates (0, 980) and not (0, 100); after one step of
    1/60 s its velocity comes from 980. *)
Lemma C2_entity_override_does_not_win :
  let system := PhysicsSystem.constructor in
  let p := Physics.setGravity 0 100 None (Physics.constructor Physics.noData) in
  let entity :=
    {| Physics.id := "e"; Physics.transform := Transform.constructor None None;
       Physics.physics := p |} in
  Physics.isKinematic p = false /\ Physics.isStatic p = false
  /\ Physics.isSleeping p = false
  /\ Spec.overrideSet p = true
  /\ Spec.claimedGravity system p = (0, 100)
  /\ PhysicsSystem.gravityAccumulated system p = (0, 980)
  /\ PhysicsSystem.gravityAccumulated system p <> Spec.claimedGravity system p
  /\ Physics.velocityY
       (Physics.physics (PhysicsSystem.updateEntityPhysics system (1 / 60) entity))
     = (0 + (0 + 980 * 1) * (1 / 60)) * (1 - 0.01).
Proof.
  cbv zeta. repeat split; try (vm_compute; reflexivity).
  intros E. apply (f_equal snd) in E. vm_compute in E.
  revert E. apply not_eq_sym, ltb_neq. vm_compute. reflexivity.
Qed.

(** C2, amended: during the integration of a non-kinematic, non-static,
    non-sleeping body the gravity accumulated into its acceleration is the
    gravity of the PhysicsSystem multiplied by the body's own gravityScale;
    [updateEntityPhysics] first overwrites the body's gravityX and gravityY
    with the system's, so whatever gravity the entity had been given does
    not change the result of the step. *)
Theorem C2_system_gravity_is_imposed
    (system : PhysicsSystem.t) (deltaTime : float) (entity : Physics.Body)
    (gx gy : float) :
  let p := Physics.physics entity in
  Physics.isKinematic p = false ->
  Physics.isStatic p = false ->
  Physics.isSleeping p = false ->
  PhysicsSystem.gravityAccumulated system p
  = (PhysicsSystem.gravityX system * Physics.gravityScale p,
     PhysicsSystem.gravityY system * Physics.gravityScale p)
  /\ Physics.accelerationX (Physics.applyGravity (PhysicsSystem.imposeGravity system p))
     = Physics.accelerationX p + PhysicsSystem.gravityX system * Physics.gravityScale p
  /\ Physics.accelerationY (Physics.applyGravity (PhysicsSystem.imposeGravity system p))
     = Physics.accelerationY p + PhysicsSystem.gravityY system * Physics.gravityScale p
  /\ PhysicsSystem.updateEntityPhysics system deltaTime entity
     = (let '(p', t') :=
          Physics.update deltaTime (PhysicsSystem.imposeGravity system p)
            (Physics.transform entity) in
        {| Physics.id := Physics.id entity; Physics.transform := t';
           Physics.physics := p' |})
  /\ PhysicsSystem.updateEntityPhysics system deltaTime
       (Physics.set_physics (Physics.setGravity gx gy None p) entity)
     = PhysicsSystem.updateEntityPhysics system deltaTime entity.
Proof.
  intros p Hk Hs Hz. subst p.
  unfold PhysicsSystem.gravityAccumulated.
  destruct (imposeGravity_dynamic system _ Hk) as (Ex & Ey & Es).
  repeat split.
  - rewrite Ex, Ey, Es. reflexivity.
  - unfold Physics.applyGravity, PhysicsSystem.imposeGravity. rewrite Hk. cbn. rewrite Hk. reflexivity.
  - unfold Physics.applyGravity, PhysicsSystem.imposeGravity. rewrite Hk. cbn. rewrite Hk. reflexivity.
  - unfold PhysicsSystem.updateEntityPhysics. rewrite Hs, Hz. reflexivity.
  - unfold PhysicsSystem.updateEntityPhysics. cbn. rewrite Hs, Hz. cbn.
    rewrite imposeGravity_forgets by exact Hk. reflexivity.
Qed.

Lemma C2_system_gravity_is_imposed_witness :
  PhysicsSystem.gravityAccumulated PhysicsSystem.constructor
    (Physics.physics Scenario.dynamicA)
  = (0 * 1, 980 * 1).
Proof.
  refine (proj1 (C2_system_gravity_is_imposed PhysicsSystem.constructor (1 / 60)
                   Scenario.dynamicA 0 100 _ _ _)); reflexivity.
Defined.

(** ** Matching (C3) *)

Lemma matches_iff (system : System.t) (entity : Entity.t) :
  System.matches system entity = true
  <-> Entity.isEnabled entity = true
      /\ forall C, In C (System.requiredComponents system) ->
                   Entity.hasComponent C entity = true.
Proof.
  unfold System.matches.
  destruct (Entity.isEnabled entity); cbn.
  - rewrite forallb_forall. intuition.
  - intuition discriminate.
Qed.

Lemma removeComponent_has (C : string) (entity : Entity.t) :
  Entity.hasComponent C (snd (Entity.removeComponent C entity)) = false.
Proof.
  unfold Entity.removeComponent, Entity.hasComponent, JSMap.has.
  destruct (JSMap.get C (Entity.components entity)) eqn:E; cbn.
  - rewrite get_delete_eq. reflexivity.
  - rewrite E. reflexivity.
Qed.

Lemma removeComponent_result (C : string) (entity : Entity.t) :
  fst (Entity.removeComponent C entity) = Entity.hasComponent C entity.
Proof.
  unfold Entity.removeComponent, Entity.hasComponent, JSMap.has.
  destruct (JSMap.get C (Entity.components entity)); reflexivity.
Qed.

(** C3, as stated, fails in its second half.  A world holds a system [S]
    that requires [A] and [B] and an entity [e] that has both; adding [e]
    called [onEntityAdded] on [S].  Removing [A] from [e] drops the match,
    and calls nothing: [onEntityRemoved] is called zero times, not once. *)
Lemma C3_removeComponent_notifies_no_system :
  let w1 := snd (fst (World.addSystem Scenario.systemAB (World.constructor "w"))) in
  let added := World.addEntity Scenario.entityAB w1 in
  let removed :=
    World.onEntity "e" (Entity.removeComponent "A") Scenario.worldAB in
  System.matches Scenario.systemAB Scenario.entityAB = true
  /\ snd (fst added) = Scenario.worldAB
  /\ snd added = [World.CallOnEntityAdded "S" "e";
                  World.Emit "entityAdded" (World.EntityData "e")]
  /\ fst (fst removed) = Some true
  /\ World.getEntity "e" (snd (fst removed))
     = Some (snd (Entity.removeComponent "A" Scenario.entityAB))
  /\ System.matches Scenario.systemAB
       (snd (Entity.removeComponent "A" Scenario.entityAB)) = false
  /\ World.countOnEntityRemoved "S" "e" (snd removed) = 0%nat
  /\ World.countOnEntityRemoved "S" "e" (snd removed) <> 1%nat.
Proof.
  cbv zeta. repeat split; try (vm_compute; reflexivity).
  vm_compute. discriminate.
Qed.

(** C3, amended: a System whose required set is {A, B} matches an entity
    exactly when the entity is enabled and has both A and B; removing
    either component from a matched entity registered in a World returns
    [true] and drops the match, and it calls [onEntityRemoved] on no
    System — [Entity.removeComponent] notifies nothing. *)
Theorem C3_matching_and_component_removal
    (system : System.t) (A B C : string) (world : World.t) (entity : Entity.t) :
  System.requiredComponents system = [A; B] ->
  (System.matches system entity = true
   <-> Entity.isEnabled entity = true
       /\ Entity.hasComponent A entity = true
       /\ Entity.hasComponent B entity = true)
  /\ (C = A \/ C = B ->
      System.matches system entity = true ->
      World.getEntity (Entity.id entity) world = Some entity ->
      exists world' entity',
        World.onEntity (Entity.id entity) (Entity.removeComponent C) world
        = (Some true, world', [])
        /\ World.getEntity (Entity.id entity) world' = Some entity'
        /\ System.matches system entity' = false
        /\ World.countOnEntityRemoved (System.name system) (Entity.id entity) [] = 0%nat).
Proof.
  intros Hreq. split.
  - rewrite matches_iff, Hreq. cbn. intuition (subst; auto).
  - intros HC Hm Hget.
    assert (Hhas : Entity.hasComponent C entity = true).
    { apply matches_iff in Hm. destruct Hm as [_ Hall]. apply Hall.
      rewrite Hreq. cbn. destruct HC; auto. }
    pose proof (removeComponent_result C entity) as Hres.
    pose proof (removeComponent_has C entity) as Hgone.
    unfold World.onEntity. unfold World.getEntity in Hget. rewrite Hget.
    destruct (Entity.removeComponent C entity) as [r entity'] eqn:Er.
    cbn in Hres, Hgone. subst r. rewrite Hhas.
    eexists. exists entity'. split; [reflexivity|].
    split; [unfold World.getEntity; cbn; apply get_set_eq|].
    split; [|reflexivity].
    destruct (System.matches system entity') eqn:Hm'; [|reflexivity].
    apply matches_iff in Hm'. destruct Hm' as [_ Hall].
    rewrite Hall in Hgone; [discriminate|].
    rewrite Hreq. cbn. destruct HC; auto.
Qed.

Lemma C3_matching_and_component_removal_witness :
  exists world' entity',
    World.onEntity "e" (Entity.removeComponent "A") Scenario.worldAB
    = (Some true, world', [])
    /\ World.getEntity "e" world' = Some entity'
    /\ System.matches Scenario.systemAB entity' = false
    /\ World.countOnEntityRemoved "S" "e" [] = 0%nat.
Proof.
  refine (proj2 (C3_matching_and_component_removal
                   Scenario.systemAB "A" "B" "A" Scenario.worldAB
                   Scenario.entityAB _) _ _ _).
  - reflexivity.
  - left. reflexivity.
  - reflexivity.
  - reflexivity.
Defined.

(** ** Loops *)

(** What every call of the callback preserves, [forEach] preserves, whether
    it runs to the end or stops at an exception. *)
Lemma forEach_preserves {A S : Type} (P : S -> Prop) (f : A -> S -> outcome S)
    (l : list A) :
  (forall a s, P s -> P (JS.state_of (f a s))) ->
  forall s, P s -> P (JS.state_of (JS.forEach f l s)).
Proof.
  intros Hf. induction l as [|a l IH]; intros s Hs; cbn; [exact Hs|].
  specialize (Hf a s Hs). destruct (f a s) as [s'|e s']; cbn in *; auto.
Qed.

(** ** Static and sleeping bodies (C9) *)

Lemma keeps_refl (e : Physics.Body) : keeps e e.
Proof. split; auto. Qed.

Lemma keeps_trans (e1 e2 e3 : Physics.Body) :
  keeps e1 e2 -> keeps e2 e3 -> keeps e1 e3.
Proof.
  intros [S12 T12] [S23 T23]. split; [congruence|].
  intros H. rewrite T23 by congruence. auto.
Qed.

Lemma keeps_all_refl (l : list Physics.Body) : Forall2 keeps l l.
Proof. induction l; constructor; auto using keeps_refl. Qed.

Lemma keeps_all_trans (l1 l2 l3 : list Physics.Body) :
  Forall2 keeps l1 l2 -> Forall2 keeps l2 l3 -> Forall2 keeps l1 l3.
Proof.
  intros H. revert l3. induction H; intros l3 H3; inversion H3; subst;
    constructor; eauto using keeps_trans.
Qed.

Lemma update_static (deltaTime : float) (p : Physics.t) (tr : Transform.t) :
  Physics.isStatic p = true -> Physics.update deltaTime p tr = (p, tr).
Proof.
  intros H. unfold Physics.update. rewrite H, orb_true_r. reflexivity.
Qed.

Lemma update_sleeping (deltaTime : float) (p : Physics.t) (tr : Transform.t) :
  Physics.isSleeping p = true -> Physics.update deltaTime p tr = (p, tr).
Proof. intros H. unfold Physics.update. rewrite H. reflexivity. Qed.

Lemma updateEntityPhysics_static (system : PhysicsSystem.t) (deltaTime : float)
    (entity : Physics.Body) :
  Physics.isStatic (Physics.physics entity) = true ->
  PhysicsSystem.updateEntityPhysics system deltaTime entity = entity.
Proof. intros H. unfold PhysicsSystem.updateEntityPhysics. rewrite H. reflexivity. Qed.

Lemma updateEntityPhysics_sleeping (system : PhysicsSystem.t) (deltaTime : float)
    (entity : Physics.Body) :
  Physics.isSleeping (Physics.physics entity) = true ->
  PhysicsSystem.updateEntityPhysics system deltaTime entity = entity.
Proof.
  intros H. unfold PhysicsSystem.updateEntityPhysics.
  rewrite H, orb_true_r. reflexivity.
Qed.

Lemma checkWorldBounds_static (wb : Physics.Bounds) (entity : Physics.Body) :
  Physics.isStatic (Physics.physics entity) = true ->
  PhysicsSystem.checkWorldBounds wb entity = entity.
Proof. intros H. unfold PhysicsSystem.checkWorldBounds. rewrite H. reflexivity. Qed.

(** No step of [update] writes the parameters. *)
Lemma applyGravity_parameters (p : Physics.t) :
  parameters (Physics.applyGravity p) = parameters p.
Proof. unfold Physics.applyGravity. destruct (negb _); reflexivity. Qed.

Lemma applyImpulses_parameters (p : Physics.t) :
  parameters (Physics.applyImpulses p) = parameters p.
Proof.
  unfold Physics.applyImpulses.
  transitivity (parameters (fold_left Physics.applyImpulse (Physics.impulses p) p));
    [reflexivity|].
  generalize (Physics.impulses p). intros l. revert p.
  induction l as [|i l IH]; intros p; cbn [fold_left]; [reflexivity|].
  rewrite IH. reflexivity.
Qed.

Lemma applyForces_parameters (deltaTime : float) (p : Physics.t) :
  parameters (Physics.applyForces deltaTime p) = parameters p.
Proof.
  unfold Physics.applyForces.
  transitivity
    (parameters (fst (fold_left (Physics.applyForce deltaTime) (Physics.forces p) (p, []))));
    [reflexivity|].
  generalize (@nil Physics.Force) as acc. generalize (Physics.forces p) as l.
  intros l. revert p. induction l as [|f l IH]; intros p acc; cbn [fold_left].
  - reflexivity.
  - unfold Physics.applyForce at 2.
    match goal with |- context [if ?c then _ else _] => destruct c end;
      rewrite IH; reflexivity.
Qed.

Lemma updateVelocity_parameters (deltaTime : float) (p : Physics.t) :
  parameters (Physics.updateVelocity deltaTime p) = parameters p.
Proof. reflexivity. Qed.

Lemma applyFriction_parameters (p : Physics.t) :
  parameters (Physics.applyFriction p) = parameters p.
Proof. unfold Physics.applyFriction. destruct (negb _); reflexivity. Qed.

Lemma limitSpeed_parameters (speed : float) (p : Physics.t) :
  parameters (Physics.limitSpeed speed p) = parameters p.
Proof.
  unfold Physics.limitSpeed.
  destruct (Physics.maxSpeed p <? speed); cbn;
    match goal with |- context [if ?c then _ else _] => destruct c end; reflexivity.
Qed.

Lemma resetAcceleration_parameters (p : Physics.t) :
  parameters (Physics.resetAcceleration p) = parameters p.
Proof. unfold Physics.resetAcceleration. destruct (Physics.forces p); reflexivity. Qed.

Lemma checkSleep_parameters (speed : float) (p : Physics.t) :
  parameters (Physics.checkSleep speed p) = parameters p.
Proof. unfold Physics.checkSleep. destruct (_ && _); reflexivity. Qed.

Lemma set_angularVelocity_parameters (v : float) (p : Physics.t) :
  parameters (Physics.set_angularVelocity v p) = parameters p.
Proof. reflexivity. Qed.

Lemma update_parameters (deltaTime : float) (p : Physics.t) (tr : Transform.t) :
  parameters (fst (Physics.update deltaTime p tr)) = parameters p.
Proof.
  unfold Physics.update.
  destruct (Physics.isSleeping p || Physics.isStatic p); [reflexivity|].
  cbv zeta. unfold fst.
  rewrite checkSleep_parameters, resetAcceleration_parameters,
    set_angularVelocity_parameters, limitSpeed_parameters,
    applyFriction_parameters, updateVelocity_parameters,
    applyForces_parameters, applyImpulses_parameters, applyGravity_parameters.
  reflexivity.
Qed.

Lemma parameters_isStatic (p q : Physics.t) :
  parameters p = parameters q -> Physics.isStatic p = Physics.isStatic q.
Proof. unfold parameters. intros H. congruence. Qed.

Lemma parameters_isColliding (p q : Physics.t) :
  parameters p = parameters q -> Physics.isColliding p = Physics.isColliding q.
Proof. unfold parameters. intros H. congruence. Qed.

Lemma parameters_fields (p q : Physics.t) :
  parameters p = parameters q ->
  Physics.isStatic p = Physics.isStatic q
  /\ Physics.isKinematic p = Physics.isKinematic q
  /\ Physics.isColliding p = Physics.isColliding q
  /\ Physics.maxSpeed p = Physics.maxSpeed q
  /\ Physics.minSpeed p = Physics.minSpeed q
  /\ Physics.gravityY p = Physics.gravityY q
  /\ Physics.gravityScale p = Physics.gravityScale q
  /\ Physics.airResistance p = Physics.airResistance q.
Proof. unfold parameters. intros H. injection H. intros. repeat split; assumption. Qed.

Lemma update_isStatic (deltaTime : float) (p : Physics.t) (tr : Transform.t) :
  Physics.isStatic (fst (Physics.update deltaTime p tr)) = Physics.isStatic p.
Proof. apply parameters_isStatic, update_parameters. Qed.

Lemma updateEntityPhysics_keeps (system : PhysicsSystem.t) (deltaTime : float)
    (entity : Physics.Body) :
  keeps entity (PhysicsSystem.updateEntityPhysics system deltaTime entity).
Proof.
  split.
  - unfold PhysicsSystem.updateEntityPhysics.
    destruct (Physics.isStatic _ || Physics.isSleeping _); [reflexivity|].
    pose proof (update_isStatic deltaTime
                  (PhysicsSystem.imposeGravity system (Physics.physics entity))
                  (Physics.transform entity)) as H.
    destruct (Physics.update _ _ _) as [p' t']. cbn in *. rewrite H.
    unfold PhysicsSystem.imposeGravity.
    destruct (negb _); reflexivity.
  - intros H. rewrite updateEntityPhysics_static by exact H. reflexivity.
Qed.

Lemma handleCollision_keeps (collision : option Physics.CollisionInfo)
    (other : string) (entity : Physics.Body) :
  keeps entity (JS.state_of (Physics.handleCollision collision other entity)).
Proof.
  destruct collision as [c|]; [|apply keeps_refl].
  destruct (Physics.isStatic (Physics.physics entity)) eqn:Hs.
  - rewrite handleCollision_fixed by (left; exact Hs).
    split; [reflexivity | intros _; reflexivity].
  - destruct (Physics.isKinematic (Physics.physics entity)) eqn:Hk.
    + rewrite handleCollision_fixed by (right; exact Hk).
      split; [reflexivity | intros _; reflexivity].
    + rewrite handleCollision_dynamic by assumption.
      split; [reflexivity | intros _; reflexivity].
Qed.

Lemma checkWorldBounds_keeps (wb : Physics.Bounds) (entity : Physics.Body) :
  keeps entity (PhysicsSystem.checkWorldBounds wb entity).
Proof.
  split.
  - unfold PhysicsSystem.checkWorldBounds.
    destruct (Physics.isStatic (Physics.physics entity)) eqn:Hs; [exact Hs|].
    repeat match goal with
           | |- context [if ?c then _ else _] => destruct c; cbn
           end; exact Hs.
  - intros H. rewrite checkWorldBounds_static by exact H. reflexivity.
Qed.

Lemma clearCollisions_keeps (entity : Physics.Body) :
  keeps entity
    (Physics.set_physics (Physics.clearCollisions (Physics.physics entity)) entity).
Proof. split; reflexivity. Qed.

Lemma checkCollision_keeps (system : PhysicsSystem.t) (a b : Physics.Body) :
  let st := JS.state_of (PhysicsSystem.checkCollision system a b) in
  keeps a (snd (fst st)) /\ keeps b (snd st).
Proof.
  unfold PhysicsSystem.checkCollision.
  destruct (negb _ || negb _); [split; apply keeps_refl|].
  destruct (Physics.checkCollision _ _ _ _) as [c|]; [|split; apply keeps_refl].
  pose proof (handleCollision_keeps (Some c) (Physics.id b) a) as Ha.
  destruct (Physics.handleCollision (Some c) (Physics.id b) a) as [a'|e a'];
    cbn in Ha; [|split; [exact Ha | apply keeps_refl]].
  match goal with
  | |- context [Physics.handleCollision ?m ?o b] =>
      pose proof (handleCollision_keeps m o b) as Hb;
      destruct (Physics.handleCollision m o b) as [b'|e b']
  end; cbn in Hb; split; assumption.
Qed.

Lemma keeps_insert (l l' : list Physics.Body) (i : nat) (a a' : Physics.Body) :
  Forall2 keeps l l' -> l' !! i = Some a -> keeps a a' ->
  Forall2 keeps l (<[i:=a']> l').
Proof.
  intros H Hi K.
  destruct (Forall2_lookup_r _ _ _ _ _ H Hi) as (x & Hx & Kx).
  rewrite <- (list_insert_id l i x) by exact Hx.
  apply Forall2_insert; [exact H|]. eapply keeps_trans; eassumption.
Qed.

Lemma checkCollisionAt_keeps (entities0 : list Physics.Body) (i j : nat)
    (st : PhysicsSystem.t * list Physics.Body) :
  Forall2 keeps entities0 (snd st) ->
  Forall2 keeps entities0 (snd (JS.state_of (PhysicsSystem.checkCollisionAt i j st))).
Proof.
  destruct st as [system entities]. cbn [snd]. intros H.
  unfold PhysicsSystem.checkCollisionAt.
  destruct (entities !! i) as [a|] eqn:Hi; [|exact H].
  destruct (entities !! j) as [b|] eqn:Hj; [|exact H].
  destruct (checkCollision_keeps system a b) as [Ha Hb].
  assert (Hstep : forall a' b', keeps a a' -> keeps b b' ->
            Forall2 keeps entities0 (<[j:=b']> (<[i:=a']> entities))).
  { intros a' b' Ka Kb.
    destruct (decide (i = j)) as [->|Hne].
    - rewrite list_insert_insert_eq. eapply keeps_insert; eassumption.
    - eapply keeps_insert; [eapply keeps_insert; eassumption| |exact Kb].
      rewrite list_lookup_insert_ne by exact Hne. exact Hj. }
  destruct (PhysicsSystem.checkCollision system a b) as [[[s' a'] b']|e [[s' a'] b']];
    cbn in *; apply Hstep; assumption.
Qed.

Lemma detectCollisions_keeps (system : PhysicsSystem.t) (entities : list Physics.Body) :
  Forall2 keeps entities
    (snd (JS.state_of (PhysicsSystem.detectCollisions system entities))).
Proof.
  unfold PhysicsSystem.detectCollisions.
  apply (forEach_preserves (fun st => Forall2 keeps entities (snd st))).
  - intros i st Hst.
    apply (forEach_preserves (fun st => Forall2 keeps entities (snd st))); [|exact Hst].
    intros j st' Hst'. apply checkCollisionAt_keeps. exact Hst'.
  - apply keeps_all_refl.
Qed.

Lemma map_keeps (f : Physics.Body -> Physics.Body) (l : list Physics.Body) :
  (forall e, keeps e (f e)) -> Forall2 keeps l (map f l).
Proof. intros H. induction l; cbn; constructor; auto. Qed.

(** One whole frame keeps every static body where it was, whether [update]
    returns or throws. *)
Lemma update_keeps (system : PhysicsSystem.t) (deltaTime : float)
    (entities : list Physics.Body) :
  Forall2 keeps entities
    (snd (JS.state_of (PhysicsSystem.update system deltaTime entities))).
Proof.
  unfold PhysicsSystem.update.
  destruct (negb _); [apply keeps_all_refl|].
  assert (H : Forall2 keeps entities
                (snd (JS.state_of
                        (PhysicsSystem.integrateAndDetect system deltaTime entities)))).
  { unfold PhysicsSystem.integrateAndDetect.
    destruct (PhysicsSystem.collisionEnabled system).
    - eapply keeps_all_trans; [|apply detectCollisions_keeps].
      apply map_keeps. intros e. apply updateEntityPhysics_keeps.
    - apply map_keeps. intros e. apply updateEntityPhysics_keeps. }
  destruct (PhysicsSystem.integrateAndDetect system deltaTime entities)
    as [[s' es']|e [s' es']]; cbn in *; [|exact H].
  eapply keeps_all_trans; [exact H|].
  eapply keeps_all_trans; [|apply map_keeps; intros e; apply clearCollisions_keeps].
  destruct (PhysicsSystem.worldBounds s'); [|apply keeps_all_refl].
  apply map_keeps. intros e. apply checkWorldBounds_keeps.
Qed.

(** C9: a body with [isStatic = true] keeps its transform through the
    integration step ([Physics.update] and [updateEntityPhysics], which
    leave the whole entity as it was), through the collision response
    [handleCollision], through the world-bounds clamp [checkWorldBounds],
    and through a whole [PhysicsSystem.update] of any array it is part of;
    and the integration step leaves a body with [isSleeping = true], all
    its physics fields and its transform, exactly as it was. *)
Theorem C9_static_and_sleeping_bodies_are_left_alone
    (system : PhysicsSystem.t) (deltaTime : float) (worldBounds : Physics.Bounds)
    (collision : option Physics.CollisionInfo) (other : string)
    (entity : Physics.Body) (entities : list Physics.Body) (i : nat) :
  (Physics.isStatic (Physics.physics entity) = true ->
     Physics.update deltaTime (Physics.physics entity) (Physics.transform entity)
     = (Physics.physics entity, Physics.transform entity)
     /\ PhysicsSystem.updateEntityPhysics system deltaTime entity = entity
     /\ Physics.transform
          (JS.state_of (Physics.handleCollision collision other entity))
        = Physics.transform entity
     /\ PhysicsSystem.checkWorldBounds worldBounds entity = entity
     /\ (entities !! i = Some entity ->
         exists entity',
           snd (JS.state_of (PhysicsSystem.update system deltaTime entities)) !! i
           = Some entity'
           /\ Physics.transform entity' = Physics.transform entity))
  /\ (Physics.isSleeping (Physics.physics entity) = true ->
        Physics.update deltaTime (Physics.physics entity) (Physics.transform entity)
        = (Physics.physics entity, Physics.transform entity)
        /\ PhysicsSystem.updateEntityPhysics system deltaTime entity = entity).
Proof.
  split.
  - intros Hs. repeat split.
    + apply update_static, Hs.
    + apply updateEntityPhysics_static, Hs.
    + apply handleCollision_keeps, Hs.
    + apply checkWorldBounds_static, Hs.
    + intros Hi.
      pose proof (update_keeps system deltaTime entities) as H.
      destruct (Forall2_lookup_l _ _ _ _ _ H Hi) as (entity' & Hi' & K).
      exists entity'. split; [exact Hi'|]. apply K, Hs.
  - intros Hz. split.
    + apply update_sleeping, Hz.
    + apply updateEntityPhysics_sleeping, Hz.
Qed.

Lemma C9_static_and_sleeping_bodies_are_left_alone_witness :
  exists entity',
    snd (JS.state_of
           (PhysicsSystem.update PhysicsSystem.constructor (1 / 60)
              [Scenario.dynamicA; Scenario.circle "wall" 5 0 10 false true]))
    !! 1%nat = Some entity'
    /\ Physics.transform entity'
       = Physics.transform (Scenario.circle "wall" 5 0 10 false true).
Proof.
  refine (proj2 (proj2 (proj2 (proj2
            (proj1 (C9_static_and_sleeping_bodies_are_left_alone
                      PhysicsSystem.constructor (1 / 60)
                      {| Physics.bx := 0; Physics.by_ := 0;
                         Physics.width := 100; Physics.height := 100 |}
                      None "a" (Scenario.circle "wall" 5 0 10 false true)
                      [Scenario.dynamicA; Scenario.circle "wall" 5 0 10 false true]
                      1%nat) _)))) _); reflexivity.
Defined.

(** ** The per-frame collision state (C4, C10) *)

Lemma clearAll_quiet (entities : list Physics.Body) :
  Forall quiet (PhysicsSystem.clearAll entities).
Proof.
  unfold PhysicsSystem.clearAll.
  induction entities as [|e l IH]; cbn; constructor; [split; reflexivity | exact IH].
Qed.


Lemma update_enabled_quiet (system : PhysicsSystem.t) (deltaTime : float)
    (entities : list Physics.Body) (st : PhysicsSystem.t * list Physics.Body) :
  System.isEnabled (PhysicsSystem.super system) = true ->
  PhysicsSystem.update system deltaTime entities = Normal st ->
  Forall quiet (snd st).
Proof.
  intros He. unfold PhysicsSystem.update. rewrite He. cbn [negb].
  destruct (PhysicsSystem.integrateAndDetect _ _ _) as [[s' es']|e st'];
    [|discriminate].
  intros [= <-]. apply clearAll_quiet.
Qed.





(** [update] applies the damping step to [beforeDamping]. *)
Lemma update_damps (deltaTime : float) (p : Physics.t) (tr : Transform.t) :
  Physics.isSleeping p = false -> Physics.isStatic p = false ->
  exists q7,
    Physics.update deltaTime p tr
    = (Physics.checkSleep
         (Physics.getSpeed (Physics.applyFriction (Physics.beforeDamping deltaTime p)))
         (Physics.resetAcceleration q7),
       Physics.integratePosition deltaTime q7 tr).
Proof.
  intros Hz Hs. eexists. unfold Physics.update. rewrite Hz, Hs. reflexivity.
Qed.

(** C4: two overlapping kinematic circles (radii 10 and 15, centres 20
    apart) under the default PhysicsSystem.  During [update] a record
    (other body, normal, depth) is appended to the collision list of each,
    and both are flagged as colliding; when [update] returns, both lists
    are empty again and both flags are false, although the pair is still
    in the system's own [collisionPairs].  The lists are cleared by the
    last loop of the same [update], not at the start of the next one, so
    nothing that runs after the physics system can read the records. *)
Theorem C4_records_are_cleared_before_update_returns :
  exists s1 a1 b1 s2 a2 b2,
    PhysicsSystem.integrateAndDetect PhysicsSystem.constructor (1 / 60)
      [Scenario.kinematicA; Scenario.kinematicB]
    = Normal (s1, [a1; b1])
    /\ Physics.collisions (Physics.physics a1)
       = [{| Physics.other := "b"; Physics.recNormalX := 1;
             Physics.recNormalY := 0; Physics.recDepth := 5 |}]
    /\ Physics.collisions (Physics.physics b1)
       = [{| Physics.other := "a"; Physics.recNormalX := -1;
             Physics.recNormalY := -0; Physics.recDepth := 5 |}]
    /\ Physics.isColliding (Physics.physics a1) = true
    /\ Physics.isColliding (Physics.physics b1) = true
    /\ PhysicsSystem.update PhysicsSystem.constructor (1 / 60)
         [Scenario.kinematicA; Scenario.kinematicB]
       = Normal (s2, [a2; b2])
    /\ Physics.collisions (Physics.physics a2) = []
    /\ Physics.collisions (Physics.physics b2) = []
    /\ Physics.isColliding (Physics.physics a2) = false
    /\ Physics.isColliding (Physics.physics b2) = false
    /\ length (PhysicsSystem.collisionPairs s2) = 1%nat.
Proof.
  do 6 eexists. split; [vm_compute; reflexivity|].
  do 4 (split; [vm_compute; reflexivity|]).
  split; [vm_compute; reflexivity|].
  repeat split; vm_compute; reflexivity.
Qed.

(** ** Frames that throw *)












(** ** Integration (C5) *)

Lemma applyGravity_vertical (p : Physics.t) :
  Physics.isKinematic p = false ->
  vertical (Physics.applyGravity p)
  = (Physics.velocityY p,
     Physics.accelerationY p + Physics.gravityY p * Physics.gravityScale p,
     Physics.forces p, Physics.impulses p).
Proof. intros H. unfold Physics.applyGravity. rewrite H. reflexivity. Qed.

Lemma applyImpulses_vertical (p : Physics.t) :
  Physics.impulses p = [] ->
  vertical (Physics.applyImpulses p)
  = (Physics.velocityY p, Physics.accelerationY p, Physics.forces p, []).
Proof. intros H. unfold Physics.applyImpulses. rewrite H. reflexivity. Qed.

Lemma applyForces_vertical (deltaTime : float) (p : Physics.t) :
  Physics.forces p = [] ->
  vertical (Physics.applyForces deltaTime p)
  = (Physics.velocityY p, Physics.accelerationY p, [], Physics.impulses p).
Proof. intros H. unfold Physics.applyForces. rewrite H. reflexivity. Qed.

Lemma updateVelocity_vertical (deltaTime : float) (p : Physics.t) :
  vertical (Physics.updateVelocity deltaTime p)
  = (Physics.velocityY p + Physics.accelerationY p * deltaTime,
     Physics.accelerationY p, Physics.forces p, Physics.impulses p).
Proof. reflexivity. Qed.

Lemma applyFriction_vertical (p : Physics.t) :
  Physics.isKinematic p = false -> Physics.isColliding p = false ->
  vertical (Physics.applyFriction p)
  = (Physics.velocityY p * (1 - Physics.airResistance p),
     Physics.accelerationY p, Physics.forces p, Physics.impulses p).
Proof.
  intros Hk Hc. unfold Physics.applyFriction, Physics.dampingCoefficient.
  rewrite Hk, Hc. reflexivity.
Qed.

(** With the default limits the speed is never clamped. *)
Lemma limitSpeed_default (p : Physics.t) :
  Physics.maxSpeed p = infinity -> Physics.minSpeed p = 0 ->
  Physics.limitSpeed (Physics.getSpeed p) p = p.
Proof.
  intros Hmax Hmin. unfold Physics.limitSpeed, Physics.getSpeed.
  rewrite Hmax, ltb_infinity_l, Hmin, sqrt_ltb_zero. reflexivity.
Qed.

Lemma resetAcceleration_vertical (p : Physics.t) :
  Physics.forces p = [] ->
  vertical (Physics.resetAcceleration p)
  = (Physics.velocityY p, 0, [], Physics.impulses p).
Proof.
  intros H. unfold Physics.resetAcceleration. rewrite H.
  unfold vertical. cbn. rewrite H. reflexivity.
Qed.

Lemma checkSleep_vertical (speed : float) (p : Physics.t) :
  vertical (Physics.checkSleep speed p) = vertical p.
Proof. unfold Physics.checkSleep. destruct (_ && _); reflexivity. Qed.

Lemma set_angularVelocity_vertical (v : float) (p : Physics.t) :
  vertical (Physics.set_angularVelocity v p) = vertical p.
Proof. reflexivity. Qed.

Lemma integratePosition_y (deltaTime : float) (p : Physics.t) (tr : Transform.t) :
  Physics.isStatic p = false ->
  Transform.y (Physics.integratePosition deltaTime p tr)
  = Transform.y tr + Physics.velocityY p * deltaTime.
Proof. intros H. unfold Physics.integratePosition. rewrite H. reflexivity. Qed.

(** [update] on a body that is neither asleep nor static, with a name for
    the state after damping, for the speed and for the state after the
    angular velocity is integrated. *)
Lemma update_phases (deltaTime : float) (p q5 q7 : Physics.t) (speed : float)
    (tr : Transform.t) :
  Physics.isSleeping p = false -> Physics.isStatic p = false ->
  q5 = Physics.applyFriction
         (Physics.updateVelocity deltaTime
            (Physics.applyForces deltaTime
               (Physics.applyImpulses (Physics.applyGravity p)))) ->
  speed = Physics.getSpeed q5 ->
  q7 = Physics.set_angularVelocity
         (Physics.angularVelocity (Physics.limitSpeed speed q5)
          + Physics.angularAcceleration (Physics.limitSpeed speed q5) * deltaTime)
         (Physics.limitSpeed speed q5) ->
  Physics.update deltaTime p tr
  = (Physics.checkSleep speed (Physics.resetAcceleration q7),
     Physics.integratePosition deltaTime q7 tr).
Proof.
  intros Hz Hs -> -> ->. unfold Physics.update. rewrite Hz, Hs. reflexivity.
Qed.

Lemma update_freeFall (deltaTime : float) (p : Physics.t) (tr : Transform.t) :
  freeFall p -> Physics.isSleeping p = false ->
  let p' := fst (Physics.update deltaTime p tr) in
  let tr' := snd (Physics.update deltaTime p tr) in
  Physics.velocityY p'
  = (Physics.velocityY p + (0 + Physics.gravityY p * Physics.gravityScale p) * deltaTime)
    * (1 - Physics.airResistance p)
  /\ Transform.y tr' = Transform.y tr + Physics.velocityY p' * deltaTime
  /\ freeFall p'
  /\ Physics.gravityY p' = Physics.gravityY p
  /\ Physics.gravityScale p' = Physics.gravityScale p
  /\ Physics.airResistance p' = Physics.airResistance p.
Proof.
  intros (Hs & Hk & Hf & Hi & Ha & Hmax & Hmin & Hc) Hz.
  pose proof (update_parameters deltaTime p tr) as Hpar.
  remember (Physics.applyGravity p) as q1 eqn:Q1.
  remember (Physics.applyImpulses q1) as q2 eqn:Q2.
  remember (Physics.applyForces deltaTime q2) as q3 eqn:Q3.
  remember (Physics.updateVelocity deltaTime q3) as q4 eqn:Q4.
  remember (Physics.applyFriction q4) as q5 eqn:Q5.
  remember (Physics.set_angularVelocity
              (Physics.angularVelocity (Physics.limitSpeed (Physics.getSpeed q5) q5)
               + Physics.angularAcceleration (Physics.limitSpeed (Physics.getSpeed q5) q5)
                 * deltaTime)
              (Physics.limitSpeed (Physics.getSpeed q5) q5)) as q7 eqn:Q7.
  assert (Hu : Physics.update deltaTime p tr
               = (Physics.checkSleep (Physics.getSpeed q5) (Physics.resetAcceleration q7),
                  Physics.integratePosition deltaTime q7 tr)).
  { apply (update_phases deltaTime p q5 q7 (Physics.getSpeed q5) tr Hz Hs);
      [subst q5 q4 q3 q2 q1; reflexivity | reflexivity | exact Q7]. }
  cbv zeta. rewrite Hu in *. cbn [fst snd] in *. clear Hu.
  assert (P1 : parameters q1 = parameters p)
    by (rewrite Q1; apply applyGravity_parameters).
  assert (P2 : parameters q2 = parameters p)
    by (rewrite Q2, applyImpulses_parameters; exact P1).
  assert (P3 : parameters q3 = parameters p)
    by (rewrite Q3, applyForces_parameters; exact P2).
  assert (P4 : parameters q4 = parameters p)
    by (rewrite Q4, updateVelocity_parameters; exact P3).
  assert (P5 : parameters q5 = parameters p)
    by (rewrite Q5, applyFriction_parameters; exact P4).
  assert (V1 : vertical q1
               = (Physics.velocityY p, 0 + Physics.gravityY p * Physics.gravityScale p,
                  [], [])).
  { rewrite Q1, applyGravity_vertical by exact Hk. rewrite Ha, Hf, Hi. reflexivity. }
  assert (V2 : vertical q2
               = (Physics.velocityY p, 0 + Physics.gravityY p * Physics.gravityScale p,
                  [], [])).
  { unfold vertical in V1. injection V1 as E1 E2 E3 E4.
    rewrite Q2, applyImpulses_vertical by exact E4. rewrite E1, E2, E3. reflexivity. }
  assert (V3 : vertical q3
               = (Physics.velocityY p, 0 + Physics.gravityY p * Physics.gravityScale p,
                  [], [])).
  { unfold vertical in V2. injection V2 as E1 E2 E3 E4.
    rewrite Q3, applyForces_vertical by exact E3. rewrite E1, E2, E4. reflexivity. }
  assert (V4 : vertical q4
               = (Physics.velocityY p
                  + (0 + Physics.gravityY p * Physics.gravityScale p) * deltaTime,
                  0 + Physics.gravityY p * Physics.gravityScale p, [], [])).
  { unfold vertical in V3. injection V3 as E1 E2 E3 E4.
    rewrite Q4, updateVelocity_vertical. rewrite E1, E2, E3, E4. reflexivity. }
  destruct (parameters_fields _ _ P4) as (S4 & K4 & C4 & _ & _ & _ & _ & R4).
  assert (V5 : vertical q5
               = ((Physics.velocityY p
                   + (0 + Physics.gravityY p * Physics.gravityScale p) * deltaTime)
                  * (1 - Physics.airResistance p),
                  0 + Physics.gravityY p * Physics.gravityScale p, [], [])).
  { unfold vertical in V4. injection V4 as E1 E2 E3 E4.
    rewrite Q5, applyFriction_vertical by congruence.
    rewrite E1, E2, E3, E4, R4. reflexivity. }
  destruct (parameters_fields _ _ P5) as (S5 & K5 & C5 & M5 & N5 & G5 & L5 & R5).
  clear Q1 Q2 Q3 Q4 Q5 P1 P2 P3 P4 V1 V2 V3 V4.
  rewrite limitSpeed_default in Q7 by congruence.
  assert (V7 : vertical q7 = vertical q5) by (rewrite Q7; reflexivity).
  assert (S7 : Physics.isStatic q7 = false) by (rewrite Q7; cbn; congruence).
  rewrite V5 in V7. unfold vertical in V7. injection V7 as E1 E2 E3 E4.
  pose proof (resetAcceleration_vertical q7 E3) as V8.
  pose proof (checkSleep_vertical (Physics.getSpeed q5) (Physics.resetAcceleration q7)) as V9.
  rewrite V8 in V9. unfold vertical in V9. injection V9 as F1 F2 F3 F4.
  destruct (parameters_fields _ _ Hpar) as (S9 & K9 & C9 & M9 & N9 & G9 & L9 & R9).
  rewrite integratePosition_y by exact S7.
  rewrite F1, E1. unfold freeFall.
  repeat split; congruence.
Qed.

Lemma awake_S (n : nat) (deltaTime : float) (st : Physics.t * Transform.t) :
  awake (S n) deltaTime st = true ->
  awake n deltaTime st = true
  /\ Physics.isSleeping (fst (Scenario.steps n deltaTime st)) = false.
Proof.
  unfold awake. rewrite seq_S, forallb_app. cbn.
  rewrite andb_true_r. intros H. apply andb_true_iff in H. destruct H as [H1 H2].
  split; [exact H1|]. apply negb_true_iff. exact H2.
Qed.

Lemma steps_freeFall (n : nat) (deltaTime : float) (p : Physics.t) (tr : Transform.t) :
  freeFall p ->
  awake n deltaTime (p, tr) = true ->
  let st := Scenario.steps n deltaTime (p, tr) in
  freeFall (fst st)
  /\ Physics.gravityY (fst st) = Physics.gravityY p
  /\ Physics.gravityScale (fst st) = Physics.gravityScale p
  /\ Physics.airResistance (fst st) = Physics.airResistance p
  /\ (Physics.velocityY (fst st), Transform.y (snd st))
     = Spec.dampedEuler n deltaTime
         (Physics.gravityY p * Physics.gravityScale p) (Physics.airResistance p)
         (Physics.velocityY p, Transform.y tr).
Proof.
  intros Hp. induction n as [|n IH]; intros Ha.
  - cbn. auto.
  - apply awake_S in Ha. destruct Ha as [Ha Hz].
    destruct (IH Ha) as (Hf & Hg & Hs & Hr & He). clear IH.
    cbn [Scenario.steps Spec.dampedEuler]. cbv zeta.
    set (st := Scenario.steps n deltaTime (p, tr)) in *.
    destruct (update_freeFall deltaTime (fst st) (snd st) Hf Hz)
      as (Hv & Hy & Hf' & Hg' & Hs' & Hr').
    rewrite <- He. cbv zeta in Hv, Hy, Hf', Hg', Hs', Hr'.
    split; [exact Hf'|]. split; [congruence|]. split; [congruence|].
    split; [congruence|].
    rewrite Hy, Hv, Hg, Hs, Hr. reflexivity.
Qed.

(** C5, as stated, fails.  The body built by
    [new Physics({accelerationY: 980, mass: 1, friction: 0})] starts at
    rest; with [dt = 1/60] and no collision, one step gives
    [velocityY = 980/60 * 0.99], which is 1% below [980 * 1 / 60]: the
    velocity is damped by the air resistance, whose default 0.01 the
    constructor also substitutes for a requested 0.  The step then resets
    the acceleration to 0, so after 60 steps [velocityY] is below 9 where
    the property gives 980. *)
Lemma C5_velocity_is_damped_and_acceleration_reset :
  let start := (Scenario.falling, Transform.constructor None None) in
  let after := fun n => Scenario.steps n (1 / 60) start in
  Physics.accelerationY Scenario.falling = 980
  /\ Physics.mass Scenario.falling = 1
  /\ Physics.velocityY Scenario.falling = 0
  /\ Physics.airResistance Scenario.falling = 0.01
  /\ JS.or_number (Some 0) 0.01 = 0.01
  /\ Physics.velocityY (fst (after 1%nat)) = 980 * (1 / 60) * (1 - 0.01)
  /\ Spec.withinTolerance (Physics.velocityY (fst (after 1%nat))) (980 * 1 / 60) = false
  /\ Physics.accelerationY (fst (after 1%nat)) = 0
  /\ Physics.isColliding (fst (after 60%nat)) = false
  /\ (Physics.velocityY (fst (after 60%nat)) <? 9) = true
  /\ Spec.withinTolerance (Physics.velocityY (fst (after 60%nat))) (980 * 60 / 60) = false.
Proof.
  cbv zeta. repeat split; vm_compute; reflexivity.
Qed.

(** C5, amended: take a dynamic body with nothing queued, no acceleration
    left over, the default speed limits and no collision flagged, whose
    acceleration is supplied by its gravity [g = gravityY * gravityScale]
    (980 for the default system).  For as long as the body has not been
    put to sleep, [N] integration steps of [dt] take the velocity and the
    position through the damped semi-implicit Euler recurrence
    [v <- (v + g * dt) * (1 - airResistance)], [y <- y + v * dt]: the
    velocity is not [g * N * dt] unless the air resistance is zero, and
    the position is the sum of the per-step velocities times [dt]. *)
Theorem C5_integration_is_damped_euler
    (n : nat) (deltaTime : float) (p : Physics.t) (tr : Transform.t) :
  Physics.isStatic p = false -> Physics.isKinematic p = false ->
  Physics.forces p = [] -> Physics.impulses p = [] ->
  Physics.accelerationY p = 0 ->
  Physics.maxSpeed p = infinity -> Physics.minSpeed p = 0 ->
  Physics.isColliding p = false ->
  forallb (fun k => negb (Physics.isSleeping (fst (Scenario.steps k deltaTime (p, tr)))))
          (seq 0 n) = true ->
  (Physics.velocityY (fst (Scenario.steps n deltaTime (p, tr))),
   Transform.y (snd (Scenario.steps n deltaTime (p, tr))))
  = Spec.dampedEuler n deltaTime
      (Physics.gravityY p * Physics.gravityScale p) (Physics.airResistance p)
      (Physics.velocityY p, Transform.y tr).
Proof.
  intros Hs Hk Hf Hi Ha Hmax Hmin Hc Hawake.
  apply steps_freeFall; [|exact Hawake].
  unfold freeFall. auto 10.
Qed.

Lemma C5_integration_is_damped_euler_witness :
  (Physics.velocityY
     (fst (Scenario.steps 60 (1 / 60)
             (Physics.setGravity 0 980 None (Physics.constructor Physics.noData),
              Transform.constructor None None))),
   Transform.y
     (snd (Scenario.steps 60 (1 / 60)
             (Physics.setGravity 0 980 None (Physics.constructor Physics.noData),
              Transform.constructor None None))))
  = Spec.dampedEuler 60 (1 / 60) (980 * 1) 0.01 (0, 0).
Proof.
  apply (C5_integration_is_damped_euler 60 (1 / 60)
           (Physics.setGravity 0 980 None (Physics.constructor Physics.noData))
           (Transform.constructor None None));
    vm_compute; reflexivity.
Defined.

(** ** The narrow phase (C6) *)









(** ** Scheduling (C7) *)


Lemma sortInsert_nil (a : System.t) : World.sortInsert byPriority a [] = [a].
Proof. reflexivity. Qed.

Lemma sortInsert_later (a b : System.t) (l : list System.t) :
  (System.priority b < System.priority a)%Z ->
  World.sortInsert byPriority a (b :: l) = b :: World.sortInsert byPriority a l.
Proof.
  intros H. cbn [World.sortInsert]. unfold byPriority at 1, System.getPriority.
  destruct (Z.ltb_spec 0 (System.priority a - System.priority b)); [reflexivity | lia].
Qed.

Lemma sortInsert_first (a b : System.t) (l : list System.t) :
  (System.priority a <= System.priority b)%Z ->
  World.sortInsert byPriority a (b :: l) = a :: b :: l.
Proof.
  intros H. cbn [World.sortInsert]. unfold byPriority at 1, System.getPriority.
  destruct (Z.ltb_spec 0 (System.priority a - System.priority b)); [lia | reflexivity].
Qed.

Lemma sortInsert_perm {A : Type} (compare : A -> A -> Z) (a : A) (l : list A) :
  Permutation (World.sortInsert compare a l) (a :: l).
Proof.
  induction l as [|b l IH]; cbn; [reflexivity|].
  destruct (0 <? compare a b)%Z; [|reflexivity].
  rewrite IH. apply perm_swap.
Qed.

Lemma sort_perm {A : Type} (compare : A -> A -> Z) (l : list A) :
  Permutation (World.sort compare l) l.
Proof.
  induction l as [|a l IH]; cbn; [reflexivity|].
  rewrite sortInsert_perm. constructor. exact IH.
Qed.

Lemma sortInsert_sorted (a : System.t) (l : list System.t) :
  StronglySorted ascending l ->
  StronglySorted ascending (World.sortInsert byPriority a l).
Proof.
  induction 1 as [|b l Hl IH Hb]; cbn.
  - repeat constructor.
  - unfold byPriority at 1, System.getPriority.
    destruct (0 <? _)%Z eqn:E.
    + apply Z.ltb_lt in E. constructor; [exact IH|].
      apply (Permutation_Forall (symmetry (sortInsert_perm byPriority a l))).
      constructor; [unfold ascending; lia | exact Hb].
    + apply Z.ltb_ge in E. constructor; [constructor; assumption|].
      constructor; [unfold ascending; lia|].
      eapply List.Forall_impl; [|exact Hb]. unfold ascending. intros c Hc. lia.
Qed.

Lemma sort_sorted (l : list System.t) :
  StronglySorted ascending (World.sort byPriority l).
Proof.
  induction l as [|a l IH]; cbn; [constructor | apply sortInsert_sorted, IH].
Qed.

(** Stability: among the systems of one priority the sort changes
    nothing. *)
Lemma sortInsert_stable (p : Z) (a : System.t) (l : list System.t) :
  List.filter (fun s => (System.priority s =? p)%Z) (World.sortInsert byPriority a l)
  = List.filter (fun s => (System.priority s =? p)%Z) (a :: l).
Proof.
  induction l as [|b l IH]; [reflexivity|].
  cbn [World.sortInsert]. unfold byPriority at 1, System.getPriority.
  destruct (0 <? _)%Z eqn:E; [|reflexivity].
  apply Z.ltb_lt in E. cbn [List.filter] in *. rewrite IH.
  destruct (System.priority a =? p)%Z eqn:Ea;
    destruct (System.priority b =? p)%Z eqn:Eb; try reflexivity.
  apply Z.eqb_eq in Ea, Eb. lia.
Qed.

Lemma sort_stable (p : Z) (l : list System.t) :
  List.filter (fun s => (System.priority s =? p)%Z) (World.sort byPriority l)
  = List.filter (fun s => (System.priority s =? p)%Z) l.
Proof.
  induction l as [|a l IH]; [reflexivity|].
  cbn [World.sort]. rewrite sortInsert_stable. cbn [List.filter].
  rewrite IH. reflexivity.
Qed.

Lemma sort_same_priority (l : list System.t) (p : Z) :
  Forall (fun s => System.priority s = p) l ->
  World.sort byPriority l = l.
Proof.
  intros H.
  assert (Hid : forall l', Forall (fun s => System.priority s = p) l' ->
                           List.filter (fun s => (System.priority s =? p)%Z) l' = l').
  { induction 1 as [|s l' Hs Hl' IH']; cbn; [reflexivity|].
    rewrite Hs, Z.eqb_refl, IH'. reflexivity. }
  rewrite <- (Hid (World.sort byPriority l)).
  - rewrite sort_stable. apply Hid, H.
  - apply (Permutation_Forall (symmetry (sort_perm byPriority l))). exact H.
Qed.

Lemma Permutation_three {A : Type} (l : list A) (a b c : A) :
  Permutation l [a; b; c] ->
  l = [a; b; c] \/ l = [a; c; b] \/ l = [b; a; c]
  \/ l = [b; c; a] \/ l = [c; a; b] \/ l = [c; b; a].
Proof.
  intros H. pose proof (Permutation_length H) as Hlen.
  destruct l as [|x [|y [|z [|]]]]; try discriminate. clear Hlen.
  assert (Hx : In x [a; b; c]) by (eapply Permutation_in; [exact H | left; reflexivity]).
  assert (two : forall u v, Permutation [y; z] [u; v] ->
                            (y = u /\ z = v) \/ (y = v /\ z = u)).
  { intros u v P. symmetry in P. apply Permutation_length_2_inv in P.
    destruct P as [P|P]; injection P as -> ->; auto. }
  destruct Hx as [<-|[<-|[<-|[]]]].
  - apply Permutation_cons_inv in H. destruct (two _ _ H) as [[-> ->]|[-> ->]]; auto.
  - assert (P : Permutation (b :: [y; z]) (b :: [a; c])).
    { rewrite H. apply perm_swap. }
    apply Permutation_cons_inv in P.
    destruct (two _ _ P) as [[-> ->]|[-> ->]]; auto 10.
  - assert (P : Permutation (c :: [y; z]) (c :: [a; b])).
    { rewrite H. etransitivity; [apply perm_skip, perm_swap | apply perm_swap]. }
    apply Permutation_cons_inv in P.
    destruct (two _ _ P) as [[-> ->]|[-> ->]]; auto 10.
Qed.

Lemma updateSystems_calls (deltaTime : float) (l : list System.t) :
  Forall (fun s => System.isEnabled s = true -> System.implementsUpdate s = true) l ->
  World.updateSystems deltaTime l
  = Normal (map (fun s => World.CallUpdate (System.name s) deltaTime)
              (List.filter System.isEnabled l)).
Proof.
  induction 1 as [|s l Hs Hl IH]; cbn; [reflexivity|].
  destruct (System.isEnabled s) eqn:E.
  - rewrite Hs by reflexivity. rewrite IH. reflexivity.
  - exact IH.
Qed.

Lemma updateCalls_app (l1 l2 : list World.Effect) :
  World.updateCalls (l1 ++ l2) = World.updateCalls l1 ++ World.updateCalls l2.
Proof. unfold World.updateCalls. apply flat_map_app. Qed.

Lemma updateCalls_emit (event : string) (data : World.Payload) (w : World.t) :
  World.updateCalls (World.emit event data w) = [].
Proof.
  unfold World.emit. cbn.
  destruct (JSMap.get event (World.eventListeners w)) as [ls|]; [|reflexivity].
  induction ls; cbn; auto.
Qed.

Lemma updateCalls_updates (deltaTime : float) (l : list System.t) :
  World.updateCalls (map (fun s => World.CallUpdate (System.name s) deltaTime) l)
  = map System.name l.
Proof. induction l; cbn; [reflexivity|]. f_equal. assumption. Qed.

(** What one [update] of a running World calls. *)
Lemma update_calls (currentTime : float) (w : World.t) :
  World.isRunning w = true ->
  Forall (fun s => System.isEnabled s = true -> System.implementsUpdate s = true)
         (World.getSystems w) ->
  exists w' effects,
    World.update currentTime w = Normal (w', effects)
    /\ World.updateCalls effects
       = map System.name (List.filter System.isEnabled (World.sortedSystems w)).
Proof.
  intros Hrun Himpl. unfold World.update. rewrite Hrun. cbn [negb]. cbv zeta.
  assert (Hs : World.sortedSystems (World.set_lastUpdateTime currentTime w)
               = World.sortedSystems w) by reflexivity.
  rewrite Hs. rewrite updateSystems_calls.
  - do 2 eexists. split; [reflexivity|].
    rewrite updateCalls_app, updateCalls_emit, app_nil_r.
    apply updateCalls_updates.
  - apply (Permutation_Forall (symmetry (sort_perm _ _))). exact Himpl.
Qed.

Lemma filter_all {A : Type} (f : A -> bool) (l : list A) :
  Forall (fun a => f a = true) l -> List.filter f l = l.
Proof. induction 1 as [|a l Ha Hl IH]; cbn; [reflexivity|]. rewrite Ha, IH. reflexivity. Qed.

(** C7: in a running World whose enabled systems implement [update], one
    call of [World.update] calls [update] on the enabled systems in the
    order of the stable sort of the registration order by priority: the
    order is ascending in priority, it is a rearrangement of the
    registration order, and systems of equal priority keep their
    registration order.  In particular three enabled systems of priorities
    10, 50 and 100, registered in any order, are updated in the order
    10, 50, 100; and when all systems have the same priority they are
    updated in registration order. *)
Theorem C7_update_order_is_stable_ascending_priority
    (currentTime : float) (w : World.t) :
  World.isRunning w = true ->
  Forall (fun s => System.isEnabled s = true -> System.implementsUpdate s = true)
         (World.getSystems w) ->
  exists w' effects,
    World.update currentTime w = Normal (w', effects)
    /\ World.updateCalls effects
       = map System.name (List.filter System.isEnabled (World.sortedSystems w))
    /\ StronglySorted
         (fun a b => (System.priority a <= System.priority b)%Z)
         (World.sortedSystems w)
    /\ Permutation (World.sortedSystems w) (World.getSystems w)
    /\ (forall p,
          List.filter (fun s => (System.priority s =? p)%Z) (World.sortedSystems w)
          = List.filter (fun s => (System.priority s =? p)%Z) (World.getSystems w))
    /\ (forall a b c,
          System.priority a = 10%Z -> System.priority b = 50%Z ->
          System.priority c = 100%Z ->
          Forall (fun s => System.isEnabled s = true) [a; b; c] ->
          Permutation (World.getSystems w) [a; b; c] ->
          World.updateCalls effects = [System.name a; System.name b; System.name c])
    /\ (forall p,
          Forall (fun s => System.priority s = p) (World.getSystems w) ->
          Forall (fun s => System.isEnabled s = true) (World.getSystems w) ->
          World.updateCalls effects = map System.name (World.getSystems w)).
Proof.
  intros Hrun Himpl.
  destruct (update_calls currentTime w Hrun Himpl) as (w' & effects & Hu & Hc).
  exists w', effects. split; [exact Hu|]. split; [exact Hc|].
  split; [apply sort_sorted|]. split; [apply sort_perm|].
  split; [intros p; apply sort_stable|]. split.
  - intros a b c Ha Hb Hcc Hen Hperm. rewrite Hc.
    assert (Hsorted : World.sortedSystems w = [a; b; c]).
    { unfold World.sortedSystems.
      destruct (Permutation_three _ _ _ _ Hperm) as [E|[E|[E|[E|[E|E]]]]];
        rewrite E; cbn [World.sort];
        repeat first [ rewrite sortInsert_nil
                     | rewrite sortInsert_later by lia
                     | rewrite sortInsert_first by lia ];
        reflexivity. }
    rewrite Hsorted, filter_all by exact Hen. reflexivity.
  - intros p Hp Hen. rewrite Hc.
    unfold World.sortedSystems. rewrite (sort_same_priority _ p Hp).
    rewrite filter_all by exact Hen. reflexivity.
Qed.

Lemma C7_update_order_is_stable_ascending_priority_witness :
  exists w' effects,
    World.update 16 Scenario.scheduledWorld = Normal (w', effects)
    /\ World.updateCalls effects = ["Input"; "Logic"; "Render"]%string.
Proof.
  destruct (C7_update_order_is_stable_ascending_priority 16 Scenario.scheduledWorld)
    as (w' & effects & Hu & Hc & _).
  - reflexivity.
  - repeat constructor.
  - exists w', effects. split; [exact Hu|]. rewrite Hc. reflexivity.
Defined.

(** ** Duplicate registrations (C8) *)

(** C8: [addEntity] with an entity whose id is already registered, and
    [addSystem] with a system whose type name is already registered,
    return [false] and leave the World exactly as it was, so the entity or
    system registered before is still the one found; all they do is write
    one warning on the console: no hook is called and no event is emitted.
    Such a call arises, for instance, from adding the same entity or
    system a second time. *)
Theorem C8_duplicate_registration_is_rejected
    (w : World.t) (entity : Entity.t) (system : System.t) :
  (JSMap.has (Entity.id entity) (World.entities w) = true ->
   exists message,
     World.addEntity entity w = (false, w, [World.ConsoleWarn message]))
  /\ (JSMap.has (System.getName system) (World.systems w) = true ->
      exists message,
        World.addSystem system w = (false, w, [World.ConsoleWarn message]))
  /\ (JSMap.has (Entity.id entity) (World.entities w) = false ->
      let w1 := snd (fst (World.addEntity entity w)) in
      fst (fst (World.addEntity entity w)) = true
      /\ fst (fst (World.addEntity entity w1)) = false
      /\ snd (fst (World.addEntity entity w1)) = w1
      /\ World.getEntity (Entity.id entity) w1 = Some entity)
  /\ (JSMap.has (System.getName system) (World.systems w) = false ->
      let w1 := snd (fst (World.addSystem system w)) in
      fst (fst (World.addSystem system w)) = true
      /\ fst (fst (World.addSystem system w1)) = false
      /\ snd (fst (World.addSystem system w1)) = w1
      /\ World.getSystem (System.getName system) w1
         = Some (System.set_world (Some (World.name w)) system)).
Proof.
  split; [|split; [|split]].
  - intros H. unfold World.addEntity. rewrite H. eexists. reflexivity.
  - intros H. unfold World.addSystem. cbv zeta. rewrite H. eexists. reflexivity.
  - intros H. cbv zeta.
    assert (E : World.addEntity entity w
                = (true,
                   World.set_entityCounter (S (World.entityCounter w))
                     (World.set_entities
                        (JSMap.set (Entity.id entity) entity (World.entities w)) w),
                   snd (World.addEntity entity w))).
    { unfold World.addEntity. rewrite H. reflexivity. }
    rewrite E. cbn [fst snd].
    assert (Hhas : JSMap.has (Entity.id entity)
                     (World.entities
                        (World.set_entityCounter (S (World.entityCounter w))
                           (World.set_entities
                              (JSMap.set (Entity.id entity) entity (World.entities w)) w)))
                   = true) by (cbn; apply has_set_eq).
    unfold World.addEntity at 1 2. rewrite Hhas. cbn [fst snd].
    repeat split. unfold World.getEntity. cbn. apply get_set_eq.
  - intros H. cbv zeta.
    assert (E : World.addSystem system w
                = (true,
                   World.set_systems
                     (JSMap.set (System.getName system)
                        (System.set_world (Some (World.name w)) system)
                        (World.systems w)) w,
                   snd (World.addSystem system w))).
    { unfold World.addSystem. cbv zeta. rewrite H. reflexivity. }
    rewrite E. cbn [fst snd].
    assert (Hhas : JSMap.has (System.getName system)
                     (World.systems
                        (World.set_systems
                           (JSMap.set (System.getName system)
                              (System.set_world (Some (World.name w)) system)
                              (World.systems w)) w))
                   = true) by (cbn; apply has_set_eq).
    unfold World.addSystem at 1 2. cbv zeta. rewrite Hhas. cbn [fst snd].
    repeat split. unfold World.getSystem. cbn. apply get_set_eq.
Qed.

Lemma C8_duplicate_registration_is_rejected_witness :
  exists message,
    World.addEntity Scenario.entityAB Scenario.worldAB
    = (false, Scenario.worldAB, [World.ConsoleWarn message]).
Proof.
  apply (proj1 (C8_duplicate_registration_is_rejected
                  Scenario.worldAB Scenario.entityAB Scenario.systemAB)).
  reflexivity.
Defined.

(** * Further properties of the code *)

(** * Further properties of the code *)

(** ** Maps, continued *)

Section MoreMapFacts.
Context {V : Type}.
Implicit Types (m : list (string * V)) (k : string) (v : V).

Lemma keys_set m k v :
  JSMap.keys (JSMap.set k v m)
  = if JSMap.has k m then JSMap.keys m else JSMap.keys m ++ [k].
Proof.
  unfold JSMap.has, JSMap.keys.
  induction m as [|[k' v'] m IH]; cbn; [reflexivity|].
  destruct (String.eqb_spec k k') as [->|Hne]; cbn; [reflexivity|].
  rewrite IH. destruct (JSMap.get k m); reflexivity.
Qed.

Lemma has_keys m k : JSMap.has k m = true <-> In k (JSMap.keys m).
Proof.
  unfold JSMap.has, JSMap.keys.
  induction m as [|[k' v'] m IH]; cbn; [intuition discriminate|].
  destruct (String.eqb_spec k k') as [->|Hne]; [intuition|].
  rewrite IH. intuition congruence.
Qed.

Lemma has_false_keys m k : JSMap.has k m = false <-> ~ In k (JSMap.keys m).
Proof.
  rewrite <- has_keys. destruct (JSMap.has k m); intuition congruence.
Qed.

Lemma keys_set_NoDup m k v : NoDup (JSMap.keys m) -> NoDup (JSMap.keys (JSMap.set k v m)).
Proof.
  intros H. rewrite keys_set. destruct (JSMap.has k m) eqn:E; [exact H|].
  apply has_false_keys in E.
  apply NoDup_ListNoDup. apply NoDup_ListNoDup in H.
  apply List.NoDup_app; [exact H | repeat constructor; intros [] | ].
  intros x Hx [<-|[]]. contradiction.
Qed.

Lemma keys_delete m k :
  JSMap.keys (JSMap.delete k m)
  = List.filter (fun k' => negb (String.eqb k k')) (JSMap.keys m).
Proof.
  unfold JSMap.delete, JSMap.keys.
  induction m as [|[k' v'] m IH]; cbn; [reflexivity|].
  destruct (String.eqb k k'); cbn; rewrite IH; reflexivity.
Qed.

Lemma keys_delete_NoDup m k : NoDup (JSMap.keys m) -> NoDup (JSMap.keys (JSMap.delete k m)).
Proof.
  intros H. rewrite keys_delete. apply NoDup_ListNoDup.
  apply List.NoDup_filter. apply NoDup_ListNoDup. exact H.
Qed.

Lemma length_set m k v :
  length (JSMap.set k v m) = if JSMap.has k m then length m else S (length m).
Proof.
  pose proof (keys_set m k v) as H. apply (f_equal (@length string)) in H.
  unfold JSMap.keys in H. rewrite length_map in H. rewrite H.
  destruct (JSMap.has k m); rewrite ?length_app, !length_map; cbn; lia.
Qed.

Lemma length_delete m k : (length (JSMap.delete k m) <= length m)%nat.
Proof. unfold JSMap.delete. apply List.filter_length_le. Qed.

Lemma delete_set_fresh m k v : JSMap.has k m = false -> JSMap.delete k (JSMap.set k v m) = m.
Proof.
  unfold JSMap.has, JSMap.delete.
  induction m as [|[k' v'] m IH]; cbn.
  - rewrite String.eqb_refl. reflexivity.
  - destruct (String.eqb k k') eqn:E; [discriminate|]. cbn. rewrite E. cbn.
    intros H. rewrite IH by exact H. reflexivity.
Qed.

Lemma values_set_fresh m k v :
  JSMap.has k m = false -> JSMap.values (JSMap.set k v m) = JSMap.values m ++ [v].
Proof.
  unfold JSMap.has, JSMap.values.
  induction m as [|[k' v'] m IH]; cbn; [reflexivity|].
  destruct (String.eqb k k') eqn:E; [discriminate|]. cbn.
  intros H. rewrite IH by exact H. reflexivity.
Qed.

End MoreMapFacts.

(** ** Entities and their components *)

(** X1: adding a second component of a class replaces the first: the
    entity then returns the second instance, with its back-reference set to
    the entity, the class is stored once, and the number of components did
    not grow. *)
Theorem addComponent_overwrites (entity : Entity.t) (first second : Component.t) :
  Component.className first = Component.className second ->
  Component.className second <> ""%string ->
  NoDup (JSMap.keys (Entity.components entity)) ->
  let entity1 := Entity.addComponent first entity in
  let entity2 := Entity.addComponent second entity1 in
  Entity.getComponent (Some (Component.className second)) entity2
  = Some (Component.set_entity (Some (Entity.id entity)) second)
  /\ Entity.hasComponent (Component.className second) entity2 = true
  /\ NoDup (JSMap.keys (Entity.components entity2))
  /\ length (Entity.components entity2) = length (Entity.components entity1)
  /\ Entity.id entity2 = Entity.id entity.
Proof.
  intros Hname Hne Hnd. cbv zeta.
  unfold Entity.addComponent, Entity.getComponent, Entity.hasComponent. cbn.
  apply String.eqb_neq in Hne. rewrite Hne.
  rewrite get_set_eq. split; [reflexivity|].
  split; [apply has_set_eq|].
  split; [apply keys_set_NoDup, keys_set_NoDup, Hnd|].
  split; [|reflexivity].
  rewrite length_set. rewrite Hname, has_set_eq. reflexivity.
Qed.

Lemma addComponent_overwrites_witness :
  Entity.getComponent (Some "A"%string)
    (Entity.addComponent (Component.constructor "A") Scenario.entityAB)
  = Some (Component.set_entity (Some "e"%string) (Component.constructor "A")).
Proof.
  refine (proj1 (addComponent_overwrites
                   (Entity.addComponent (Component.constructor "B")
                      (Entity.constructor "e"))
                   (Component.constructor "A") (Component.constructor "A") _ _ _)).
  - reflexivity.
  - discriminate.
  - cbn. repeat constructor. intros H. inversion H.
Defined.

(** X2: [hasComponent] and [getComponent] agree on every class whose name
    is not empty; for the empty name (an anonymous class) [getComponent]
    answers [null] even when [hasComponent] answers [true]. *)
Theorem getComponent_agrees_with_hasComponent
    (entity : Entity.t) (componentClass : string) (anonymous : Component.t) :
  (componentClass <> ""%string ->
   (Entity.hasComponent componentClass entity = true
    <-> is_Some (Entity.getComponent (Some componentClass) entity)))
  /\ Entity.getComponent None entity = None
  /\ (Component.className anonymous = ""%string ->
      Entity.hasComponent "" (Entity.addComponent anonymous entity) = true
      /\ Entity.getComponent (Some ""%string) (Entity.addComponent anonymous entity)
         = None).
Proof.
  split; [|split].
  - intros Hne. apply String.eqb_neq in Hne.
    unfold Entity.hasComponent, Entity.getComponent, JSMap.has. rewrite Hne.
    destruct (JSMap.get componentClass (Entity.components entity)).
    + split; [eauto | reflexivity].
    + split; [discriminate | intros [x Hx]; discriminate].
  - reflexivity.
  - intros Hname. unfold Entity.hasComponent, Entity.addComponent. cbn.
    rewrite Hname. split; [apply has_set_eq | reflexivity].
Qed.

Lemma getComponent_agrees_with_hasComponent_witness :
  Entity.hasComponent "A" Scenario.entityAB = true
  <-> is_Some (Entity.getComponent (Some "A"%string) Scenario.entityAB).
Proof.
  apply (proj1 (getComponent_agrees_with_hasComponent Scenario.entityAB "A"
                  (Component.constructor ""))).
  discriminate.
Defined.

(** X3: [removeComponent] returns whether the entity had the component;
    afterwards the entity does not have it, every other class is as
    before, and removing it again returns [false] and changes nothing. *)
Theorem removeComponent_removes_only_that_class
    (entity : Entity.t) (componentClass otherClass : string) :
  let result := Entity.removeComponent componentClass entity in
  fst result = Entity.hasComponent componentClass entity
  /\ Entity.hasComponent componentClass (snd result) = false
  /\ (otherClass <> componentClass ->
      JSMap.get otherClass (Entity.components (snd result))
      = JSMap.get otherClass (Entity.components entity))
  /\ Entity.removeComponent componentClass (snd result) = (false, snd result)
  /\ Entity.id (snd result) = Entity.id entity
  /\ Entity.enabled (snd result) = Entity.enabled entity.
Proof.
  cbv zeta.
  split; [apply removeComponent_result|].
  split; [apply removeComponent_has|].
  pose proof (removeComponent_has componentClass entity) as Hgone.
  unfold Entity.removeComponent, Entity.hasComponent, JSMap.has in *.
  destruct (JSMap.get componentClass (Entity.components entity)) eqn:E; cbn in *.
  - split; [intros Hne; apply get_delete_ne; exact Hne|].
    rewrite get_delete_eq. repeat split.
  - rewrite E. repeat split.
Qed.

Lemma removeComponent_removes_only_that_class_witness :
  JSMap.get "B" (Entity.components (snd (Entity.removeComponent "A" Scenario.entityAB)))
  = JSMap.get "B" (Entity.components Scenario.entityAB).
Proof.
  apply (proj1 (proj2 (proj2
           (removeComponent_removes_only_that_class Scenario.entityAB "A" "B")))).
  discriminate.
Defined.

(** ** The registries of a World *)

Section Registries.
Context {V : Type} (key : V -> string).
Implicit Types (m : list (string * V)) (k : string) (v : V).

Lemma registry_nil : registry key [].
Proof. split; constructor. Qed.

Lemma set_Forall (P : string * V -> Prop) m k v :
  Forall P m -> P (k, v) -> Forall P (JSMap.set k v m).
Proof.
  induction 1 as [|[k' v'] m Hx Hm IH]; intros Hv; cbn; [repeat constructor; exact Hv|].
  destruct (String.eqb k k'); constructor; auto.
Qed.

Lemma registry_set m k v : registry key m -> k = key v -> registry key (JSMap.set k v m).
Proof.
  intros [Hnd Hk] E. split; [apply keys_set_NoDup, Hnd|].
  apply set_Forall; [exact Hk | exact E].
Qed.

Lemma registry_delete m k : registry key m -> registry key (JSMap.delete k m).
Proof.
  intros [Hnd Hk]. split; [apply keys_delete_NoDup, Hnd|].
  unfold JSMap.delete.
  induction Hk as [|[k' v'] m Hx Hm IH]; cbn; [constructor|].
  apply NoDup_cons in Hnd. destruct Hnd as [_ Hnd].
  destruct (negb (String.eqb k k')); [constructor|]; auto.
Qed.

Lemma registry_get m k v : registry key m -> JSMap.get k m = Some v -> key v = k.
Proof.
  intros [_ Hk]. induction Hk as [|[k' v'] m Hx Hm IH]; cbn; [discriminate|].
  destruct (String.eqb_spec k k') as [->|Hne].
  - intros [= ->]. symmetry. exact Hx.
  - exact IH.
Qed.

Lemma registry_values m v :
  registry key m -> In v (JSMap.values m) -> JSMap.get (key v) m = Some v.
Proof.
  intros [Hnd Hk]. unfold JSMap.values, JSMap.keys in *.
  induction m as [|[k' v'] m IH]; cbn; [intros []|].
  apply NoDup_cons in Hnd. destruct Hnd as [Hnotin Hnd].
  apply Forall_cons in Hk. destruct Hk as [Hx Hk]. cbn in Hx, Hnotin.
  intros [->|Hin].
  - rewrite <- Hx, String.eqb_refl. reflexivity.
  - destruct (String.eqb_spec (key v) k') as [E|Hne]; [|apply IH; assumption].
    exfalso. apply Hnotin. apply list_elem_of_In.
    specialize (IH Hnd Hk Hin).
    assert (Hhas : JSMap.has (key v) m = true) by (unfold JSMap.has; rewrite IH; reflexivity).
    apply has_keys in Hhas. rewrite <- E. exact Hhas.
Qed.

End Registries.

Lemma onEntity_wellFormed {A : Type} (entityId : string)
    (method : Entity.t -> A * Entity.t) (w : World.t) :
  (forall e, Entity.id (snd (method e)) = Entity.id e) ->
  wellFormed w -> wellFormed (snd (fst (World.onEntity entityId method w))).
Proof.
  intros Hid (He & Hs & Hc). unfold World.onEntity.
  destruct (JSMap.get entityId (World.entities w)) as [e|] eqn:E;
    [|exact (conj He (conj Hs Hc))].
  specialize (Hid e). destruct (method e) as [r e'] eqn:M. cbn in Hid |- *.
  split; [|split]; cbn.
  - apply registry_set; [exact He|].
    rewrite Hid. symmetry. eapply registry_get; eassumption.
  - exact Hs.
  - rewrite length_set. unfold JSMap.has. rewrite E. exact Hc.
Qed.

Lemma perform_wellFormed (call : World.Call) (w : World.t) :
  wellFormed w -> wellFormed (World.perform call w).
Proof.
  intros H. pose proof H as (He & Hs & Hc). destruct call; cbn [World.perform].
  - unfold World.addEntity.
    destruct (JSMap.has (Entity.id entity) (World.entities w)) eqn:E; [exact H|].
    cbn. split; [|split]; cbn.
    + apply registry_set; [exact He | reflexivity].
    + exact Hs.
    + rewrite length_set, E. lia.
  - unfold World.removeEntity.
    destruct (JSMap.get entityId (World.entities w)); [|exact H].
    cbn. split; [|split]; cbn.
    + apply registry_delete, He.
    + exact Hs.
    + pose proof (length_delete (World.entities w) entityId). lia.
  - unfold World.addSystem. cbv zeta.
    destruct (JSMap.has (System.getName system) (World.systems w)); [exact H|].
    cbn. split; [|split]; cbn; [exact He| |exact Hc].
    apply registry_set; [exact Hs | reflexivity].
  - unfold World.removeSystem.
    destruct (JSMap.get systemName (World.systems w)); [|exact H].
    cbn. split; [|split]; cbn; [exact He| |exact Hc].
    apply registry_delete, Hs.
  - unfold World.start. destruct (World.isRunning w); exact H.
  - unfold World.stop. destruct (negb (World.isRunning w)); exact H.
  - unfold World.update. destruct (negb (World.isRunning w)); [exact H|]. cbv zeta.
    destruct (World.updateSystems _ _); exact H.
  - cbn. repeat split; constructor.
  - unfold World.destroy, World.stop.
    destruct (negb (World.isRunning w)); cbn; repeat split; constructor.
  - exact H.
  - unfold World.off. destruct (JSMap.get eventName (World.eventListeners w)); exact H.
  - apply onEntity_wellFormed; [reflexivity | exact H].
  - apply onEntity_wellFormed; [|exact H].
    intros e. unfold Entity.removeComponent.
    destruct (JSMap.get componentClass (Entity.components e)); reflexivity.
  - apply onEntity_wellFormed; [reflexivity | exact H].
  - apply onEntity_wellFormed; [reflexivity | exact H].
Qed.

Lemma performAll_wellFormed (name : string) (calls : list World.Call) :
  wellFormed (World.performAll calls (World.constructor name)).
Proof.
  unfold World.performAll.
  assert (H0 : wellFormed (World.constructor name))
    by (cbn; repeat split; constructor).
  revert H0. generalize (World.constructor name).
  induction calls as [|c calls IH]; intros w Hw; cbn; [exact Hw|].
  apply IH, perform_wellFormed, Hw.
Qed.

(** X4: whatever a game calls on a new World, and in whatever order, no
    two entries of the entity registry share an id, every entity is stored
    under its own id and every system under its own name, and the entity
    counter is at least the number of registered entities. *)
Theorem world_registries_stay_well_formed (name : string) (calls : list World.Call) :
  let w := World.performAll calls (World.constructor name) in
  NoDup (JSMap.keys (World.entities w))
  /\ NoDup (JSMap.keys (World.systems w))
  /\ (forall entityId entity,
        World.getEntity entityId w = Some entity -> Entity.id entity = entityId)
  /\ (forall systemName system,
        World.getSystem systemName w = Some system -> System.name system = systemName)
  /\ (length (World.getEntities w) <= World.entityCounter w)%nat.
Proof.
  cbv zeta.
  destruct (performAll_wellFormed name calls) as (He & Hs & Hc).
  split; [apply He|]. split; [apply Hs|].
  split; [intros k e Hg; eapply registry_get; eassumption|].
  split; [intros k s Hg; eapply registry_get; eassumption|].
  unfold World.getEntities, JSMap.values. rewrite length_map. exact Hc.
Qed.

Lemma world_registries_stay_well_formed_witness :
  System.name (System.set_world (Some "w"%string) Scenario.systemAB) = "S"%string.
Proof.
  apply (proj1 (proj2 (proj2 (proj2
           (world_registries_stay_well_formed "w"
              [World.AddSystem Scenario.systemAB;
               World.AddEntity Scenario.entityAB]))))).
  reflexivity.
Defined.

(** ** Notifications *)

Lemma removedCalls_app (entity : string) (l1 l2 : list World.Effect) :
  World.removedCalls entity (l1 ++ l2)
  = World.removedCalls entity l1 ++ World.removedCalls entity l2.
Proof. unfold World.removedCalls. apply flat_map_app. Qed.

Lemma addedCalls_app (entity : string) (l1 l2 : list World.Effect) :
  World.addedCalls entity (l1 ++ l2)
  = World.addedCalls entity l1 ++ World.addedCalls entity l2.
Proof. unfold World.addedCalls. apply flat_map_app. Qed.

Lemma removedCalls_emit (entity event : string) (data : World.Payload) (w : World.t) :
  World.removedCalls entity (World.emit event data w) = [].
Proof.
  unfold World.emit. cbn.
  destruct (JSMap.get event (World.eventListeners w)) as [ls|]; [|reflexivity].
  induction ls; cbn; auto.
Qed.

Lemma addedCalls_emit (entity event : string) (data : World.Payload) (w : World.t) :
  World.addedCalls entity (World.emit event data w) = [].
Proof.
  unfold World.emit. cbn.
  destruct (JSMap.get event (World.eventListeners w)) as [ls|]; [|reflexivity].
  induction ls; cbn; auto.
Qed.

Lemma removedCalls_notifyRemoved (systems : list System.t) (entity : Entity.t) :
  World.removedCalls (Entity.id entity) (World.notifyRemoved systems entity)
  = map System.name (List.filter (fun s => System.matches s entity) systems).
Proof.
  unfold World.notifyRemoved.
  induction systems as [|s l IH]; [reflexivity|].
  cbn [flat_map List.filter]. rewrite removedCalls_app, IH.
  destruct (System.matches s entity); [|reflexivity].
  unfold World.removedCalls at 1. cbn. rewrite String.eqb_refl. reflexivity.
Qed.

Lemma addedCalls_notifyAdded (systems : list System.t) (entity : Entity.t) :
  World.addedCalls (Entity.id entity) (World.notifyAdded systems entity)
  = map System.name (List.filter (fun s => System.matches s entity) systems).
Proof.
  unfold World.notifyAdded.
  induction systems as [|s l IH]; [reflexivity|].
  cbn [flat_map List.filter]. rewrite addedCalls_app, IH.
  destruct (System.matches s entity); [|reflexivity].
  unfold World.addedCalls at 1. cbn. rewrite String.eqb_refl. reflexivity.
Qed.

Lemma countOnEntityRemoved_app (system entity : string) (l1 l2 : list World.Effect) :
  World.countOnEntityRemoved system entity (l1 ++ l2)
  = (World.countOnEntityRemoved system entity l1
     + World.countOnEntityRemoved system entity l2)%nat.
Proof.
  unfold World.countOnEntityRemoved. rewrite List.filter_app, length_app. reflexivity.
Qed.

Lemma countOnEntityRemoved_emit (system entity event : string)
    (data : World.Payload) (w : World.t) :
  World.countOnEntityRemoved system entity (World.emit event data w) = 0%nat.
Proof.
  unfold World.emit, World.countOnEntityRemoved. cbn.
  destruct (JSMap.get event (World.eventListeners w)) as [ls|]; [|reflexivity].
  induction ls; cbn; auto.
Qed.

Lemma countOnEntityRemoved_one (name0 : string) (s : System.t) (entity : Entity.t) :
  World.countOnEntityRemoved name0 (Entity.id entity)
    (if System.matches s entity
     then [World.CallOnEntityRemoved (System.name s) (Entity.id entity)]
     else [])
  = if System.matches s entity && String.eqb (System.name s) name0
    then 1%nat else 0%nat.
Proof.
  destruct (System.matches s entity); [|reflexivity].
  unfold World.countOnEntityRemoved. cbn. rewrite String.eqb_refl, andb_true_r.
  destruct (String.eqb (System.name s) name0); reflexivity.
Qed.

Lemma countOnEntityRemoved_absent (name0 : string) (l : list System.t)
    (entity : Entity.t) :
  ~ In name0 (map System.name l) ->
  World.countOnEntityRemoved name0 (Entity.id entity) (World.notifyRemoved l entity)
  = 0%nat.
Proof.
  unfold World.notifyRemoved. induction l as [|s l IH]; intros Hn; [reflexivity|].
  cbn [flat_map]. rewrite countOnEntityRemoved_app, countOnEntityRemoved_one.
  rewrite IH by (intros Hin; apply Hn; right; exact Hin).
  destruct (String.eqb_spec (System.name s) name0) as [E|_];
    [exfalso; apply Hn; left; exact E|].
  rewrite andb_false_r. reflexivity.
Qed.

(** Among systems of different names, only [system] itself carries the
    name of [system]. *)
Lemma countOnEntityRemoved_present (l : list System.t) (system : System.t)
    (entity : Entity.t) :
  List.NoDup (map System.name l) -> In system l ->
  World.countOnEntityRemoved (System.name system) (Entity.id entity)
    (World.notifyRemoved l entity)
  = if System.matches system entity then 1%nat else 0%nat.
Proof.
  induction l as [|s l IH]; intros Hnd Hin; [destruct Hin|].
  cbn [map] in Hnd. apply List.NoDup_cons_iff in Hnd. destruct Hnd as [Hnotin Hnd].
  unfold World.notifyRemoved in *. cbn [flat_map].
  rewrite countOnEntityRemoved_app, countOnEntityRemoved_one.
  destruct Hin as [->|Hin].
  - rewrite String.eqb_refl, andb_true_r.
    pose proof (countOnEntityRemoved_absent (System.name system) l entity Hnotin) as H0.
    unfold World.notifyRemoved in H0. rewrite H0.
    destruct (System.matches system entity); reflexivity.
  - rewrite (IH Hnd Hin).
    destruct (String.eqb_spec (System.name s) (System.name system)) as [E|_].
    + exfalso. apply Hnotin. rewrite E. apply in_map. exact Hin.
    + rewrite andb_false_r. reflexivity.
Qed.

Lemma registry_names (m : list (string * System.t)) :
  registry System.name m -> map System.name (JSMap.values m) = JSMap.keys m.
Proof.
  intros [_ Hk]. unfold JSMap.values, JSMap.keys.
  induction Hk as [|[k s] m Hx Hm IH]; cbn; [reflexivity|].
  cbn in Hx. rewrite IH, Hx. reflexivity.
Qed.

Lemma get_values {V : Type} (m : list (string * V)) (k : string) (v : V) :
  JSMap.get k m = Some v -> In v (JSMap.values m).
Proof.
  unfold JSMap.values. induction m as [|[k' v'] m IH]; cbn; [discriminate|].
  destruct (String.eqb k k'); [intros [= ->]; left; reflexivity|].
  intros H. right. apply IH, H.
Qed.

Lemma countOnEntityRemoved_notify (m : list (string * System.t))
    (system : System.t) (entity : Entity.t) :
  registry System.name m ->
  JSMap.get (System.name system) m = Some system ->
  World.countOnEntityRemoved (System.name system) (Entity.id entity)
    (World.notifyRemoved (JSMap.values m) entity)
  = if System.matches system entity then 1%nat else 0%nat.
Proof.
  intros Hreg Hget. apply countOnEntityRemoved_present.
  - rewrite registry_names by exact Hreg. apply NoDup_ListNoDup, Hreg.
  - eapply get_values, Hget.
Qed.

(** X5: [removeEntity] on a registered entity returns [true], calls
    [onEntityRemoved] on the systems that match the entity, in registration
    order, exactly once on each of them and not at all on the others, and
    afterwards the entity cannot be found; on an id that is not registered
    it returns [false] and does nothing. *)
Theorem removeEntity_notifies_each_matching_system_once
    (calls : list World.Call) (worldName entityId : string) (system : System.t) :
  let w := World.performAll calls (World.constructor worldName) in
  let result := World.removeEntity entityId w in
  (forall entity,
     World.getEntity entityId w = Some entity ->
     fst (fst result) = true
     /\ World.getEntity entityId (snd (fst result)) = None
     /\ World.removedCalls entityId (snd result)
        = map System.name
            (List.filter (fun s => System.matches s entity) (World.getSystems w))
     /\ (World.getSystem (System.name system) w = Some system ->
         World.countOnEntityRemoved (System.name system) entityId (snd result)
         = if System.matches system entity then 1%nat else 0%nat))
  /\ (World.getEntity entityId w = None -> result = (false, w, [])).
Proof.
  cbv zeta.
  destruct (performAll_wellFormed worldName calls) as (Hent & Hreg & _).
  set (w := World.performAll calls (World.constructor worldName)) in *.
  split.
  - intros entity Hget.
    assert (Heid : Entity.id entity = entityId)
      by (eapply registry_get; [exact Hent | exact Hget]).
    unfold World.removeEntity, World.getEntity in *. rewrite Hget. cbn [fst snd].
    split; [reflexivity|].
    split; [cbn [World.entities World.set_entities]; apply get_delete_eq|].
    rewrite removedCalls_app, removedCalls_emit, app_nil_r, <- Heid.
    split; [apply removedCalls_notifyRemoved|].
    intros Hsys. rewrite countOnEntityRemoved_app, countOnEntityRemoved_emit, Nat.add_0_r.
    apply countOnEntityRemoved_notify; [exact Hreg | exact Hsys].
  - intros Hget. unfold World.removeEntity, World.getEntity in *. rewrite Hget.
    reflexivity.
Qed.

Lemma removeEntity_notifies_each_matching_system_once_witness :
  World.countOnEntityRemoved "S" "e"
    (snd (World.removeEntity "e" Scenario.worldAB)) = 1%nat.
Proof.
  refine (proj2 (proj2 (proj2
            (proj1 (removeEntity_notifies_each_matching_system_once
                      [World.AddSystem Scenario.systemAB;
                       World.AddEntity Scenario.entityAB]
                      "w" "e" (System.set_world (Some "w"%string) Scenario.systemAB))
               Scenario.entityAB _))) _); reflexivity.
Defined.

(** X6: adding an entity under a fresh id and removing it again puts both
    registries back as they were and calls [onEntityRemoved] on the very
    systems, in the same order, on which adding it had called
    [onEntityAdded]; the entity counter keeps the increment. *)
Theorem addEntity_then_removeEntity (entity : Entity.t) (w : World.t) :
  World.getEntity (Entity.id entity) w = None ->
  let added := World.addEntity entity w in
  let removed := World.removeEntity (Entity.id entity) (snd (fst added)) in
  fst (fst added) = true
  /\ fst (fst removed) = true
  /\ World.entities (snd (fst removed)) = World.entities w
  /\ World.systems (snd (fst removed)) = World.systems w
  /\ World.entityCounter (snd (fst removed)) = S (World.entityCounter w)
  /\ World.removedCalls (Entity.id entity) (snd removed)
     = World.addedCalls (Entity.id entity) (snd added).
Proof.
  intros Hfresh. cbv zeta.
  assert (Hhas : JSMap.has (Entity.id entity) (World.entities w) = false).
  { unfold JSMap.has. unfold World.getEntity in Hfresh. rewrite Hfresh. reflexivity. }
  unfold World.addEntity. rewrite Hhas. cbn [fst snd].
  unfold World.removeEntity. cbn [World.entities World.set_entityCounter World.set_entities].
  rewrite get_set_eq. cbn [fst snd].
  split; [reflexivity|]. split; [reflexivity|].
  split; [cbn; apply delete_set_fresh, Hhas|].
  split; [reflexivity|]. split; [reflexivity|].
  rewrite removedCalls_app, removedCalls_emit, app_nil_r.
  rewrite addedCalls_app, addedCalls_emit, app_nil_r.
  cbn [World.systems World.set_entityCounter World.set_entities].
  rewrite removedCalls_notifyRemoved, addedCalls_notifyAdded. reflexivity.
Qed.

Lemma addEntity_then_removeEntity_witness :
  World.entities
    (snd (fst (World.removeEntity "f"
                 (snd (fst (World.addEntity (Entity.constructor "f")
                              Scenario.worldAB))))))
  = World.entities Scenario.worldAB.
Proof.
  refine (proj1 (proj2 (proj2
            (addEntity_then_removeEntity (Entity.constructor "f") Scenario.worldAB _)))).
  reflexivity.
Defined.

(** X7: [addSystem] with a system whose name is not registered returns
    [true], stores the system under its name with [world] set, calls
    [init], then [onEntityAdded] for exactly the entities that
    [getMatchingEntities] returns for the system, in that order, and then
    emits [systemAdded]; the entities are not touched. *)
Theorem addSystem_matches_existing_entities (system : System.t) (w : World.t) :
  World.getSystem (System.getName system) w = None ->
  let registered := System.set_world (Some (World.name w)) system in
  exists w',
    World.addSystem system w
    = (true, w',
       World.CallInit (System.name system)
       :: map (fun entity =>
                 World.CallOnEntityAdded (System.name system) (Entity.id entity))
            (World.getMatchingEntities system w)
       ++ World.emit "systemAdded" (World.SystemData (System.name system)) w')
    /\ World.getSystem (System.name system) w' = Some registered
    /\ World.getSystems w' = World.getSystems w ++ [registered]
    /\ World.entities w' = World.entities w
    /\ World.getMatchingEntities registered w' = World.getMatchingEntities system w.
Proof.
  intros Hfresh. cbv zeta.
  assert (Hhas : JSMap.has (System.getName system) (World.systems w) = false).
  { unfold JSMap.has. unfold World.getSystem in Hfresh. rewrite Hfresh. reflexivity. }
  unfold World.addSystem. cbv zeta. rewrite Hhas.
  eexists. split; [|split; [|split; [|split]]].
  - f_equal. cbn [app]. f_equal. f_equal.
    unfold World.getMatchingEntities, World.getEntities. cbn [World.entities World.set_systems].
    generalize (JSMap.values (World.entities w)). intros l.
    induction l as [|e l IH]; cbn; [reflexivity|].
    change (System.matches (System.set_world (Some (World.name w)) system) e)
      with (System.matches system e).
    destruct (System.matches system e); cbn; rewrite IH; reflexivity.
  - unfold World.getSystem. cbn. apply get_set_eq.
  - unfold World.getSystems. cbn. apply values_set_fresh, Hhas.
  - reflexivity.
  - reflexivity.
Qed.

Lemma addSystem_matches_existing_entities_witness :
  exists w',
    World.addSystem (Scenario.system "Late" 5) Scenario.worldAB
    = (true, w',
       World.CallInit "Late"
       :: map (fun entity => World.CallOnEntityAdded "Late" (Entity.id entity))
            (World.getMatchingEntities (Scenario.system "Late" 5) Scenario.worldAB)
       ++ World.emit "systemAdded" (World.SystemData "Late") w').
Proof.
  destruct (addSystem_matches_existing_entities (Scenario.system "Late" 5)
              Scenario.worldAB eq_refl) as (w' & H & _).
  exists w'. exact H.
Defined.

(** ** The life of a World *)

(** X8: [update] does nothing on a World that is not running: the World is
    as before ([lastUpdateTime] included), no system is called and no event
    is emitted; this is so after [stop].  After [start(now)] on a stopped
    World, [update(t)] sets [lastUpdateTime] to [t] and calls the enabled
    systems in priority order, each with [deltaTime = (t - now) / 1000],
    before it emits [worldUpdated]. *)
Theorem update_is_gated_by_start_and_stop (now currentTime : float) (w : World.t) :
  (World.isRunning w = false -> World.update currentTime w = Normal (w, []))
  /\ World.update currentTime (fst (World.stop w)) = Normal (fst (World.stop w), [])
  /\ (World.isRunning w = false ->
      Forall (fun s => System.isEnabled s = true -> System.implementsUpdate s = true)
             (World.getSystems w) ->
      let started := fst (World.start now w) in
      let after := World.set_lastUpdateTime currentTime started in
      World.isRunning started = true
      /\ World.update currentTime started
         = Normal
             (after,
              map (fun s => World.CallUpdate (System.name s) ((currentTime - now) / 1000))
                  (List.filter System.isEnabled (World.sortedSystems w))
              ++ World.emit "worldUpdated"
                   (World.UpdateData ((currentTime - now) / 1000) currentTime) after)).
Proof.
  split; [|split].
  - intros H. unfold World.update. rewrite H. reflexivity.
  - unfold World.stop, World.update.
    destruct (World.isRunning w) eqn:E; cbn; [reflexivity | rewrite E; reflexivity].
  - intros Hstop Himpl. cbv zeta. unfold World.start. rewrite Hstop. cbn [fst].
    split; [reflexivity|].
    unfold World.update. cbn [World.isRunning World.set_lastUpdateTime
                              World.set_isRunning negb World.lastUpdateTime].
    cbv zeta.
    change (World.sortedSystems
              (World.set_lastUpdateTime currentTime
                 (World.set_lastUpdateTime now (World.set_isRunning true w))))
      with (World.sortedSystems w).
    rewrite updateSystems_calls; [reflexivity|].
    apply (Permutation_Forall (symmetry (sort_perm _ _))). exact Himpl.
Qed.

Lemma update_is_gated_by_start_and_stop_witness :
  World.update 16 Scenario.worldAB = Normal (Scenario.worldAB, []).
Proof.
  apply (proj1 (update_is_gated_by_start_and_stop 0 16 Scenario.worldAB)).
  reflexivity.
Defined.

Lemma listenerCalls_app (event : string) (l1 l2 : list World.Effect) :
  World.listenerCalls event (l1 ++ l2)
  = World.listenerCalls event l1 ++ World.listenerCalls event l2.
Proof. unfold World.listenerCalls. apply flat_map_app. Qed.

Lemma listenerCalls_emit (event event' : string) (data : World.Payload) (w : World.t) :
  World.listenerCalls event (World.emit event' data w)
  = if String.eqb event' event then World.listenersOf event w else [].
Proof.
  unfold World.emit, World.listenersOf, World.listenerCalls. cbn [flat_map app].
  destruct (String.eqb_spec event' event) as [->|Hne].
  - destruct (JSMap.get event (World.eventListeners w)) as [ls|]; [|reflexivity].
    induction ls as [|l ls IH]; cbn; [reflexivity|].
    rewrite String.eqb_refl. cbn. f_equal. exact IH.
  - destruct (JSMap.get event' (World.eventListeners w)) as [ls|]; [|reflexivity].
    apply String.eqb_neq in Hne.
    induction ls as [|l ls IH]; cbn; [reflexivity|]. rewrite Hne. exact IH.
Qed.

Lemma listenerCalls_destroyed (event : string) (l : list System.t) :
  World.listenerCalls event (map (fun s => World.CallDestroy (System.name s)) l) = [].
Proof. induction l; cbn; auto. Qed.

Lemma destroyCalls_app (l1 l2 : list World.Effect) :
  World.destroyCalls (l1 ++ l2) = World.destroyCalls l1 ++ World.destroyCalls l2.
Proof. unfold World.destroyCalls. apply flat_map_app. Qed.

Lemma destroyCalls_emit (event : string) (data : World.Payload) (w : World.t) :
  World.destroyCalls (World.emit event data w) = [].
Proof.
  unfold World.emit, World.destroyCalls. cbn [flat_map app].
  destruct (JSMap.get event (World.eventListeners w)) as [ls|]; [|reflexivity].
  induction ls; cbn; auto.
Qed.

Lemma destroyCalls_destroyed (l : list System.t) :
  World.destroyCalls (map (fun s => World.CallDestroy (System.name s)) l) = map System.name l.
Proof. induction l; cbn; [reflexivity|]. f_equal. assumption. Qed.

(** X9: [destroy] leaves a World with no entity, no system, no listener,
    a counter of zero, and not running; it calls [destroy] on every system,
    in registration order; its [worldDestroyed] event reaches no listener,
    because the listeners are dropped before it is emitted; and a second
    [destroy] leaves the World as the first one left it and calls nothing
    but a console warning. *)
Theorem destroy_empties_the_world_and_is_idempotent (w : World.t) :
  let once := World.destroy w in
  let twice := World.destroy (fst once) in
  World.entities (fst once) = []
  /\ World.systems (fst once) = []
  /\ World.eventListeners (fst once) = []
  /\ World.entityCounter (fst once) = 0%nat
  /\ World.isRunning (fst once) = false
  /\ World.listenerCalls "worldDestroyed" (snd once) = []
  /\ World.destroyCalls (snd once) = map System.name (World.getSystems w)
  /\ fst twice = fst once
  /\ snd twice
     = [World.ConsoleWarn ("World " ++ World.name w ++ " is not running");
        World.Emit "worldCleared" (World.WorldData (World.name w));
        World.Emit "worldDestroyed" (World.WorldData (World.name w))].
Proof.
  cbv zeta.
  assert (Hshape : exists stopped w1,
             World.destroy w
             = ({| World.name := World.name w; World.entities := [];
                   World.systems := []; World.entityCounter := 0%nat;
                   World.isRunning := false;
                   World.lastUpdateTime := World.lastUpdateTime w;
                   World.eventListeners := [] |},
                stopped
                ++ (map (fun s => World.CallDestroy (System.name s)) (World.getSystems w)
                    ++ World.emit "worldCleared" (World.WorldData (World.name w)) w1)
                ++ [World.Emit "worldDestroyed" (World.WorldData (World.name w))])
             /\ World.listenerCalls "worldDestroyed" stopped = []
             /\ World.destroyCalls stopped = []).
  { unfold World.destroy, World.stop, World.clear.
    destruct (World.isRunning w) eqn:E; cbn [negb].
    - do 2 eexists. split; [reflexivity|].
      split; [apply listenerCalls_emit | apply destroyCalls_emit].
    - exists [World.ConsoleWarn ("World " ++ World.name w ++ " is not running")],
        (World.set_entityCounter 0 (World.set_entities [] (World.set_systems [] w))).
      split; [cbn; rewrite E; reflexivity|]. split; reflexivity. }
  destruct Hshape as (stopped & w1 & Hd & Hl & Hc). rewrite Hd. cbn [fst snd].
  repeat split.
  - rewrite !listenerCalls_app, Hl, listenerCalls_destroyed, listenerCalls_emit.
    reflexivity.
  - rewrite !destroyCalls_app, Hc, destroyCalls_destroyed, destroyCalls_emit.
    cbn [app]. unfold World.destroyCalls at 1. cbn [flat_map app].
    rewrite !app_nil_r. reflexivity.
Qed.

(** ** Events *)

Lemma removeFirst_app_fresh (listener : nat) (l : list nat) :
  ~ In listener l -> World.removeFirst listener (l ++ [listener]) = l.
Proof.
  induction l as [|x l IH]; intros Hn; cbn.
  - rewrite Nat.eqb_refl. reflexivity.
  - destruct (Nat.eqb_spec x listener) as [->|_]; [exfalso; apply Hn; left; reflexivity|].
    rewrite IH; [reflexivity|]. intros H. apply Hn. right. exact H.
Qed.

(** X10: an event is delivered to its listeners in the order in which they
    subscribed, a new subscription coming last and other events being left
    alone; [off] undoes the [on] of a listener that was not subscribed
    before; when the listener was already subscribed, [off] removes its
    earliest subscription, so the listener moves to the end of the
    order. *)
Theorem listeners_are_called_in_subscription_order
    (event other : string) (listener : nat) (data : World.Payload) (w : World.t) :
  World.listenerCalls event (World.emit event data w) = World.listenersOf event w
  /\ World.listenersOf event (World.on event listener w) = World.listenersOf event w ++ [listener]
  /\ (other <> event ->
      World.listenersOf other (World.on event listener w) = World.listenersOf other w
      /\ World.listenersOf other (World.off event listener w) = World.listenersOf other w)
  /\ (~ In listener (World.listenersOf event w) ->
      World.listenersOf event (World.off event listener (World.on event listener w))
      = World.listenersOf event w)
  /\ (forall before after,
        World.listenersOf event w = before ++ listener :: after ->
        ~ In listener before ->
        World.listenersOf event (World.off event listener (World.on event listener w))
        = before ++ after ++ [listener]).
Proof.
  split; [|split; [|split; [|split]]].
  - rewrite listenerCalls_emit, String.eqb_refl. reflexivity.
  - unfold World.listenersOf, World.on. cbn. rewrite get_set_eq. reflexivity.
  - intros Hne. split.
    + unfold World.listenersOf, World.on. cbn. rewrite get_set_ne by exact Hne. reflexivity.
    + unfold World.listenersOf, World.off.
      destruct (JSMap.get event (World.eventListeners w)); [|reflexivity].
      cbn. rewrite get_set_ne by exact Hne. reflexivity.
  - intros Hn. unfold World.listenersOf in *. unfold World.off, World.on. cbn.
    rewrite get_set_eq. cbn. rewrite get_set_eq.
    apply removeFirst_app_fresh. exact Hn.
  - intros before after Hl Hn. unfold World.listenersOf in *. unfold World.off, World.on. cbn.
    rewrite get_set_eq. cbn. rewrite get_set_eq. rewrite Hl.
    clear Hl. induction before as [|x before IH]; cbn.
    + rewrite Nat.eqb_refl. reflexivity.
    + destruct (Nat.eqb_spec x listener) as [->|_];
        [exfalso; apply Hn; left; reflexivity|].
      rewrite IH; [reflexivity|]. intros H. apply Hn. right. exact H.
Qed.

Lemma listeners_are_called_in_subscription_order_witness :
  World.listenersOf "entityAdded"
    (World.off "entityAdded" 7 (World.on "entityAdded" 7 Scenario.worldAB))
  = World.listenersOf "entityAdded" Scenario.worldAB.
Proof.
  refine (proj1 (proj2 (proj2 (proj2
            (listeners_are_called_in_subscription_order "entityAdded" "x" 7
               (World.EntityData "e") Scenario.worldAB)))) _).
  intros H. exact H.
Defined.

(** ** Creating entities *)

(** X11: [World.createEntity] never registers anything: World.js imports
    nothing, so [new Entity(id)] raises a ReferenceError for [Entity]
    before [addEntity] is reached, and the World is as it was.  In a module
    that binds [Entity] the same method creates an empty, enabled entity
    and registers it, when the id is free, as [addEntity] does. *)
Theorem createEntity_raises_ReferenceError
    (scope : list string) (entityId : string) (w : World.t) :
  World.createEntity entityId w = Throw (JS.ReferenceError "Entity") (None, w, [])
  /\ (JS.resolveBinding scope "Entity" = Some "Entity"%string ->
      World.getEntity entityId w = None ->
      exists w' effects,
        World.createEntityIn scope entityId w
        = Normal (Some (Entity.constructor entityId), w', effects)
        /\ World.addEntity (Entity.constructor entityId) w = (true, w', effects)
        /\ World.getEntity entityId w' = Some (Entity.constructor entityId)
        /\ World.entityCounter w' = S (World.entityCounter w)).
Proof.
  split; [reflexivity|].
  intros Hscope Hfresh. unfold World.createEntityIn. rewrite Hscope.
  assert (Hhas : JSMap.has entityId (World.entities w) = false).
  { unfold JSMap.has. unfold World.getEntity in Hfresh. rewrite Hfresh. reflexivity. }
  unfold World.addEntity. cbn [Entity.id Entity.constructor]. rewrite Hhas.
  do 2 eexists. split; [reflexivity|]. split; [reflexivity|].
  split; [|reflexivity]. unfold World.getEntity. cbn. apply get_set_eq.
Qed.

Lemma createEntity_raises_ReferenceError_witness :
  exists w' effects,
    World.createEntityIn ["World"; "Entity"]%string "player" Scenario.worldAB
    = Normal (Some (Entity.constructor "player"), w', effects)
    /\ World.addEntity (Entity.constructor "player") Scenario.worldAB
       = (true, w', effects)
    /\ World.getEntity "player" w' = Some (Entity.constructor "player")
    /\ World.entityCounter w' = S (World.entityCounter Scenario.worldAB).
Proof.
  apply (proj2 (createEntity_raises_ReferenceError ["World"; "Entity"]%string
                  "player" Scenario.worldAB)); reflexivity.
Defined.

(** ** Queries *)

(** X12: the entities a System processes are the enabled ones among those
    that [getEntitiesWithComponents] returns for its required classes, in
    the same (registration) order; a disabled entity is returned by the
    World's query and skipped by every System. *)
Theorem matching_entities_are_the_enabled_query_results
    (system : System.t) (w : World.t) (entity : Entity.t) :
  World.getMatchingEntities system w
  = List.filter Entity.isEnabled
      (World.getEntitiesWithComponents (System.requiredComponents system) w)
  /\ (In entity (World.getMatchingEntities system w)
      <-> In entity (World.getEntities w) /\ System.matches system entity = true)
  /\ (In entity (World.getEntitiesWithComponents (System.requiredComponents system) w) ->
      Entity.isEnabled entity = false ->
      ~ In entity (World.getMatchingEntities system w)).
Proof.
  assert (H : World.getMatchingEntities system w
              = List.filter Entity.isEnabled
                  (World.getEntitiesWithComponents (System.requiredComponents system) w)).
  { unfold World.getMatchingEntities, World.getEntitiesWithComponents.
    induction (World.getEntities w) as [|e l IH]; cbn; [reflexivity|].
    unfold System.matches at 1.
    destruct (Entity.isEnabled e) eqn:E; cbn;
      destruct (forallb _ (System.requiredComponents system)); cbn;
      rewrite ?E, IH; reflexivity. }
  split; [exact H|]. split.
  - unfold World.getMatchingEntities. apply List.filter_In.
  - intros _ Hd Hin. unfold World.getMatchingEntities in Hin.
    apply List.filter_In in Hin. destruct Hin as [_ Hm].
    unfold System.matches in Hm. rewrite Hd in Hm. discriminate.
Qed.

Lemma matching_entities_are_the_enabled_query_results_witness :
  ~ In (Entity.disable Scenario.entityAB)
       (World.getMatchingEntities Scenario.systemAB
          (World.perform (World.Disable "e") Scenario.worldAB)).
Proof.
  apply (proj2 (proj2 (matching_entities_are_the_enabled_query_results
                         Scenario.systemAB
                         (World.perform (World.Disable "e") Scenario.worldAB)
                         (Entity.disable Scenario.entityAB)))).
  - left. reflexivity.
  - reflexivity.
Defined.

(** ** Construction of a Physics component *)





(** ** Forces and impulses *)

Lemma applyGravity_queues (p : Physics.t) : queues (Physics.applyGravity p) = queues p.
Proof. unfold Physics.applyGravity. destruct (negb _); reflexivity. Qed.

Lemma fold_applyImpulse_forces (l : list Physics.Impulse) (p : Physics.t) :
  Physics.forces (fold_left Physics.applyImpulse l p) = Physics.forces p.
Proof. revert p. induction l as [|i l IH]; intros p; cbn; [reflexivity|]. rewrite IH. reflexivity. Qed.

Lemma applyImpulses_queues (p : Physics.t) :
  queues (Physics.applyImpulses p) = (Physics.forces p, []).
Proof.
  unfold Physics.applyImpulses, queues. cbn. rewrite fold_applyImpulse_forces. reflexivity.
Qed.

Lemma fold_applyForce (deltaTime : float) (l : list Physics.Force)
    (p : Physics.t) (acc : list Physics.Force) :
  snd (fold_left (Physics.applyForce deltaTime) l (p, acc))
  = acc ++ List.filter active (map (aged deltaTime) l)
  /\ Physics.impulses (fst (fold_left (Physics.applyForce deltaTime) l (p, acc)))
     = Physics.impulses p.
Proof.
  revert p acc. induction l as [|f l IH]; intros p acc; cbn [fold_left map List.filter].
  - rewrite app_nil_r. split; reflexivity.
  - unfold Physics.applyForce at 2 4. fold (aged deltaTime f).
    change ((Physics.duration (aged deltaTime f) =? 0)
            || (Physics.elapsed (aged deltaTime f) <? Physics.duration (aged deltaTime f)))
      with (active (aged deltaTime f)).
    destruct (active (aged deltaTime f)).
    + destruct (IH (Physics.set_accelerationY
                      (Physics.accelerationY
                         (Physics.set_accelerationX
                            (Physics.accelerationX p + Physics.fx f / Physics.mass p) p)
                       + Physics.fy f
                         / Physics.mass
                             (Physics.set_accelerationX
                                (Physics.accelerationX p + Physics.fx f / Physics.mass p) p))
                      (Physics.set_accelerationX
                         (Physics.accelerationX p + Physics.fx f / Physics.mass p) p))
                   (acc ++ [aged deltaTime f])) as [H1 H2].
      rewrite H1, H2, <- app_assoc. split; reflexivity.
    + destruct (IH (Physics.set_accelerationY
                      (Physics.accelerationY
                         (Physics.set_accelerationX
                            (Physics.accelerationX p + Physics.fx f / Physics.mass p) p)
                       + Physics.fy f
                         / Physics.mass
                             (Physics.set_accelerationX
                                (Physics.accelerationX p + Physics.fx f / Physics.mass p) p))
                      (Physics.set_accelerationX
                         (Physics.accelerationX p + Physics.fx f / Physics.mass p) p))
                   acc) as [H1 H2].
      rewrite H1, H2. split; reflexivity.
Qed.

Lemma applyForces_queues (deltaTime : float) (p : Physics.t) :
  queues (Physics.applyForces deltaTime p)
  = (List.filter active (map (aged deltaTime) (Physics.forces p)), Physics.impulses p).
Proof.
  unfold Physics.applyForces, queues. cbn.
  destruct (fold_applyForce deltaTime (Physics.forces p) p []) as [H1 H2].
  rewrite H1, H2. reflexivity.
Qed.

Lemma updateVelocity_queues (deltaTime : float) (p : Physics.t) :
  queues (Physics.updateVelocity deltaTime p) = queues p.
Proof. reflexivity. Qed.

Lemma set_angularVelocity_queues (v : float) (p : Physics.t) :
  queues (Physics.set_angularVelocity v p) = queues p.
Proof. reflexivity. Qed.

Lemma applyFriction_queues (p : Physics.t) : queues (Physics.applyFriction p) = queues p.
Proof. unfold Physics.applyFriction. destruct (negb _); reflexivity. Qed.

Lemma limitSpeed_queues (speed : float) (p : Physics.t) :
  queues (Physics.limitSpeed speed p) = queues p.
Proof.
  unfold Physics.limitSpeed.
  destruct (Physics.maxSpeed p <? speed); cbn;
    match goal with |- context [if ?c then _ else _] => destruct c end; reflexivity.
Qed.

Lemma resetAcceleration_queues (p : Physics.t) :
  queues (Physics.resetAcceleration p) = queues p.
Proof. unfold Physics.resetAcceleration. destruct (Physics.forces p); reflexivity. Qed.

Lemma checkSleep_queues (speed : float) (p : Physics.t) :
  queues (Physics.checkSleep speed p) = queues p.
Proof. unfold Physics.checkSleep. destruct (_ && _); reflexivity. Qed.

Lemma update_queues (deltaTime : float) (p : Physics.t) (tr : Transform.t) :
  Physics.isSleeping p = false -> Physics.isStatic p = false ->
  queues (fst (Physics.update deltaTime p tr))
  = (List.filter active (map (aged deltaTime) (Physics.forces p)), []).
Proof.
  intros Hz Hs.
  remember (Physics.applyFriction
              (Physics.updateVelocity deltaTime
                 (Physics.applyForces deltaTime
                    (Physics.applyImpulses (Physics.applyGravity p))))) as q5 eqn:Q5.
  remember (Physics.set_angularVelocity
              (Physics.angularVelocity (Physics.limitSpeed (Physics.getSpeed q5) q5)
               + Physics.angularAcceleration (Physics.limitSpeed (Physics.getSpeed q5) q5)
                 * deltaTime)
              (Physics.limitSpeed (Physics.getSpeed q5) q5)) as q7 eqn:Q7.
  rewrite (update_phases deltaTime p q5 q7 (Physics.getSpeed q5) tr Hz Hs Q5 eq_refl Q7).
  cbn [fst]. rewrite checkSleep_queues, resetAcceleration_queues, Q7.
  rewrite set_angularVelocity_queues, limitSpeed_queues, Q5, applyFriction_queues.
  rewrite updateVelocity_queues, applyForces_queues.
  pose proof (applyImpulses_queues (Physics.applyGravity p)) as H.
  pose proof (applyGravity_queues p) as G.
  pose proof (f_equal fst H) as H1. pose proof (f_equal snd H) as H2.
  pose proof (f_equal fst G) as G1. unfold queues in H1, H2, G1. cbn [fst snd] in *.
  rewrite H1, H2, G1. reflexivity.
Qed.

(** X14: one integration step of a body that is neither asleep nor static
    empties the impulse queue and keeps, of the forces, each one aged by
    [deltaTime], in the same order, when it is continuous
    ([duration == 0]) or has not yet run for its duration; so a continuous
    force is never dropped, and a timed force is dropped at the first step
    at which its elapsed time reaches its duration. *)
Theorem update_drains_impulses_and_expires_forces
    (deltaTime : float) (p : Physics.t) (tr : Transform.t) (force : Physics.Force) :
  Physics.isSleeping p = false -> Physics.isStatic p = false ->
  let p' := fst (Physics.update deltaTime p tr) in
  Physics.impulses p' = []
  /\ Physics.forces p'
     = List.filter active (map (aged deltaTime) (Physics.forces p))
  /\ (In force (Physics.forces p) ->
      (Physics.duration force =? 0) = true ->
      In (aged deltaTime force) (Physics.forces p'))
  /\ (In force (Physics.forces p') ->
      (Physics.duration force =? 0) = true
      \/ (Physics.elapsed force <? Physics.duration force) = true).
Proof.
  intros Hz Hs. cbv zeta.
  pose proof (update_queues deltaTime p tr Hz Hs) as H.
  pose proof (f_equal fst H) as Hf. pose proof (f_equal snd H) as Hi.
  unfold queues in Hf, Hi. cbn [fst snd] in Hf, Hi. clear H. rewrite Hf.
  split; [exact Hi|]. split; [reflexivity|]. split.
  - intros Hin Hd. apply List.filter_In. split; [apply in_map, Hin|].
    unfold active, aged. cbn. rewrite Hd. reflexivity.
  - intros Hin. apply List.filter_In in Hin. destruct Hin as [_ Ha].
    unfold active in Ha. apply orb_true_iff in Ha. exact Ha.
Qed.

Lemma update_drains_impulses_and_expires_forces_witness :
  Physics.impulses
    (fst (Physics.update (1 / 60)
            (Physics.addImpulse 3 4
               (Physics.addForce 5 0 (Some 1) (Physics.constructor Physics.noData)))
            (Transform.constructor None None)))
  = [].
Proof.
  refine (proj1 (update_drains_impulses_and_expires_forces (1 / 60)
                   (Physics.addImpulse 3 4
                      (Physics.addForce 5 0 (Some 1) (Physics.constructor Physics.noData)))
                   (Transform.constructor None None)
                   {| Physics.fx := 5; Physics.fy := 0; Physics.duration := 1;
                      Physics.elapsed := 0 |} _ _)); reflexivity.
Defined.

(** ** Acceleration under a continuous force *)

Lemma applyGravity_kinematic (p : Physics.t) :
  Physics.isKinematic p = true -> Physics.applyGravity p = p.
Proof. intros H. unfold Physics.applyGravity. rewrite H. reflexivity. Qed.

Lemma fold_applyImpulse_accelerations (l : list Physics.Impulse) (p : Physics.t) :
  accelerations (fold_left Physics.applyImpulse l p) = accelerations p.
Proof. revert p. induction l as [|i l IH]; intros p; cbn; [reflexivity|]. rewrite IH. reflexivity. Qed.

Lemma applyImpulses_accelerations (p : Physics.t) :
  accelerations (Physics.applyImpulses p) = accelerations p.
Proof.
  unfold Physics.applyImpulses.
  rewrite <- (fold_applyImpulse_accelerations (Physics.impulses p) p). reflexivity.
Qed.

Lemma applyForces_one (deltaTime : float) (p : Physics.t) (force : Physics.Force) :
  Physics.forces p = [force] ->
  accelerations (Physics.applyForces deltaTime p)
  = (Physics.accelerationX p + Physics.fx force / Physics.mass p,
     Physics.accelerationY p + Physics.fy force / Physics.mass p).
Proof.
  intros H. unfold Physics.applyForces. rewrite H. cbn [fold_left].
  unfold Physics.applyForce.
  match goal with |- context [if ?c then _ else _] => destruct c end; reflexivity.
Qed.

Lemma updateVelocity_accelerations (deltaTime : float) (p : Physics.t) :
  accelerations (Physics.updateVelocity deltaTime p) = accelerations p.
Proof. reflexivity. Qed.

Lemma applyFriction_accelerations (p : Physics.t) :
  accelerations (Physics.applyFriction p) = accelerations p.
Proof. unfold Physics.applyFriction. destruct (negb _); reflexivity. Qed.

Lemma limitSpeed_accelerations (speed : float) (p : Physics.t) :
  accelerations (Physics.limitSpeed speed p) = accelerations p.
Proof.
  unfold Physics.limitSpeed.
  destruct (Physics.maxSpeed p <? speed); cbn;
    match goal with |- context [if ?c then _ else _] => destruct c end; reflexivity.
Qed.

Lemma set_angularVelocity_accelerations (v : float) (p : Physics.t) :
  accelerations (Physics.set_angularVelocity v p) = accelerations p.
Proof. reflexivity. Qed.

Lemma resetAcceleration_accelerations (p : Physics.t) :
  accelerations (Physics.resetAcceleration p)
  = match Physics.forces p with [] => (0, 0) | _ :: _ => accelerations p end.
Proof. unfold Physics.resetAcceleration. destruct (Physics.forces p); reflexivity. Qed.

Lemma checkSleep_accelerations (speed : float) (p : Physics.t) :
  accelerations (Physics.checkSleep speed p) = accelerations p.
Proof. unfold Physics.checkSleep. destruct (_ && _); reflexivity. Qed.

(** The queues and the acceleration in the state [q7] that [update] has
    reached when it resets the acceleration. *)
Lemma phases_queues (deltaTime : float) (p q5 q7 : Physics.t) (speed : float) :
  q5 = Physics.applyFriction
         (Physics.updateVelocity deltaTime
            (Physics.applyForces deltaTime
               (Physics.applyImpulses (Physics.applyGravity p)))) ->
  q7 = Physics.set_angularVelocity
         (Physics.angularVelocity (Physics.limitSpeed speed q5)
          + Physics.angularAcceleration (Physics.limitSpeed speed q5) * deltaTime)
         (Physics.limitSpeed speed q5) ->
  queues q7 = (List.filter active (map (aged deltaTime) (Physics.forces p)), []).
Proof.
  intros Q5 Q7.
  rewrite Q7, set_angularVelocity_queues, limitSpeed_queues, Q5, applyFriction_queues,
    updateVelocity_queues, applyForces_queues.
  pose proof (applyImpulses_queues (Physics.applyGravity p)) as H.
  pose proof (applyGravity_queues p) as G.
  pose proof (f_equal fst H) as H1. pose proof (f_equal snd H) as H2.
  pose proof (f_equal fst G) as G1. unfold queues in H1, H2, G1.
  cbn [fst snd] in H1, H2, G1.
  rewrite H1, H2, G1. reflexivity.
Qed.

Lemma phases_accelerations (deltaTime : float) (p q5 q7 : Physics.t) (speed : float) :
  q5 = Physics.applyFriction
         (Physics.updateVelocity deltaTime
            (Physics.applyForces deltaTime
               (Physics.applyImpulses (Physics.applyGravity p)))) ->
  q7 = Physics.set_angularVelocity
         (Physics.angularVelocity (Physics.limitSpeed speed q5)
          + Physics.angularAcceleration (Physics.limitSpeed speed q5) * deltaTime)
         (Physics.limitSpeed speed q5) ->
  accelerations q7
  = accelerations
      (Physics.applyForces deltaTime (Physics.applyImpulses (Physics.applyGravity p))).
Proof.
  intros Q5 Q7.
  rewrite Q7, set_angularVelocity_accelerations, limitSpeed_accelerations, Q5,
    applyFriction_accelerations, updateVelocity_accelerations.
  reflexivity.
Qed.

Lemma update_reaches (deltaTime : float) (p : Physics.t) (tr : Transform.t) :
  Physics.isSleeping p = false -> Physics.isStatic p = false ->
  exists q5 q7 speed,
    q5 = Physics.applyFriction
           (Physics.updateVelocity deltaTime
              (Physics.applyForces deltaTime
                 (Physics.applyImpulses (Physics.applyGravity p))))
    /\ q7 = Physics.set_angularVelocity
              (Physics.angularVelocity (Physics.limitSpeed speed q5)
               + Physics.angularAcceleration (Physics.limitSpeed speed q5) * deltaTime)
              (Physics.limitSpeed speed q5)
    /\ Physics.update deltaTime p tr
       = (Physics.checkSleep speed (Physics.resetAcceleration q7),
          Physics.integratePosition deltaTime q7 tr).
Proof.
  intros Hz Hs. do 3 eexists. split; [reflexivity|]. split; [reflexivity|].
  eapply update_phases; [exact Hz | exact Hs | reflexivity | reflexivity | reflexivity].
Qed.

(** After any step of a body that is neither asleep nor static, the
    acceleration is zero when no force remains and is what the forces left
    it otherwise. *)
Lemma update_accelerations (deltaTime : float) (p : Physics.t) (tr : Transform.t) :
  Physics.isSleeping p = false -> Physics.isStatic p = false ->
  accelerations (fst (Physics.update deltaTime p tr))
  = match List.filter active (map (aged deltaTime) (Physics.forces p)) with
    | [] => (0, 0)
    | _ :: _ =>
        accelerations
          (Physics.applyForces deltaTime (Physics.applyImpulses (Physics.applyGravity p)))
    end.
Proof.
  intros Hz Hs.
  destruct (update_reaches deltaTime p tr Hz Hs) as (q5 & q7 & speed & Q5 & Q7 & Hu).
  rewrite Hu. cbn [fst].
  rewrite checkSleep_accelerations, resetAcceleration_accelerations.
  pose proof (f_equal fst (phases_queues deltaTime p q5 q7 speed Q5 Q7)) as F7.
  unfold queues in F7. cbn [fst] in F7. rewrite F7.
  rewrite (phases_accelerations deltaTime p q5 q7 speed Q5 Q7).
  reflexivity.
Qed.

Lemma update_pushed (deltaTime : float) (p : Physics.t) (tr : Transform.t)
    (force : Physics.Force) (mass0 : float) :
  pushed force mass0 p -> Physics.isSleeping p = false ->
  pushed force mass0 (fst (Physics.update deltaTime p tr))
  /\ accelerations (fst (Physics.update deltaTime p tr))
     = (Physics.accelerationX p + Physics.fx force / mass0,
        Physics.accelerationY p + Physics.fy force / mass0).
Proof.
  intros (Hs & Hk & Hm & e0 & Hf) Hz.
  pose proof (update_parameters deltaTime p tr) as Hpar.
  pose proof (update_queues deltaTime p tr Hz Hs) as Hq.
  pose proof (update_accelerations deltaTime p tr Hz Hs) as Ha.
  rewrite Hf in Hq, Ha. cbn [map List.filter] in Hq, Ha.
  unfold active, aged in Hq, Ha. cbn in Hq, Ha.
  split.
  - unfold parameters in Hpar. unfold pushed.
    split; [congruence|]. split; [congruence|]. split; [congruence|].
    exists (e0 + deltaTime). apply (f_equal fst) in Hq. exact Hq.
  - rewrite Ha. rewrite applyGravity_kinematic by exact Hk.
    assert (Hi : Physics.forces (Physics.applyImpulses p) = Physics.forces p)
      by (pose proof (f_equal fst (applyImpulses_queues p)) as H; exact H).
    rewrite (applyForces_one deltaTime (Physics.applyImpulses p) _ (eq_trans Hi Hf)).
    pose proof (applyImpulses_accelerations p) as Hacc.
    pose proof (applyImpulses_parameters p) as Hp2. unfold parameters in Hp2.
    assert (Hmass : Physics.mass (Physics.applyImpulses p) = mass0) by congruence.
    apply (f_equal fst) in Hacc as Hx. apply (f_equal snd) in Hacc as Hy.
    unfold accelerations in Hx, Hy. cbn [fst snd] in Hx, Hy.
    rewrite Hx, Hy, Hmass. reflexivity.
Qed.

(** X15: the acceleration is reset at the end of a step only when no force
    remains.  So on a kinematic body (which takes no gravity) pushed by one
    continuous force, each step taken while the body is awake adds
    [force / mass] to the acceleration once more: after [n] steps the
    acceleration is the starting one plus [n] times that quotient, added
    one at a time, instead of staying at [force / mass]. *)
Theorem continuous_force_accumulates_acceleration
    (n : nat) (deltaTime : float) (p : Physics.t) (tr : Transform.t)
    (force : Physics.Force) :
  Physics.isStatic p = false -> Physics.isKinematic p = true ->
  Physics.forces p = [force] -> Physics.duration force = 0 ->
  awake n deltaTime (p, tr) = true ->
  Physics.accelerationX (fst (Scenario.steps n deltaTime (p, tr)))
  = Nat.iter n (fun a => a + Physics.fx force / Physics.mass p) (Physics.accelerationX p)
  /\ Physics.accelerationY (fst (Scenario.steps n deltaTime (p, tr)))
     = Nat.iter n (fun a => a + Physics.fy force / Physics.mass p) (Physics.accelerationY p)
  /\ length (Physics.forces (fst (Scenario.steps n deltaTime (p, tr)))) = 1%nat.
Proof.
  intros Hs Hk Hf Hd Hawake.
  assert (H0 : pushed force (Physics.mass p) p).
  { split; [exact Hs|]. split; [exact Hk|]. split; [reflexivity|].
    exists (Physics.elapsed force). rewrite Hf, <- Hd. destruct force; reflexivity. }
  assert (H : pushed force (Physics.mass p) (fst (Scenario.steps n deltaTime (p, tr)))
              /\ accelerations (fst (Scenario.steps n deltaTime (p, tr)))
                 = (Nat.iter n (fun a => a + Physics.fx force / Physics.mass p)
                      (Physics.accelerationX p),
                    Nat.iter n (fun a => a + Physics.fy force / Physics.mass p)
                      (Physics.accelerationY p))).
  { induction n as [|n IH]; [split; [exact H0 | reflexivity]|].
    apply awake_S in Hawake. destruct Hawake as [Hawake Hz].
    destruct (IH Hawake) as [Hp Ha]. clear IH.
    cbn [Scenario.steps Nat.iter]. cbv zeta.
    destruct (update_pushed deltaTime _ (snd (Scenario.steps n deltaTime (p, tr)))
                force (Physics.mass p) Hp Hz) as [Hp' Ha'].
    split; [exact Hp'|]. rewrite Ha'.
    apply (f_equal fst) in Ha as Hx. apply (f_equal snd) in Ha as Hy.
    unfold accelerations in Hx, Hy. cbn [fst snd] in Hx, Hy. rewrite Hx, Hy. reflexivity. }
  destruct H as [(_ & _ & _ & e0 & Hforces) Ha].
  apply (f_equal fst) in Ha as Hx. apply (f_equal snd) in Ha as Hy.
  unfold accelerations in Hx, Hy. cbn [fst snd] in Hx, Hy.
  split; [exact Hx|]. split; [exact Hy|]. rewrite Hforces. reflexivity.
Qed.

Lemma continuous_force_accumulates_acceleration_witness :
  Physics.accelerationX
    (fst (Scenario.steps 3 (1 / 60)
            (Physics.addForce 10 0 None
               (Physics.setVelocity 50 0 (Physics.physics Scenario.kinematicA)),
             Transform.constructor None None)))
  = 0 + 10 / 1 + 10 / 1 + 10 / 1.
Proof.
  refine (proj1 (continuous_force_accumulates_acceleration 3 (1 / 60)
                   (Physics.addForce 10 0 None
                      (Physics.setVelocity 50 0 (Physics.physics Scenario.kinematicA)))
                   (Transform.constructor None None)
                   {| Physics.fx := 10; Physics.fy := 0; Physics.duration := 0;
                      Physics.elapsed := 0 |} _ _ _ _ _)); vm_compute; reflexivity.
Defined.

(** ** Sleep *)

Lemma steps_asleep (n : nat) (deltaTime : float) (p : Physics.t) (tr : Transform.t) :
  Physics.isSleeping p = true -> Scenario.steps n deltaTime (p, tr) = (p, tr).
Proof.
  intros H. induction n as [|n IH]; [reflexivity|].
  cbn [Scenario.steps]. cbv zeta. rewrite IH. cbn [fst snd].
  apply update_sleeping, H.
Qed.

(** X16: sleep is one-way for the integration.  A body with
    [isSleeping = true] is left exactly as it is by any number of steps;
    queueing an impulse or a force on it, or setting its velocity, does
    not wake it: the next steps still change nothing, so the impulse is
    never applied and the body never moves. *)
Theorem sleeping_body_never_wakes
    (n : nat) (deltaTime x y : float) (duration : option float)
    (p : Physics.t) (tr : Transform.t) :
  Physics.isSleeping p = true ->
  Scenario.steps n deltaTime (p, tr) = (p, tr)
  /\ Scenario.steps n deltaTime (Physics.addImpulse x y p, tr)
     = (Physics.addImpulse x y p, tr)
  /\ Scenario.steps n deltaTime (Physics.addForce x y duration p, tr)
     = (Physics.addForce x y duration p, tr)
  /\ Scenario.steps n deltaTime (Physics.setVelocity x y p, tr)
     = (Physics.setVelocity x y p, tr)
  /\ Scenario.steps n deltaTime (Physics.clearCollisions p, tr)
     = (Physics.clearCollisions p, tr).
Proof.
  intros H. repeat split; apply steps_asleep; exact H.
Qed.

Lemma sleeping_body_never_wakes_witness :
  Scenario.steps 5 (1 / 60)
    (Physics.addImpulse 100 0
       (fst (Physics.update (1 / 60) (Physics.physics Scenario.kinematicA)
               (Transform.constructor None None))),
     Transform.constructor None None)
  = (Physics.addImpulse 100 0
       (fst (Physics.update (1 / 60) (Physics.physics Scenario.kinematicA)
               (Transform.constructor None None))),
     Transform.constructor None None).
Proof.
  refine (proj1 (proj2 (sleeping_body_never_wakes 5 (1 / 60) 100 0 None
                          (fst (Physics.update (1 / 60)
                                  (Physics.physics Scenario.kinematicA)
                                  (Transform.constructor None None)))
                          (Transform.constructor None None) _))).
  vm_compute. reflexivity.
Defined.

(** ** What a frame keeps *)

(** A relation between an entity and the same entity later that every
    entity-level step of [PhysicsSystem.update] respects holds between the
    array before the frame and the array after it. *)
Section FrameRelation.
Variable R : Physics.Body -> Physics.Body -> Prop.
Hypothesis R_refl : forall e, R e e.
Hypothesis R_trans : forall e1 e2 e3, R e1 e2 -> R e2 e3 -> R e1 e3.
Hypothesis R_integrate :
  forall system deltaTime e, R e (PhysicsSystem.updateEntityPhysics system deltaTime e).
Hypothesis R_respond :
  forall collision other e, R e (JS.state_of (Physics.handleCollision collision other e)).
Hypothesis R_clamp : forall wb e, R e (PhysicsSystem.checkWorldBounds wb e).
Hypothesis R_clear :
  forall e, R e (Physics.set_physics (Physics.clearCollisions (Physics.physics e)) e).

Lemma related_refl (l : list Physics.Body) : Forall2 R l l.
Proof. induction l; constructor; auto. Qed.

Lemma related_trans (l1 l2 l3 : list Physics.Body) :
  Forall2 R l1 l2 -> Forall2 R l2 l3 -> Forall2 R l1 l3.
Proof.
  intros H. revert l3. induction H; intros l3 H3; inversion H3; subst;
    constructor; eauto.
Qed.

Lemma related_map (f : Physics.Body -> Physics.Body) (l : list Physics.Body) :
  (forall e, R e (f e)) -> Forall2 R l (map f l).
Proof. intros H. induction l; cbn; constructor; auto. Qed.

Lemma related_insert (l l' : list Physics.Body) (i : nat) (a a' : Physics.Body) :
  Forall2 R l l' -> l' !! i = Some a -> R a a' -> Forall2 R l (<[i:=a']> l').
Proof.
  intros H Hi K.
  destruct (Forall2_lookup_r _ _ _ _ _ H Hi) as (x & Hx & Kx).
  rewrite <- (list_insert_id l i x) by exact Hx.
  apply Forall2_insert; [exact H|]. eapply R_trans; eassumption.
Qed.

Lemma checkCollision_related (system : PhysicsSystem.t) (a b : Physics.Body) :
  R a (snd (fst (JS.state_of (PhysicsSystem.checkCollision system a b))))
  /\ R b (snd (JS.state_of (PhysicsSystem.checkCollision system a b))).
Proof.
  unfold PhysicsSystem.checkCollision.
  destruct (negb _ || negb _); [split; apply R_refl|].
  destruct (Physics.checkCollision _ _ _ _) as [c|]; [|split; apply R_refl].
  pose proof (R_respond (Some c) (Physics.id b) a) as Ha.
  destruct (Physics.handleCollision (Some c) (Physics.id b) a) as [a'|e a'];
    cbn in Ha; [|split; [exact Ha | apply R_refl]].
  match goal with
  | |- context [Physics.handleCollision ?m ?o b] =>
      pose proof (R_respond m o b) as Hb;
      destruct (Physics.handleCollision m o b) as [b'|e b']
  end; cbn in Hb; split; assumption.
Qed.

Lemma checkCollisionAt_related (entities0 : list Physics.Body) (i j : nat)
    (st : PhysicsSystem.t * list Physics.Body) :
  Forall2 R entities0 (snd st) ->
  Forall2 R entities0 (snd (JS.state_of (PhysicsSystem.checkCollisionAt i j st))).
Proof.
  destruct st as [system entities]. cbn [snd]. intros H.
  unfold PhysicsSystem.checkCollisionAt.
  destruct (entities !! i) as [a|] eqn:Hi; [|exact H].
  destruct (entities !! j) as [b|] eqn:Hj; [|exact H].
  destruct (checkCollision_related system a b) as [Ha Hb].
  assert (Hstep : forall a' b', R a a' -> R b b' ->
            Forall2 R entities0 (<[j:=b']> (<[i:=a']> entities))).
  { intros a' b' Ka Kb.
    destruct (decide (i = j)) as [->|Hne].
    - rewrite list_insert_insert_eq. eapply related_insert; eassumption.
    - eapply related_insert; [eapply related_insert; eassumption| |exact Kb].
      rewrite list_lookup_insert_ne by exact Hne. exact Hj. }
  destruct (PhysicsSystem.checkCollision system a b) as [[[s' a'] b']|e [[s' a'] b']];
    cbn in *; apply Hstep; assumption.
Qed.

Lemma update_related (system : PhysicsSystem.t) (deltaTime : float)
    (entities : list Physics.Body) :
  Forall2 R entities
    (snd (JS.state_of (PhysicsSystem.update system deltaTime entities))).
Proof.
  unfold PhysicsSystem.update.
  destruct (negb _); [apply related_refl|].
  assert (H : Forall2 R entities
                (snd (JS.state_of
                        (PhysicsSystem.integrateAndDetect system deltaTime entities)))).
  { unfold PhysicsSystem.integrateAndDetect.
    destruct (PhysicsSystem.collisionEnabled system);
      [|apply related_map; intros e; apply R_integrate].
    eapply related_trans; [apply related_map; intros e; apply R_integrate|].
    unfold PhysicsSystem.detectCollisions.
    apply (forEach_preserves
             (fun st => Forall2 R (map (PhysicsSystem.updateEntityPhysics system deltaTime)
                                      entities) (snd st)));
      [|apply related_refl].
    intros i st Hst.
    apply (forEach_preserves
             (fun st => Forall2 R (map (PhysicsSystem.updateEntityPhysics system deltaTime)
                                      entities) (snd st))); [|exact Hst].
    intros j st' Hst'. apply checkCollisionAt_related. exact Hst'. }
  destruct (PhysicsSystem.integrateAndDetect system deltaTime entities)
    as [[s' es']|e [s' es']]; cbn in *; [|exact H].
  eapply related_trans; [exact H|].
  eapply related_trans; [|apply related_map; intros e; apply R_clear].
  destruct (PhysicsSystem.worldBounds s'); [|apply related_refl].
  apply related_map. intros e. apply R_clamp.
Qed.

Lemma run_related (frames : list float) (st : PhysicsSystem.t * list Physics.Body) :
  Forall2 R (snd st) (snd (JS.state_of (PhysicsSystem.run frames st))).
Proof.
  revert st. induction frames as [|dt frames IH]; intros st; cbn; [apply related_refl|].
  pose proof (update_related (fst st) dt (snd st)) as H.
  destruct (PhysicsSystem.update (fst st) dt (snd st)) as [st1|e st1]; cbn in H |- *.
  - eapply related_trans; [exact H | apply IH].
  - exact H.
Qed.

End FrameRelation.

Lemma sameBody_refl (e : Physics.Body) : sameBody e e.
Proof. repeat split; auto. Qed.

Lemma sameBody_trans (e1 e2 e3 : Physics.Body) :
  sameBody e1 e2 -> sameBody e2 e3 -> sameBody e1 e3.
Proof.
  intros (I1 & S1 & K1 & Z1) (I2 & S2 & K2 & Z2).
  repeat split; try congruence. auto.
Qed.

Lemma parameters_flags (p q : Physics.t) :
  parameters p = parameters q ->
  Physics.isStatic p = Physics.isStatic q
  /\ Physics.isKinematic p = Physics.isKinematic q.
Proof.
  intros H. destruct (parameters_fields _ _ H) as (S & K & _). split; assumption.
Qed.

Lemma sameBody_integrate (system : PhysicsSystem.t) (deltaTime : float)
    (e : Physics.Body) :
  sameBody e (PhysicsSystem.updateEntityPhysics system deltaTime e).
Proof.
  destruct (Physics.isSleeping (Physics.physics e)) eqn:Hz.
  - rewrite updateEntityPhysics_sleeping by exact Hz. apply sameBody_refl.
  - unfold PhysicsSystem.updateEntityPhysics.
    destruct (Physics.isStatic (Physics.physics e) || Physics.isSleeping (Physics.physics e));
      [apply sameBody_refl|].
    pose proof (update_parameters deltaTime
                  (PhysicsSystem.imposeGravity system (Physics.physics e))
                  (Physics.transform e)) as H.
    destruct (Physics.update _ _ _) as [p' t']. cbn [fst] in H.
    destruct (parameters_flags _ _ H) as [S K].
    assert (Hi : Physics.isStatic (PhysicsSystem.imposeGravity system (Physics.physics e))
                 = Physics.isStatic (Physics.physics e)
                 /\ Physics.isKinematic (PhysicsSystem.imposeGravity system (Physics.physics e))
                    = Physics.isKinematic (Physics.physics e))
      by (unfold PhysicsSystem.imposeGravity; destruct (negb _); split; reflexivity).
    destruct Hi as [Si Ki].
    split; [reflexivity|]. cbn. split; [congruence|]. split; [congruence|].
    rewrite Hz. discriminate.
Qed.

Lemma sameBody_respond (collision : option Physics.CollisionInfo) (other : string)
    (e : Physics.Body) :
  sameBody e (JS.state_of (Physics.handleCollision collision other e)).
Proof.
  destruct collision as [c|]; [|apply sameBody_refl].
  destruct (Physics.isStatic (Physics.physics e)) eqn:Hs.
  - rewrite handleCollision_fixed by (left; exact Hs). repeat split; auto.
  - destruct (Physics.isKinematic (Physics.physics e)) eqn:Hk.
    + rewrite handleCollision_fixed by (right; exact Hk). repeat split; auto.
    + rewrite handleCollision_dynamic by assumption. repeat split; auto.
Qed.

Lemma sameBody_clamp (wb : Physics.Bounds) (e : Physics.Body) :
  sameBody e (PhysicsSystem.checkWorldBounds wb e).
Proof.
  unfold PhysicsSystem.checkWorldBounds.
  destruct (Physics.isStatic (Physics.physics e)) eqn:Hs; [apply sameBody_refl|].
  repeat match goal with
         | |- context [if ?c then _ else _] => destruct c; cbn
         end; repeat split; auto.
Qed.

Lemma sameBody_clear (e : Physics.Body) :
  sameBody e (Physics.set_physics (Physics.clearCollisions (Physics.physics e)) e).
Proof. repeat split; auto. Qed.

Lemma sameBody_fixed (l l' : list Physics.Body) :
  Forall2 sameBody l l' -> Forall fixed l -> Forall fixed l'.
Proof.
  induction 1 as [|e e' l l' (I & S & K & Z) Hl IH]; intros Hf; [constructor|].
  apply Forall_cons in Hf. destruct Hf as [He Hf]. constructor; [|auto].
  unfold fixed in *. rewrite S, K. exact He.
Qed.

(** ** Frames that cannot throw *)

Lemma forEach_completes {A S : Type} (P : S -> Prop) (f : A -> S -> outcome S)
    (l : list A) :
  (forall a s, P s -> exists s', f a s = Normal s' /\ P s') ->
  forall s, P s -> exists s', JS.forEach f l s = Normal s' /\ P s'.
Proof.
  intros Hf. induction l as [|a l IH]; intros s Hs; cbn; [eauto|].
  destruct (Hf a s Hs) as (s' & -> & Hs'). apply IH, Hs'.
Qed.

Lemma checkCollision_fixed_completes (system : PhysicsSystem.t) (a b : Physics.Body) :
  fixed a -> fixed b ->
  exists system' a' b',
    PhysicsSystem.checkCollision system a b = Normal (system', a', b')
    /\ fixed a' /\ fixed b'.
Proof.
  intros Ha Hb.
  destruct (checkCollision_related sameBody sameBody_refl sameBody_respond system a b)
    as [Ka Kb].
  assert (Fa : forall a', sameBody a a' -> fixed a').
  { intros a' (I & S & K & Z). unfold fixed in *. rewrite S, K. exact Ha. }
  assert (Fb : forall b', sameBody b b' -> fixed b').
  { intros b' (I & S & K & Z). unfold fixed in *. rewrite S, K. exact Hb. }
  unfold PhysicsSystem.checkCollision in *.
  destruct (negb _ || negb _); [eauto 10|].
  destruct (Physics.checkCollision _ _ _ _) as [c|]; [|eauto 10].
  rewrite handleCollision_fixed in * by exact Ha.
  cbv beta iota zeta in Ka, Kb |- *.
  match goal with
  | |- context [Physics.handleCollision (Some ?m) ?o b] =>
      rewrite (handleCollision_fixed m o b Hb) in *
  end.
  cbn in Ka, Kb |- *. eauto 10.
Qed.

Lemma detectCollisions_fixed_completes (system : PhysicsSystem.t)
    (entities : list Physics.Body) :
  Forall fixed entities ->
  exists st, PhysicsSystem.detectCollisions system entities = Normal st
             /\ Forall fixed (snd st).
Proof.
  intros H. unfold PhysicsSystem.detectCollisions.
  apply (forEach_completes (fun st => Forall fixed (snd st))); [|exact H].
  intros i st Hst.
  apply (forEach_completes (fun st => Forall fixed (snd st))); [|exact Hst].
  clear. intros j [sys es] Hes. cbn [snd] in Hes.
  unfold PhysicsSystem.checkCollisionAt.
  destruct (es !! i) as [a|] eqn:Hi; [|eauto].
  destruct (es !! j) as [b|] eqn:Hj; [|eauto].
  assert (Ha : fixed a) by (eapply (proj1 (Forall_lookup _ _) Hes); exact Hi).
  assert (Hb : fixed b) by (eapply (proj1 (Forall_lookup _ _) Hes); exact Hj).
  destruct (checkCollision_fixed_completes sys a b Ha Hb)
    as (s' & a' & b' & -> & Fa & Fb).
  eexists. split; [reflexivity|]. cbn [snd].
  apply Forall_insert; [apply Forall_insert; assumption | exact Fb].
Qed.

Lemma update_fixed_completes (system : PhysicsSystem.t) (deltaTime : float)
    (entities : list Physics.Body) :
  Forall fixed entities ->
  exists st, PhysicsSystem.update system deltaTime entities = Normal st.
Proof.
  intros H. unfold PhysicsSystem.update.
  destruct (negb _); [eauto|].
  unfold PhysicsSystem.integrateAndDetect.
  destruct (PhysicsSystem.collisionEnabled system); [|eauto].
  assert (H1 : Forall fixed (map (PhysicsSystem.updateEntityPhysics system deltaTime)
                               entities)).
  { eapply sameBody_fixed; [|exact H].
    apply related_map. intros e. apply sameBody_integrate. }
  destruct (detectCollisions_fixed_completes system _ H1) as ([s' es'] & -> & _).
  eauto.
Qed.

(** X17: through any number of frames, whether the last one returns or
    throws, the array keeps its length and each entity its id and its
    static and kinematic flags, and an entity that was asleep is still
    asleep: nothing in the physics system wakes a body.  When every entity
    is static or kinematic, no frame throws. *)
Theorem frames_keep_identity_flags_and_sleep
    (frames : list float) (system : PhysicsSystem.t) (entities : list Physics.Body) :
  Forall2
    (fun e e' =>
       Physics.id e' = Physics.id e
       /\ Physics.isStatic (Physics.physics e') = Physics.isStatic (Physics.physics e)
       /\ Physics.isKinematic (Physics.physics e')
          = Physics.isKinematic (Physics.physics e)
       /\ (Physics.isSleeping (Physics.physics e) = true ->
           Physics.isSleeping (Physics.physics e') = true))
    entities
    (snd (JS.state_of (PhysicsSystem.run frames (system, entities))))
  /\ length (snd (JS.state_of (PhysicsSystem.run frames (system, entities))))
     = length entities
  /\ (Forall (fun e => Physics.isStatic (Physics.physics e) = true
                       \/ Physics.isKinematic (Physics.physics e) = true) entities ->
      exists st, PhysicsSystem.run frames (system, entities) = Normal st).
Proof.
  pose proof (run_related sameBody sameBody_refl sameBody_trans sameBody_integrate
                sameBody_respond sameBody_clamp sameBody_clear) as Hrun.
  split; [exact (Hrun frames (system, entities))|].
  split; [symmetry; exact (Forall2_length _ _ _ (Hrun frames (system, entities)))|].
  intros Hfixed. change (Forall fixed entities) in Hfixed.
  revert system entities Hfixed.
  induction frames as [|dt frames IH]; intros system entities Hfixed; cbn; [eauto|].
  destruct (update_fixed_completes system dt entities Hfixed) as ([s' es'] & Hu).
  rewrite Hu. apply IH.
  eapply sameBody_fixed; [|exact Hfixed].
  pose proof (update_related sameBody sameBody_refl sameBody_trans sameBody_integrate
                sameBody_respond sameBody_clamp sameBody_clear system dt entities) as H.
  rewrite Hu in H. exact H.
Qed.

Lemma frames_keep_identity_flags_and_sleep_witness :
  exists st,
    PhysicsSystem.run [1 / 60; 1 / 60; 1 / 60]
      (PhysicsSystem.constructor, [Scenario.kinematicA; Scenario.kinematicB])
    = Normal st.
Proof.
  apply (proj2 (proj2 (frames_keep_identity_flags_and_sleep [1 / 60; 1 / 60; 1 / 60]
                         PhysicsSystem.constructor
                         [Scenario.kinematicA; Scenario.kinematicB]))).
  constructor; [right; reflexivity|].
  constructor; [right; reflexivity|].
  constructor.
Defined.

(** ** The collision filter *)

Lemma checkCollision_Some (this other : Physics.t)
    (transform otherTransform : Transform.t) (collision : Physics.CollisionInfo) :
  Physics.checkCollision this other transform otherTransform = Some collision <->
  Physics.collisionEnabled this = true
  /\ Physics.collisionEnabled other = true
  /\ Physics.includes (Physics.collisionMask this) (Physics.collisionGroup other) = true
  /\ Physics.includes (Physics.collisionMask other) (Physics.collisionGroup this) = true
  /\ Physics.boundsApart (Physics.getBounds this transform)
       (Physics.getBounds other otherTransform) = false
  /\ Physics.performShapeCollision this other transform otherTransform = Some collision.
Proof.
  unfold Physics.checkCollision.
  destruct (Physics.collisionEnabled this), (Physics.collisionEnabled other); cbn;
    try (split; [discriminate | intros (? & ? & _); discriminate]).
  destruct (Physics.includes (Physics.collisionMask this) _); cbn;
    [|split; [discriminate | intros (_ & _ & ? & _); discriminate]].
  destruct (Physics.includes (Physics.collisionMask other) _); cbn;
    [|split; [discriminate | intros (_ & _ & _ & ? & _); discriminate]].
  destruct (Physics.boundsApart _ _);
    [split; [discriminate | intros (_ & _ & _ & _ & ? & _); discriminate]|].
  split; [intros H; repeat split; exact H | intros (_ & _ & _ & _ & _ & H); exact H].
Qed.

(** X18: [checkCollision] reports a collision exactly when both bodies have
    collisions enabled, each mask lists the other's group, the bounding
    boxes are not apart and the shape test reports it.  The filter is
    two-sided: a body whose collisions are off, or one mask that omits the
    other body's group, gives no collision in either order of the pair. *)
Theorem checkCollision_filter_is_two_sided
    (this other : Physics.t) (transform otherTransform : Transform.t) :
  (forall collision,
      Physics.checkCollision this other transform otherTransform = Some collision <->
      Physics.collisionEnabled this = true
      /\ Physics.collisionEnabled other = true
      /\ Physics.includes (Physics.collisionMask this) (Physics.collisionGroup other)
         = true
      /\ Physics.includes (Physics.collisionMask other) (Physics.collisionGroup this)
         = true
      /\ Physics.boundsApart (Physics.getBounds this transform)
           (Physics.getBounds other otherTransform) = false
      /\ Physics.performShapeCollision this other transform otherTransform
         = Some collision)
  /\ (Physics.collisionEnabled this = false
      \/ Physics.includes (Physics.collisionMask this) (Physics.collisionGroup other)
         = false ->
      Physics.checkCollision this other transform otherTransform = None
      /\ Physics.checkCollision other this otherTransform transform = None).
Proof.
  split; [intros collision; apply checkCollision_Some|].
  intros H.
  split.
  - destruct (Physics.checkCollision this other transform otherTransform) as [c|] eqn:E;
      [|reflexivity].
    apply checkCollision_Some in E. destruct E as (E1 & _ & E3 & _).
    destruct H; congruence.
  - destruct (Physics.checkCollision other this otherTransform transform) as [c|] eqn:E;
      [|reflexivity].
    apply checkCollision_Some in E. destruct E as (_ & E2 & _ & E4 & _).
    destruct H; congruence.
Qed.

Lemma checkCollision_filter_is_two_sided_witness :
  Physics.checkCollision
    (Physics.constructor (Scenario.groupedData "player" ["player"; "wall"]))
    (Physics.constructor (Scenario.groupedData "enemy" ["player"; "enemy"]))
    (Transform.constructor (Some 0) (Some 0)) (Transform.constructor (Some 5) (Some 0))
  = None
  /\ Physics.checkCollision
       (Physics.constructor (Scenario.groupedData "enemy" ["player"; "enemy"]))
       (Physics.constructor (Scenario.groupedData "player" ["player"; "wall"]))
       (Transform.constructor (Some 5) (Some 0)) (Transform.constructor (Some 0) (Some 0))
     = None.
Proof.
  apply (proj2 (checkCollision_filter_is_two_sided
                  (Physics.constructor (Scenario.groupedData "player" ["player"; "wall"]))
                  (Physics.constructor (Scenario.groupedData "enemy" ["player"; "enemy"]))
                  (Transform.constructor (Some 0) (Some 0))
                  (Transform.constructor (Some 5) (Some 0)))).
  right. reflexivity.
Defined.

(** ** A pair of fixed bodies *)

(** X19: when [checkCollision] of the system meets two bodies that are
    static or kinematic and that collide, it returns normally; each body
    gets one record appended, the first with the normal of the collision,
    the second with the negated normal, both are flagged as colliding,
    neither is moved or changes velocity, and the pair is appended to
    [collisionPairs] with the ids of the two entities. *)
Theorem fixed_pair_is_recorded_and_not_moved
    (system : PhysicsSystem.t) (a b : Physics.Body) (collision : Physics.CollisionInfo) :
  Physics.isStatic (Physics.physics a) = true
  \/ Physics.isKinematic (Physics.physics a) = true ->
  Physics.isStatic (Physics.physics b) = true
  \/ Physics.isKinematic (Physics.physics b) = true ->
  Physics.checkCollision (Physics.physics a) (Physics.physics b)
    (Physics.transform a) (Physics.transform b) = Some collision ->
  exists system' a' b',
    PhysicsSystem.checkCollision system a b = Normal (system', a', b')
    /\ PhysicsSystem.collisionPairs system'
       = PhysicsSystem.collisionPairs system
         ++ [{| PhysicsSystem.entityA := Physics.id a;
                PhysicsSystem.entityB := Physics.id b;
                PhysicsSystem.collision := collision |}]
    /\ Physics.collisions (Physics.physics a')
       = Physics.collisions (Physics.physics a)
         ++ [{| Physics.other := Physics.id b;
                Physics.recNormalX := Physics.normalX collision;
                Physics.recNormalY := Physics.normalY collision;
                Physics.recDepth := Physics.depth collision |}]
    /\ Physics.collisions (Physics.physics b')
       = Physics.collisions (Physics.physics b)
         ++ [{| Physics.other := Physics.id a;
                Physics.recNormalX := - Physics.normalX collision;
                Physics.recNormalY := - Physics.normalY collision;
                Physics.recDepth := Physics.depth collision |}]
    /\ Physics.isColliding (Physics.physics a') = true
    /\ Physics.isColliding (Physics.physics b') = true
    /\ Physics.transform a' = Physics.transform a
    /\ Physics.transform b' = Physics.transform b
    /\ (Physics.velocityX (Physics.physics a'), Physics.velocityY (Physics.physics a'))
       = (Physics.velocityX (Physics.physics a), Physics.velocityY (Physics.physics a))
    /\ (Physics.velocityX (Physics.physics b'), Physics.velocityY (Physics.physics b'))
       = (Physics.velocityX (Physics.physics b), Physics.velocityY (Physics.physics b)).
Proof.
  intros Ha Hb Hc.
  pose proof (proj1 (checkCollision_Some _ _ _ _ _) Hc) as (Ea & Eb & _).
  unfold PhysicsSystem.checkCollision.
  cbv zeta. rewrite Ea, Eb, Hc. cbn [negb orb].
  rewrite (handleCollision_fixed collision (Physics.id b) a Ha).
  match goal with
  | |- context [Physics.handleCollision (Some ?m) ?o b] =>
      rewrite (handleCollision_fixed m o b Hb)
  end.
  do 3 eexists. split; [reflexivity|]. cbn. repeat split.
Qed.

Lemma fixed_pair_is_recorded_and_not_moved_witness :
  exists system' a' b',
    PhysicsSystem.checkCollision PhysicsSystem.constructor
      Scenario.kinematicA Scenario.kinematicB = Normal (system', a', b')
    /\ PhysicsSystem.collisionPairs system'
       = [{| PhysicsSystem.entityA := "a"%string;
             PhysicsSystem.entityB := "b"%string;
             PhysicsSystem.collision :=
               {| Physics.normalX := 1; Physics.normalY := 0; Physics.depth := 5;
                  Physics.point := Some {| Physics.px := 10; Physics.py := 0 |} |} |}].
Proof.
  destruct (fixed_pair_is_recorded_and_not_moved PhysicsSystem.constructor
              Scenario.kinematicA Scenario.kinematicB
              {| Physics.normalX := 1; Physics.normalY := 0; Physics.depth := 5;
                 Physics.point := Some {| Physics.px := 10; Physics.py := 0 |} |})
    as (system' & a' & b' & H & Hp & _).
  - right. reflexivity.
  - right. reflexivity.
  - vm_compute. reflexivity.
  - exists system', a', b'. split; [exact H | exact Hp].
Defined.

(** ** The two switches of the physics system *)

(** X20: a disabled physics system leaves the system and every entity as
    they are, for any number of frames.  With collision detection switched
    off, no frame throws, whatever the bodies are, and the system object is
    unchanged: [collisionPairs] keeps the pairs of the last frame that
    detected collisions. *)
Theorem switched_off_system_does_not_respond
    (frames : list float) (system : PhysicsSystem.t) (entities : list Physics.Body) :
  (System.isEnabled (PhysicsSystem.super system) = false ->
   PhysicsSystem.run frames (system, entities) = Normal (system, entities))
  /\ (PhysicsSystem.collisionEnabled system = false ->
      exists entities',
        PhysicsSystem.run frames (system, entities) = Normal (system, entities')).
Proof.
  split.
  - intros H. induction frames as [|dt frames IH]; cbn; [reflexivity|].
    unfold PhysicsSystem.update. rewrite H. cbn. exact IH.
  - intros H. revert entities.
    induction frames as [|dt frames IH]; intros entities; cbn; [eauto|].
    unfold PhysicsSystem.update, PhysicsSystem.integrateAndDetect.
    rewrite H.
    destruct (negb _); [apply IH|].
    destruct (PhysicsSystem.worldBounds system); apply IH.
Qed.

Lemma switched_off_system_does_not_respond_witness :
  PhysicsSystem.run [1 / 60; 1 / 60]
    (PhysicsSystem.disable PhysicsSystem.constructor,
     [Scenario.dynamicA; Scenario.dynamicB])
  = Normal (PhysicsSystem.disable PhysicsSystem.constructor,
            [Scenario.dynamicA; Scenario.dynamicB])
  /\ exists entities',
       PhysicsSystem.run [1 / 60; 1 / 60]
         (PhysicsSystem.setCollisionEnabled false PhysicsSystem.constructor,
          [Scenario.dynamicA; Scenario.dynamicB])
       = Normal (PhysicsSystem.setCollisionEnabled false PhysicsSystem.constructor,
                 entities').
Proof.
  split.
  - apply (proj1 (switched_off_system_does_not_respond [1 / 60; 1 / 60]
                    (PhysicsSystem.disable PhysicsSystem.constructor)
                    [Scenario.dynamicA; Scenario.dynamicB])).
    reflexivity.
  - apply (proj2 (switched_off_system_does_not_respond [1 / 60; 1 / 60]
                    (PhysicsSystem.setCollisionEnabled false PhysicsSystem.constructor)
                    [Scenario.dynamicA; Scenario.dynamicB])).
    reflexivity.
Defined.
